(** * Envelope-encryption rule executor (schemaregistry/rules/encryption)

    A shallow embedding of [encrypt_executor.go] and the properties of its
    key lifecycle manager, ciphertext framer and field transform.

    Conventions of the embedding.
    - Go [int] and [int64] are 64-bit two's complement integers, modelled as
      [Z] with the wrap-around written out ([GoInt]).
    - A [[]byte] is modelled by its contents, a [list byte]; where the code
      tests a slice against [nil] the model uses [option bytes], [None]
      being the nil slice.  Capacity is not modelled: a slice owns no spare
      room beyond its length.
    - A Go [string] is a sequence of bytes, here [string].
    - A function returning a pointer and an error whose callers test the pointer
      against [nil] returns [option T * option error]; a call into a
      collaborator returning a value and an error returns [res T].
    - Panics (index out of range, nil dereference, failed type assertion)
      are outcomes of their own, distinct from returned errors.
    - Everything outside this file (registry client, clock, KMS, tink,
      base64) is reached through the [Collaborators] interface, threads an
      abstract [World] and is recorded in a call log. *)

From Stdlib Require Import ZArith List String Ascii Bool Lia.
From Stdlib Require Import Strings.Byte.
From Stdlib Require Import DecimalString.
Import ListNotations.

Local Open Scope Z_scope.
Local Open Scope string_scope.
Local Open Scope list_scope.

Set Implicit Arguments.

Definition bytes := list byte.

(** ** Go integers *)

Module GoInt.

Definition wrap_signed (bits z : Z) : Z :=
  (z + 2 ^ (bits - 1)) mod 2 ^ bits - 2 ^ (bits - 1).

Definition int64 (z : Z) : Z := wrap_signed 64 z.
Definition uint32 (z : Z) : Z := z mod 2 ^ 32.

Definition in_int64 (z : Z) : Prop := - 2 ^ 63 <= z < 2 ^ 63.

Definition sub64 (a b : Z) : Z := int64 (a - b).
Definition add64 (a b : Z) : Z := int64 (a + b).
(** Go's [/] truncates toward zero. *)
Definition div64 (a b : Z) : Z := int64 (Z.quot a b).

(** [byte(x)]: the low eight bits. *)
Definition byte_of_Z (z : Z) : byte :=
  match Byte.of_N (Z.to_N (z mod 256)) with
  | Some b => b
  | None => x00
  end.

Definition Z_of_byte (b : byte) : Z := Z.of_N (Byte.to_N b).

(** [strconv.Itoa] *)
Definition Itoa (z : Z) : string := NilZero.string_of_int (Z.to_int z).

End GoInt.

(** ** encoding/binary, big endian *)

Module BigEndian.
Import GoInt.

(** [binary.BigEndian.PutUint32(b, v)] on a fresh four-byte slice. *)
Definition PutUint32 (v : Z) : bytes :=
  [ byte_of_Z (Z.shiftr v 24); byte_of_Z (Z.shiftr v 16);
    byte_of_Z (Z.shiftr v 8); byte_of_Z v ].

(** [binary.BigEndian.Uint32(b)] of the four bytes [b0 b1 b2 b3]. *)
Definition Uint32 (b0 b1 b2 b3 : byte) : Z :=
  Z.lor (Z.lor (Z.lor (Z_of_byte b3) (Z.shiftl (Z_of_byte b2) 8))
               (Z.shiftl (Z_of_byte b1) 16))
        (Z.shiftl (Z_of_byte b0) 24).

(** The positional value of four bytes, most significant first. *)
Definition value_of (b0 b1 b2 b3 : byte) : Z :=
  Z_of_byte b0 * 2 ^ 24 + Z_of_byte b1 * 2 ^ 16
  + Z_of_byte b2 * 2 ^ 8 + Z_of_byte b3.

End BigEndian.

(** ** Panics and results *)

Inductive panic : Type :=
| IndexOutOfRange
| SliceBoundsOutOfRange
| NilPointerDereference
| InterfaceConversion.

Inductive outcome (A : Type) : Type :=
| Returns (a : A)
| Panics (p : panic).
Arguments Panics {A} p.

(** ** serde and schemaregistry declarations used by the executor *)

(** Modelled from the spec: the rule mode of [schemaregistry], declared
    outside this file.  The executor tells [Write] and [Read] apart and
    rejects every other mode. *)
Inductive Mode : Type :=
| Write
| Read
| UnrecognizedMode (code : Z).

Definition Mode_eqb (a b : Mode) : bool :=
  match a, b with
  | Write, Write => true
  | Read, Read => true
  | UnrecognizedMode x, UnrecognizedMode y => Z.eqb x y
  | _, _ => false
  end.

(** Modelled from the spec: the logical field type of [serde], declared
    outside this file.  Only the byte-sequence and textual types are
    supported by the executor. *)
Inductive FieldType : Type :=
| TypeBytes
| TypeString
| TypeOther (code : Z).

(** A value of type [interface{}] handed to the transform. *)
Inductive value : Type :=
| NilValue                         (* the nil interface *)
| BytesValue (b : option bytes)    (* dynamic type []byte; [None] is a nil slice *)
| StringValue (s : string)         (* dynamic type string *)
| OtherValue (tag : Z).            (* any other dynamic type *)

(** ** Errors *)

Inductive fmtarg : Type :=
| ArgS (s : string)
| ArgI (z : Z)
| ArgFieldType (t : FieldType)
| ArgMode (m : Mode).

Inductive error : Type :=
| RestError (Code : Z) (Message : string)      (* a rest.Error *)
| ForeignError (msg : string)                  (* any other error of a collaborator *)
| Errorf (format : string) (args : list fmtarg). (* [fmt.Errorf], [errors.New] *)

Inductive res (A : Type) : Type :=
| OK (a : A)
| Error (e : error).
Arguments Error {A} e.

(** [strings.HasPrefix(strconv.Itoa(restErr.Code), class)] under
    [errors.As(err, &restErr)]. *)
Definition hasStatus (class : string) (err : error) : bool :=
  match err with
  | RestError code _ => String.prefix class (GoInt.Itoa code)
  | _ => false
  end.

(** ** Constants *)

Definition EncryptKekName := "encrypt.kek.name".
Definition EncryptKmsKeyID := "encrypt.kms.key.id".
Definition EncryptKmsType := "encrypt.kms.type".
Definition EncryptDekAlgorithm := "encrypt.dek.algorithm".
Definition EncryptDekExpiryDays := "encrypt.dek.expiry.days".

Definition Aes128Gcm := "AES128_GCM".
Definition Aes256Gcm := "AES256_GCM".
Definition Aes256Siv := "AES256_SIV".

Definition MillisInDay : Z := 24 * 60 * 60 * 1000.

(** ** Data model *)

(** [tinkpb.KeyTemplate], by the fields the executor reads. *)
Record KeyTemplate : Type := {
  TypeUrl : string;
  Value : bytes
}.

(** Modelled from the spec: the registry records of package [deks]
    (section 3 of the specification); their declarations are outside this
    file. *)
Record Kek : Type := {
  Kek_Name : string;
  Kek_KmsType : string;
  Kek_KmsKeyID : string;
  Kek_KmsProps : list (string * string);
  Kek_Shared : bool
}.

Record Dek : Type := {
  Dek_Version : Z;
  Dek_Ts : Z;
  Dek_EncryptedKeyMaterial : string;
  Dek_KeyMaterial : option bytes
}.

Record KekID : Type := {
  KekID_Name : string;
  KekID_Deleted : bool
}.

Record DekID : Type := {
  DekID_KekName : string;
  DekID_Subject : string;
  DekID_Version : Z;
  DekID_Algorithm : string;
  DekID_Deleted : bool
}.

(** [serde.RuleContext], by what the executor reads from it. *)
Record RuleContext : Type := {
  RuleMode : Mode;
  Subject : string;
  GetParameter : string -> option string
}.

Record Cryptor : Type := {
  DekFormat : string;
  Cryptor_KeyTemplate : option KeyTemplate
}.

Record ExecutorTransform : Type := {
  Config : list (string * string);   (* Executor.Config *)
  Cryptor_ : Cryptor;
  KekName : string;
  Kek_ : Kek;
  DekExpiryDays : Z
}.

(** ** Slices *)

Definition contents (s : option bytes) : bytes :=
  match s with
  | Some b => b
  | None => []
  end.

(** [s[i]] *)
Definition index (s : bytes) (i : nat) : outcome byte :=
  match nth_error s i with
  | Some b => Returns b
  | None => Panics IndexOutOfRange
  end.

(** [s[lo:hi]] *)
Definition slice (s : bytes) (lo hi : nat) : outcome bytes :=
  if (Nat.leb lo hi && Nat.leb hi (List.length s))%bool
  then Returns (firstn (hi - lo) (skipn lo s))
  else Panics SliceBoundsOutOfRange.

(** [s[lo:]] *)
Definition slice_from (s : bytes) (lo : nat) : outcome bytes :=
  if Nat.leb lo (List.length s)
  then Returns (skipn lo s)
  else Panics SliceBoundsOutOfRange.

(** ** Collaborators

    The packages the executor calls into: [serde] (the frame's marker
    byte), [encoding/base64], tink (key templates, the primitive registry,
    the [tink.AEAD] and [tink.DeterministicAEAD] interfaces, the KMS client
    registry), the KMS driver table, the [Clock] and the [deks.Client].
    Calls that may depend on or change the outside world thread [World]. *)

Class Collaborators : Type := {
  World : Type;
  (* serde *)
  MagicByteV0 : byte;
  (* base64.StdEncoding *)
  EncodeToString : bytes -> string;
  DecodeString : string -> res bytes;
  (* tink: key templates and primitives *)
  AEAD : Type;
  DeterministicAEAD : Type;
  Primitive : Type;
  AES128GCMKeyTemplate : KeyTemplate;
  AES256GCMKeyTemplate : KeyTemplate;
  AESSIVKeyTemplate : KeyTemplate;
  registry_Primitive : string -> bytes -> res Primitive;
  asAEAD : Primitive -> option AEAD;
  asDeterministicAEAD : Primitive -> option DeterministicAEAD;
  registry_NewKeyData : option KeyTemplate -> World -> res bytes * World;
  Encrypt : AEAD -> bytes -> bytes -> World -> res bytes * World;
  Decrypt : AEAD -> bytes -> bytes -> World -> res bytes * World;
  EncryptDeterministically :
    DeterministicAEAD -> bytes -> bytes -> World -> res bytes * World;
  DecryptDeterministically :
    DeterministicAEAD -> bytes -> bytes -> World -> res bytes * World;
  (* KMS drivers and clients *)
  KMSDriver : Type;
  KMSClient : Type;
  GetKMSDriver : string -> World -> res KMSDriver * World;
  registry_GetKMSClient : string -> World -> res KMSClient * World;
  NewKMSClient :
    KMSDriver -> list (string * string) -> string -> World ->
    res KMSClient * World;
  registry_RegisterKMSClient : KMSClient -> World -> unit * World;
  GetAEAD : KMSClient -> string -> World -> res AEAD * World;
  (* Clock *)
  NowUnixMilli : World -> Z * World;
  (* deks.Client *)
  GetKek : string -> bool -> World -> res Kek * World;
  RegisterKek :
    string -> string -> string -> list (string * string) -> string -> bool ->
    World -> res Kek * World;
  GetDek : string -> string -> string -> bool -> World -> res Dek * World;
  GetDekVersion :
    string -> string -> Z -> string -> bool -> World -> res Dek * World;
  RegisterDek :
    string -> string -> string -> string -> World -> res Dek * World;
  RegisterDekVersion :
    string -> string -> Z -> string -> string -> World -> res Dek * World;
  GetDekKeyMaterialBytes : Dek -> World -> res (option bytes) * World;
  GetDekEncryptedKeyMaterialBytes : Dek -> World -> res bytes * World;
  (* mutates the record behind the pointer: the updated record is returned *)
  SetDekKeyMaterial : Dek -> bytes -> World -> Dek * World
}.

(** ** The call log *)

Inductive Event : Type :=
| EvGetKek (name : string) (deleted : bool)
| EvRegisterKek (name kmsType kmsKeyID : string) (shared : bool)
| EvGetDek (kekName subject algorithm : string) (deleted : bool)
| EvGetDekVersion (kekName subject : string) (version : Z)
                  (algorithm : string) (deleted : bool)
| EvRegisterDek (kekName subject algorithm encryptedDek : string)
| EvRegisterDekVersion (kekName subject : string) (version : Z)
                       (algorithm encryptedDek : string)
| EvGetDekKeyMaterialBytes
| EvGetDekEncryptedKeyMaterialBytes
| EvSetDekKeyMaterial
| EvNowUnixMilli
| EvGetKMSDriver (kekURL : string)
| EvGetKMSClient (kekURL : string)
| EvNewKMSClient (kekURL : string)
| EvRegisterKMSClient
| EvGetAEAD (kekURL : string)
| EvKekEncrypt                 (* the KEK's AEAD wraps a DEK *)
| EvKekDecrypt                 (* the KEK's AEAD unwraps a DEK *)
| EvNewKeyData
| EvPrimitive (typeURL : string)
| EvEncrypt
| EvDecrypt
| EvEncryptDeterministically
| EvDecryptDeterministically
| EvLog (format : string) (args : list fmtarg).

(** Calls that create key material in the registry. *)
Definition isRegistration (e : Event) : bool :=
  match e with
  | EvRegisterKek _ _ _ _ | EvRegisterDek _ _ _ _
  | EvRegisterDekVersion _ _ _ _ _ => true
  | _ => false
  end.

(** Calls that reach a KMS: driver and client resolution and the KEK's
    AEAD. *)
Definition isKms (e : Event) : bool :=
  match e with
  | EvGetKMSDriver _ | EvGetKMSClient _ | EvNewKMSClient _
  | EvRegisterKMSClient | EvGetAEAD _ | EvKekEncrypt | EvKekDecrypt => true
  | _ => false
  end.

(** Lookups and registrations of KEK records. *)
Definition isKekRegistryCall (e : Event) : bool :=
  match e with
  | EvGetKek _ _ | EvRegisterKek _ _ _ _ => true
  | _ => false
  end.

(** ** The monad of the embedding: world, call log, panics *)

Record state_of (W : Type) : Type := {
  world : W;
  calls : list Event
}.

Abbreviation state := (state_of World).

Section Executor.

Context {C : Collaborators}.

Definition M (A : Type) : Type := state -> outcome A * state.

Definition ret {A} (a : A) : M A := fun s => (Returns a, s).

Definition bind {A B} (m : M A) (k : A -> M B) : M B :=
  fun s =>
    match m s with
    | (Returns a, s') => k a s'
    | (Panics p, s') => (Panics p, s')
    end.

Definition panic_ {A} (p : panic) : M A := fun s => (Panics p, s).

Definition lift {A} (o : outcome A) : M A := fun s => (o, s).

Definition emit (e : Event) : M unit :=
  fun s => (Returns tt, {| world := world s; calls := calls s ++ [e] |}).

(** A call into a collaborator: logged, then run on the world. *)
Definition call {A} (e : Event) (op : World -> A * World) : M A :=
  fun s =>
    let r := op (world s) in
    (Returns (fst r), {| world := snd r; calls := calls s ++ [e] |}).

(** A call into a collaborator that does not touch the world. *)
Definition call_pure {A} (e : Event) (a : A) : M A :=
  fun s => (Returns a, {| world := world s; calls := calls s ++ [e] |}).

End Executor.

Notation "x <- m ;; k" := (bind m (fun x => k))
  (at level 61, m at next level, right associativity).
Notation "' pat <- m ;; k" := (bind m (fun x => match x with pat => k end))
  (at level 61, pat pattern, m at next level, right associativity).
Notation "m ;;; k" := (bind m (fun _ => k))
  (at level 61, right associativity).

Section Functions.

Context {C : Collaborators}.

(** ** Cryptographic primitive selector *)

Definition getCryptor (ctx : RuleContext) : Cryptor :=
  let algorithm :=
    match GetParameter ctx EncryptDekAlgorithm with
    | None => Aes256Gcm
    | Some alg => alg
    end in
  let keyTemplate :=
    if String.eqb algorithm Aes128Gcm then Some AES128GCMKeyTemplate
    else if String.eqb algorithm Aes256Gcm then Some AES256GCMKeyTemplate
    else if String.eqb algorithm Aes256Siv then Some AESSIVKeyTemplate
    else None in
  {| DekFormat := algorithm; Cryptor_KeyTemplate := keyTemplate |}.

(** [c.KeyTemplate.TypeUrl]: a field read through a pointer. *)
Definition KeyTemplate_TypeUrl (c : Cryptor) : outcome string :=
  match Cryptor_KeyTemplate c with
  | Some kt => Returns (TypeUrl kt)
  | None => Panics NilPointerDereference
  end.

Definition encrypt (c : Cryptor) (dek plaintext associatedData : bytes)
  : M (res bytes) :=
  typeURL <- lift (KeyTemplate_TypeUrl c) ;;
  r <- call_pure (EvPrimitive typeURL) (registry_Primitive typeURL dek) ;;
  match r with
  | Error err => ret (Error err)
  | OK primitive =>
      if String.eqb (DekFormat c) Aes256Siv then
        match asDeterministicAEAD primitive with
        | None => panic_ InterfaceConversion
        | Some primitive =>
            call EvEncryptDeterministically
                 (EncryptDeterministically primitive plaintext associatedData)
        end
      else
        match asAEAD primitive with
        | None => panic_ InterfaceConversion
        | Some primitive =>
            call EvEncrypt (Encrypt primitive plaintext associatedData)
        end
  end.

Definition decrypt (c : Cryptor) (dek ciphertext associatedData : bytes)
  : M (res bytes) :=
  typeURL <- lift (KeyTemplate_TypeUrl c) ;;
  r <- call_pure (EvPrimitive typeURL) (registry_Primitive typeURL dek) ;;
  match r with
  | Error err => ret (Error err)
  | OK primitive =>
      if String.eqb (DekFormat c) Aes256Siv then
        match asDeterministicAEAD primitive with
        | None => panic_ InterfaceConversion
        | Some primitive =>
            call EvDecryptDeterministically
                 (DecryptDeterministically primitive ciphertext associatedData)
        end
      else
        match asAEAD primitive with
        | None => panic_ InterfaceConversion
        | Some primitive =>
            call EvDecrypt (Decrypt primitive ciphertext associatedData)
        end
  end.

(** ** Conversions between field values and bytes *)

Definition toBytes (fieldType : FieldType) (obj : value)
  : outcome (option bytes) :=
  match fieldType with
  | TypeBytes =>
      match obj with
      | BytesValue b => Returns b
      | _ => Panics InterfaceConversion
      end
  | TypeString =>
      match obj with
      | StringValue s => Returns (Some (list_byte_of_string s))
      | _ => Panics InterfaceConversion
      end
  | TypeOther _ => Returns None
  end.

Definition toObject (fieldType : FieldType) (obj : bytes) : value :=
  match fieldType with
  | TypeBytes => BytesValue (Some obj)
  | TypeString => StringValue (string_of_list_byte obj)
  | TypeOther _ => NilValue
  end.

Definition isDekRotated (f : ExecutorTransform) : bool :=
  (0 <? DekExpiryDays f)%Z.

(** ** Ciphertext framer *)

(** The writes into a [bytes.Buffer] never return an error. *)
Definition prefixVersion (version : Z) (ciphertext : bytes) : res bytes :=
  OK (MagicByteV0
        :: BigEndian.PutUint32 (GoInt.uint32 version) ++ ciphertext).

Definition extractVersion (ciphertext : bytes) : outcome (Z * option error) :=
  match index ciphertext 0 with
  | Panics p => Panics p
  | Returns b =>
      if negb (Byte.eqb b MagicByteV0)
      then Returns (-1, Some (Errorf "unknown magic byte" []))
      else
        match slice ciphertext 1 5 with
        | Returns [b0; b1; b2; b3] =>
            Returns (BigEndian.Uint32 b0 b1 b2 b3, None)
        | Returns _ => Panics IndexOutOfRange
        | Panics p => Panics p
        end
  end.

(** ** KMS client resolution *)

Definition registerKMSClient (kmsDriver : KMSDriver)
           (config : list (string * string)) (keyURL : string)
  : M (res KMSClient) :=
  r <- call (EvNewKMSClient keyURL) (NewKMSClient kmsDriver config keyURL) ;;
  match r with
  | Error err => ret (Error err)
  | OK kmsClient =>
      call EvRegisterKMSClient (registry_RegisterKMSClient kmsClient) ;;;
      ret (OK kmsClient)
  end.

Definition getKMSClient (config : list (string * string)) (kekURL : string)
  : M (res KMSClient) :=
  d <- call (EvGetKMSDriver kekURL) (GetKMSDriver kekURL) ;;
  match d with
  | Error err => ret (Error err)
  | OK driver =>
      c <- call (EvGetKMSClient kekURL) (registry_GetKMSClient kekURL) ;;
      match c with
      | Error _ =>
          c' <- registerKMSClient driver config kekURL ;;
          match c' with
          | Error err => ret (Error err)
          | OK client => ret (OK client)
          end
      | OK client => ret (OK client)
      end
  end.

Definition getAead (config : list (string * string)) (kek : Kek)
  : M (res AEAD) :=
  let kekURL := (Kek_KmsType kek ++ "://" ++ Kek_KmsKeyID kek)%string in
  c <- getKMSClient config kekURL ;;
  match c with
  | Error err => ret (Error err)
  | OK kmsClient => call (EvGetAEAD kekURL) (GetAEAD kmsClient kekURL)
  end.

(** ** Key lifecycle manager: KEKs *)

Definition retrieveKekFromRegistry (f : ExecutorTransform) (key : KekID)
  : M (option Kek * option error) :=
  r <- call (EvGetKek (KekID_Name key) (KekID_Deleted key))
            (GetKek (KekID_Name key) (KekID_Deleted key)) ;;
  match r with
  | Error err =>
      if hasStatus "404" err then ret (None, None) else ret (None, Some err)
  | OK kek => ret (Some kek, None)
  end.

Definition storeKekToRegistry (f : ExecutorTransform) (key : KekID)
           (kmsType kmsKeyID : string) (shared : bool)
  : M (option Kek * option error) :=
  r <- call (EvRegisterKek (KekID_Name key) kmsType kmsKeyID shared)
            (RegisterKek (KekID_Name key) kmsType kmsKeyID [] EmptyString shared) ;;
  match r with
  | Error err =>
      if hasStatus "409" err then ret (None, None) else ret (None, Some err)
  | OK kek => ret (Some kek, None)
  end.

(** [p != nil && len( *p ) != 0] on an optional rule parameter. *)
Definition nonEmpty (p : option string) : bool :=
  match p with
  | Some s => negb (Nat.eqb (String.length s) 0)
  | None => false
  end.

(** [*p], read only where [p] was tested against nil. *)
Definition deref (p : option string) : string :=
  match p with
  | Some s => s
  | None => EmptyString
  end.

(** [p != nil && len( *p ) != 0 && *p != actual] *)
Definition differs (p : option string) (actual : string) : bool :=
  (nonEmpty p && negb (String.eqb (deref p) actual))%bool.

(** The closing checks of [getOrCreateKek] on the KEK it resolved. *)
Definition checkKek (f : ExecutorTransform)
           (kmsType kmsKeyID : option string) (kek : Kek)
  : option Kek * option error :=
  if differs kmsType (Kek_KmsType kek) then
    (None,
     Some (Errorf "found %s with kms type %s which differs from rule kms type %s"
                  [ArgS (KekName f); ArgS (Kek_KmsType kek);
                   ArgS (deref kmsType)]))
  else if differs kmsKeyID (Kek_KmsKeyID kek) then
    (None,
     Some (Errorf "found %s with kms key id %s which differs from rule kms key id %s"
                  [ArgS (KekName f); ArgS (Kek_KmsKeyID kek);
                   ArgS (deref kmsKeyID)]))
  else (Some kek, None).

Definition getOrCreateKek (f : ExecutorTransform) (ctx : RuleContext)
  : M (option Kek * option error) :=
  let isRead := Mode_eqb (RuleMode ctx) Read in
  let kekID := {| KekID_Name := KekName f; KekID_Deleted := isRead |} in
  let kmsType := GetParameter ctx EncryptKmsType in
  let kmsKeyID := GetParameter ctx EncryptKmsKeyID in
  '(kek, err) <- retrieveKekFromRegistry f kekID ;;
  match kek with
  | Some kek => ret (checkKek f kmsType kmsKeyID kek)
  | None =>
      if isRead then
        ret (None, Some (Errorf "no kek found for %s during consume"
                                [ArgS (KekName f)]))
      else if negb (nonEmpty kmsType) then
        ret (None, Some (Errorf "no kms type found for %s during produce"
                                [ArgS (KekName f)]))
      else if negb (nonEmpty kmsKeyID) then
        ret (None, Some (Errorf "no kms key id found for %s during produce"
                                [ArgS (KekName f)]))
      else
        '(kek, err) <- storeKekToRegistry f kekID (deref kmsType)
                                          (deref kmsKeyID) false ;;
        match kek with
        | Some kek => ret (checkKek f kmsType kmsKeyID kek)
        | None =>
            (* Handle conflicts (409) *)
            '(kek, err) <- retrieveKekFromRegistry f kekID ;;
            match err with
            | Some err => ret (None, Some err)
            | None =>
                match kek with
                | None =>
                    ret (None,
                         Some (Errorf "no kek found for %s during produce"
                                      [ArgS (KekName f)]))
                | Some kek => ret (checkKek f kmsType kmsKeyID kek)
                end
            end
        end
  end.

(** ** Key lifecycle manager: DEKs *)

Definition retrieveDekFromRegistry (f : ExecutorTransform) (key : DekID)
  : M (option Dek * option error) :=
  r <- (if negb (DekID_Version key =? 0)%Z then
          call (EvGetDekVersion (DekID_KekName key) (DekID_Subject key)
                                (DekID_Version key) (DekID_Algorithm key)
                                (DekID_Deleted key))
               (GetDekVersion (DekID_KekName key) (DekID_Subject key)
                              (DekID_Version key) (DekID_Algorithm key)
                              (DekID_Deleted key))
        else
          call (EvGetDek (DekID_KekName key) (DekID_Subject key)
                         (DekID_Algorithm key) (DekID_Deleted key))
               (GetDek (DekID_KekName key) (DekID_Subject key)
                       (DekID_Algorithm key) (DekID_Deleted key))) ;;
  match r with
  | Error err =>
      if hasStatus "404" err then ret (None, None) else ret (None, Some err)
  | OK dek => ret (Some dek, None)
  end.

Definition storeDekToRegistry (f : ExecutorTransform) (key : DekID)
           (encryptedDek : option bytes)
  : M (option Dek * option error) :=
  let encryptedDekStr :=
    match encryptedDek with
    | Some b => EncodeToString b
    | None => EmptyString
    end in
  r <- (if negb (DekID_Version key =? 0)%Z then
          call (EvRegisterDekVersion (DekID_KekName key) (DekID_Subject key)
                                     (DekID_Version key) (DekID_Algorithm key)
                                     encryptedDekStr)
               (RegisterDekVersion (DekID_KekName key) (DekID_Subject key)
                                   (DekID_Version key) (DekID_Algorithm key)
                                   encryptedDekStr)
        else
          call (EvRegisterDek (DekID_KekName key) (DekID_Subject key)
                              (DekID_Algorithm key) encryptedDekStr)
               (RegisterDek (DekID_KekName key) (DekID_Subject key)
                            (DekID_Algorithm key) encryptedDekStr)) ;;
  match r with
  | Error err =>
      if hasStatus "409" err then ret (None, None) else ret (None, Some err)
  | OK dek => ret (Some dek, None)
  end.

Definition createDek (f : ExecutorTransform) (dekID : DekID)
           (newVersion : Z) (encryptedDek : option bytes)
  : M (option Dek * option error) :=
  let newDekID :=
    {| DekID_KekName := DekID_KekName dekID;
       DekID_Subject := DekID_Subject dekID;
       DekID_Version := newVersion;
       DekID_Algorithm := DekID_Algorithm dekID;
       DekID_Deleted := DekID_Deleted dekID |} in
  '(dek, err) <- storeDekToRegistry f newDekID encryptedDek ;;
  match dek with
  | Some dek => ret (Some dek, None)
  | None =>
      (* Handle conflicts (409) *)
      '(dek, err) <- retrieveDekFromRegistry f dekID ;;
      match err with
      | Some err => ret (None, Some err)
      | None =>
          match dek with
          | None =>
              ret (None, Some (Errorf "no dek found for %s during produce"
                                      [ArgS (DekID_KekName dekID)]))
          | Some dek => ret (Some dek, None)
          end
      end
  end.

Definition isExpired (f : ExecutorTransform) (ctx : RuleContext)
           (dek : option Dek) : M bool :=
  now <- call EvNowUnixMilli NowUnixMilli ;;
  ret (negb (Mode_eqb (RuleMode ctx) Read)
       && (0 <? DekExpiryDays f)%Z
       && match dek with
          | None => false
          | Some dek =>
              (GoInt.int64 (DekExpiryDays f)
               <=? GoInt.div64 (GoInt.sub64 now (Dek_Ts dek)) MillisInDay)%Z
          end)%bool.

(** The closing part of [getOrCreateDek]: the raw key material of [dek],
    unwrapped with the KEK's AEAD where the record does not carry it.
    [primitive] is the AEAD handle when the call built it already. *)
Definition resolveKeyMaterial (f : ExecutorTransform)
           (primitive : option AEAD) (dek : Dek)
  : M (option Dek * option error) :=
  kb <- call EvGetDekKeyMaterialBytes (GetDekKeyMaterialBytes dek) ;;
  match kb with
  | Error err => ret (None, Some err)
  | OK (Some _) => ret (Some dek, None)
  | OK None =>
      p <- match primitive with
           | Some primitive => ret (OK primitive)
           | None => getAead (Config f) (Kek_ f)
           end ;;
      match p with
      | Error err => ret (None, Some err)
      | OK primitive =>
          e <- call EvGetDekEncryptedKeyMaterialBytes
                    (GetDekEncryptedKeyMaterialBytes dek) ;;
          match e with
          | Error err => ret (None, Some err)
          | OK encryptedDek =>
              r <- call EvKekDecrypt (Decrypt primitive encryptedDek []) ;;
              match r with
              | Error err => ret (None, Some err)
              | OK rawDek =>
                  dek <- call EvSetDekKeyMaterial
                              (SetDekKeyMaterial dek rawDek) ;;
                  ret (Some dek, None)
              end
          end
      end
  end.

(** The fresh key of [getOrCreateDek], wrapped unless the KEK is shared:
    the AEAD handle built on the way and the encrypted key. *)
Definition wrapNewDek (f : ExecutorTransform)
  : M (res (option AEAD * option bytes)) :=
  if negb (Kek_Shared (Kek_ f)) then
    p <- getAead (Config f) (Kek_ f) ;;
    match p with
    | Error err => ret (Error err)
    | OK primitive =>
        (* Generate new dek *)
        k <- call EvNewKeyData
                  (registry_NewKeyData (Cryptor_KeyTemplate (Cryptor_ f))) ;;
        match k with
        | Error err => ret (Error err)
        | OK rawDek =>
            e <- call EvKekEncrypt (Encrypt primitive rawDek []) ;;
            match e with
            | Error err => ret (Error err)
            | OK encryptedDek =>
                ret (OK (Some primitive, Some encryptedDek))
            end
        end
    end
  else ret (OK (None, None)).

Definition getOrCreateDek (f : ExecutorTransform) (ctx : RuleContext)
           (version : option Z) : M (option Dek * option error) :=
  let isRead := Mode_eqb (RuleMode ctx) Read in
  let ver := match version with Some v => v | None => 1%Z end in
  let dekID :=
    {| DekID_KekName := KekName f;
       DekID_Subject := Subject ctx;
       DekID_Version := ver;
       DekID_Algorithm := DekFormat (Cryptor_ f);
       DekID_Deleted := isRead |} in
  '(dek, err) <- retrieveDekFromRegistry f dekID ;;
  match err with
  | Some err => ret (None, Some err)
  | None =>
      isExpired <- isExpired f ctx dek ;;
      match dek, isExpired with
      | Some dek, false => resolveKeyMaterial f None dek
      | _, _ =>
          if isRead then
            ret (None, Some (Errorf "no dek found for %s during consumer"
                                    [ArgS (KekName f)]))
          else
            w <- wrapNewDek f ;;
            match w with
            | Error err => ret (None, Some err)
            | OK (primitive, encryptedDek) =>
                newVersion <-
                  (if isExpired then
                     match dek with
                     | Some dek => ret (GoInt.add64 (Dek_Version dek) 1)
                     | None => panic_ NilPointerDereference
                     end
                   else ret 1%Z) ;;
                '(result, err) <- createDek f dekID newVersion encryptedDek ;;
                match err with
                | Some err =>
                    match dek with
                    | None => ret (None, Some err)
                    | Some dek =>
                        emit (EvLog "WARN: failed to create dek for %s, subject %s, version %d, using existing dek\n"
                                    [ArgS (KekName f); ArgS (Subject ctx);
                                     ArgI newVersion]) ;;;
                        resolveKeyMaterial f primitive dek
                    end
                | None =>
                    match result with
                    | Some dek => resolveKeyMaterial f primitive dek
                    | None => panic_ NilPointerDereference
                    end
                end
            end
      end
  end.

(** ** Field transform *)

Definition Transform (f : ExecutorTransform) (ctx : RuleContext)
           (fieldType : FieldType) (fieldValue : value)
  : M (value * option error) :=
  match fieldValue with
  | NilValue => ret (NilValue, None)
  | _ =>
      match RuleMode ctx with
      | Write =>
          plaintext <- lift (toBytes fieldType fieldValue) ;;
          match plaintext with
          | None =>
              ret (NilValue,
                   Some (Errorf "type '%v' not supported for encryption"
                                [ArgFieldType fieldType]))
          | Some plaintext =>
              let version := if isDekRotated f then Some (-1)%Z else None in
              '(dek, err) <- getOrCreateDek f ctx version ;;
              match dek, err with
              | _, Some err => ret (NilValue, Some err)
              | None, None => panic_ NilPointerDereference
              | Some dek, None =>
                  k <- call EvGetDekKeyMaterialBytes
                            (GetDekKeyMaterialBytes dek) ;;
                  match k with
                  | Error err => ret (NilValue, Some err)
                  | OK keyMaterialBytes =>
                      c <- encrypt (Cryptor_ f) (contents keyMaterialBytes)
                                   plaintext [] ;;
                      match c with
                      | Error err => ret (NilValue, Some err)
                      | OK ciphertext =>
                          match (if isDekRotated f
                                 then prefixVersion (Dek_Version dek) ciphertext
                                 else OK ciphertext) with
                          | Error err => ret (NilValue, Some err)
                          | OK ciphertext =>
                              match fieldType with
                              | TypeString =>
                                  ret (StringValue (EncodeToString ciphertext),
                                       None)
                              | _ => ret (BytesValue (Some ciphertext), None)
                              end
                          end
                      end
                  end
              end
          end
      | Read =>
          ciphertext <- lift (toBytes fieldType fieldValue) ;;
          match ciphertext with
          | None => ret (fieldValue, None)
          | Some ciphertext =>
              match (match fieldType with
                     | TypeString =>
                         DecodeString (string_of_list_byte ciphertext)
                     | _ => OK ciphertext
                     end) with
              | Error err => ret (NilValue, Some err)
              | OK ciphertext =>
                  framed <-
                    (if isDekRotated f then
                       '(v, err) <- lift (extractVersion ciphertext) ;;
                       match err with
                       | Some err => ret (Error err)
                       | None =>
                           ciphertext <- lift (slice_from ciphertext 5) ;;
                           ret (OK (Some v, ciphertext))
                       end
                     else ret (OK (None, ciphertext))) ;;
                  match framed with
                  | Error err => ret (NilValue, Some err)
                  | OK (version, ciphertext) =>
                      '(dek, err) <- getOrCreateDek f ctx version ;;
                      match dek, err with
                      | _, Some err => ret (NilValue, Some err)
                      | None, None => panic_ NilPointerDereference
                      | Some dek, None =>
                          k <- call EvGetDekKeyMaterialBytes
                                    (GetDekKeyMaterialBytes dek) ;;
                          match k with
                          | Error err => ret (NilValue, Some err)
                          | OK keyMaterialBytes =>
                              p <- decrypt (Cryptor_ f)
                                           (contents keyMaterialBytes)
                                           ciphertext [] ;;
                              match p with
                              | Error err => ret (NilValue, Some err)
                              | OK plaintext =>
                                  ret (toObject fieldType plaintext, None)
                              end
                          end
                      end
                  end
              end
          end
      | UnrecognizedMode _ =>
          ret (NilValue,
               Some (Errorf "unsupported rule mode %v" [ArgMode (RuleMode ctx)]))
      end
  end.

End Functions.

Section Vocabulary.

Context {C : Collaborators}.

(** The bytes the write path returns for a ciphertext. *)
Definition written (f : ExecutorTransform) (fieldType : FieldType)
           (dek : Dek) (ciphertext : bytes) : value :=
  let framed :=
    if isDekRotated f
    then MagicByteV0
           :: BigEndian.PutUint32 (GoInt.uint32 (Dek_Version dek))
           ++ ciphertext
    else ciphertext in
  match fieldType with
  | TypeString => StringValue (EncodeToString framed)
  | _ => BytesValue (Some framed)
  end.

(** The registry lookup behind [retrieveDekFromRegistry] and its entry
    in the call log. *)
Definition registryDekLookup (key : DekID) : World -> res Dek * World :=
  if (DekID_Version key =? 0)%Z
  then GetDek (DekID_KekName key) (DekID_Subject key)
              (DekID_Algorithm key) (DekID_Deleted key)
  else GetDekVersion (DekID_KekName key) (DekID_Subject key)
                     (DekID_Version key) (DekID_Algorithm key)
                     (DekID_Deleted key).

Definition registryDekLookupEvent (key : DekID) : Event :=
  if (DekID_Version key =? 0)%Z
  then EvGetDek (DekID_KekName key) (DekID_Subject key)
                (DekID_Algorithm key) (DekID_Deleted key)
  else EvGetDekVersion (DekID_KekName key) (DekID_Subject key)
                       (DekID_Version key) (DekID_Algorithm key)
                       (DekID_Deleted key).

(** What the transform relies on from [encoding/base64] and from the
    primitives of tink's registry: decoding inverts encoding, and a
    primitive decrypts what it encrypted, under the same associated
    data. *)
Record CipherLaws : Prop := {
  base64_roundtrip :
    forall b, DecodeString (EncodeToString b) = OK b;
  aead_roundtrip :
    forall typeURL key primitive a p ad w c w',
      registry_Primitive typeURL key = OK primitive ->
      asAEAD primitive = Some a ->
      Encrypt a p ad w = (OK c, w') ->
      forall w2, fst (Decrypt a c ad w2) = OK p;
  daead_roundtrip :
    forall typeURL key primitive d p ad w c w',
      registry_Primitive typeURL key = OK primitive ->
      asDeterministicAEAD primitive = Some d ->
      EncryptDeterministically d p ad w = (OK c, w') ->
      forall w2, fst (DecryptDeterministically d c ad w2) = OK p
}.

(** The lifecycle manager, asked for [version], hands out a DEK whose
    raw key material is [key]. *)
Definition resolvesKey (f : ExecutorTransform) (ctx : RuleContext)
           (version : option Z) (s : state) (dek : Dek) (key : bytes)
           (s' : state) : Prop :=
  exists s1 keyMaterialBytes,
    getOrCreateDek f ctx version s = (Returns (Some dek, None), s1)
    /\ call EvGetDekKeyMaterialBytes (GetDekKeyMaterialBytes dek) s1
       = (Returns (OK keyMaterialBytes), s')
    /\ contents keyMaterialBytes = key.

End Vocabulary.

(** ** The executor: configuration and construction of transforms *)

(** What the executor itself calls into: [strconv.Atoi], [deks.NewClient],
    the configuration a client reports ([Client.Config]) and
    [schemaregistry.ConfigsEqual]. *)
Class Runtime : Type := {
  Client : Type;
  ClientConfig : Type;
  Atoi : string -> res Z;
  NewClient : ClientConfig -> res Client;
  Client_Config : Client -> ClientConfig;
  ConfigsEqual : ClientConfig -> ClientConfig -> bool
}.

(** A [map[string]string] is the list of its entries, in the order a
    [range] visits them; a nil map is [None]. *)
Definition mapLookup (m : list (string * string)) (key : string)
  : option string :=
  option_map snd (find (fun kv => String.eqb (fst kv) key) m).

(** [m[key] = value] *)
Fixpoint mapStore (m : list (string * string)) (key value : string)
  : list (string * string) :=
  match m with
  | [] => [(key, value)]
  | (k, v) :: rest =>
      if String.eqb k key then (k, value) :: rest
      else (k, v) :: mapStore rest key value
  end.

(** The events by which key material comes into being: registrations, a
    fresh key, its wrapping by the KEK. *)
Definition createsKeyMaterial (e : Event) : bool :=
  match e with
  | EvRegisterKek _ _ _ _ | EvRegisterDek _ _ _ _
  | EvRegisterDekVersion _ _ _ _ _ | EvNewKeyData | EvKekEncrypt => true
  | _ => false
  end.

Section ExecutorFunctions.

Context {C : Collaborators} {R : Runtime}.

(** The executor behind its pointer; the [Clock] and the methods of the
    client are those of the collaborators. *)
Record Executor : Type := {
  Executor_Config : option (list (string * string));
  Executor_Client : option Client
}.

(** The [range] loop of [Configure] over the entries of [config], on the
    executor's map: the map as the loop leaves it, and the error it
    returned with, if any. *)
Fixpoint mergeConfig (current config : list (string * string))
  : list (string * string) * option error :=
  match config with
  | [] => (current, None)
  | (key, value) :: rest =>
      match mapLookup current key with
      | Some v =>
          if negb (String.eqb v value)
          then (current,
                Some (Errorf "rule config key already set: %s" [ArgS key]))
          else mergeConfig current rest
      | None => mergeConfig (mapStore current key value) rest
      end
  end.

(** [Configure] changes the executor behind its pointer: the executor
    after the call and the error returned. *)
Definition Configure (f : Executor) (clientConfig : ClientConfig)
           (config : option (list (string * string)))
  : Executor * option error :=
  match (match Executor_Client f with
         | Some client =>
             if negb (ConfigsEqual (Client_Config client) clientConfig)
             then Error (Errorf "executor already configured" [])
             else OK f
         | None =>
             match NewClient clientConfig with
             | Error err => Error err
             | OK client =>
                 OK {| Executor_Config := Executor_Config f;
                       Executor_Client := Some client |}
             end
         end) with
  | Error err => (f, Some err)
  | OK f =>
      match Executor_Config f with
      | Some current =>
          let (merged, err) := mergeConfig current (match config with
                                                    | Some c => c
                                                    | None => []
                                                    end) in
          ({| Executor_Config := Some merged;
              Executor_Client := Executor_Client f |}, err)
      | None =>
          match config with
          | Some c =>
              ({| Executor_Config := Some c;
                  Executor_Client := Executor_Client f |}, None)
          | None =>
              ({| Executor_Config := Some [];
                  Executor_Client := Executor_Client f |}, None)
          end
      end
  end.

Definition Executor_Type (f : Executor) : string := "ENCRYPT_PAYLOAD".

Definition getKekName (ctx : RuleContext) : string * option error :=
  match GetParameter ctx EncryptKekName with
  | None => (EmptyString, Some (Errorf "no kek name found" []))
  | Some kekName =>
      if Nat.eqb (String.length kekName) 0
      then (EmptyString, Some (Errorf "empty kek name" []))
      else (kekName, None)
  end.

Definition getDekExpiryDays (ctx : RuleContext) : Z * option error :=
  match GetParameter ctx EncryptDekExpiryDays with
  | None => (0%Z, None)
  | Some dekExpiryDays =>
      match Atoi dekExpiryDays with
      | Error _ =>
          ((-1)%Z,
           Some (Errorf "invalid value for %s: %s"
                        [ArgS EncryptDekExpiryDays; ArgS dekExpiryDays]))
      | OK i =>
          if (i <? 0)%Z
          then ((-1)%Z,
                Some (Errorf "invalid value for %s: %s"
                             [ArgS EncryptDekExpiryDays; ArgS dekExpiryDays]))
          else (i, None)
      end
  end.

(** The zero value of [deks.Kek]. *)
Definition zeroKek : Kek :=
  {| Kek_Name := EmptyString; Kek_KmsType := EmptyString;
     Kek_KmsKeyID := EmptyString; Kek_KmsProps := []; Kek_Shared := false |}.

(** The transform as [NewTransform] fills it in, the KEK apart. *)
Definition newTransform (f : Executor) (ctx : RuleContext)
           (kekName : string) (dekExpiryDays : Z) (kek : Kek)
  : ExecutorTransform :=
  {| Config := match Executor_Config f with Some c => c | None => [] end;
     Cryptor_ := getCryptor ctx;
     KekName := kekName;
     Kek_ := kek;
     DekExpiryDays := dekExpiryDays |}.

(** The first method called on [f.Client] panics when the executor was
    never configured, the interface being nil. *)
Definition NewTransform (f : Executor) (ctx : RuleContext)
  : M (option ExecutorTransform * option error) :=
  let (kekName, err) := getKekName ctx in
  match err with
  | Some err => ret (None, Some err)
  | None =>
      let (dekExpiryDays, err) := getDekExpiryDays ctx in
      match err with
      | Some err => ret (None, Some err)
      | None =>
          match Executor_Client f with
          | None => panic_ NilPointerDereference
          | Some _ =>
              '(kek, err) <- getOrCreateKek
                               (newTransform f ctx kekName dekExpiryDays zeroKek)
                               ctx ;;
              match err with
              | Some err => ret (None, Some err)
              | None =>
                  match kek with
                  | None => panic_ NilPointerDereference
                  | Some kek =>
                      ret (Some (newTransform f ctx kekName dekExpiryDays kek),
                           None)
                  end
              end
          end
      end
  end.


End ExecutorFunctions.

Section RunVocabulary.

Context {C : Collaborators}.

(** [m] returns from every state without a panic, with a result in [P],
    and every call it adds to the log is in [E]. *)
Definition logs {A} (E : Event -> bool) (P : A -> Prop) (m : M A) : Prop :=
  forall s, exists a s' added,
    m s = (Returns a, s')
    /\ calls s' = calls s ++ added
    /\ forallb E added = true
    /\ P a.

(** [m] never dereferences nil: from every state it returns a result in
    [P] or panics for another reason. *)
Definition nilSafe {A} (P : A -> Prop) (m : M A) : Prop :=
  forall s,
    match fst (m s) with
    | Returns a => P a
    | Panics p => p <> NilPointerDereference
    end.

(** The identifier [getOrCreateDek] looks a DEK up by. *)
Definition dekIDOf (f : ExecutorTransform) (ctx : RuleContext)
           (version : option Z) : DekID :=
  {| DekID_KekName := KekName f;
     DekID_Subject := Subject ctx;
     DekID_Version := match version with Some v => v | None => 1%Z end;
     DekID_Algorithm := DekFormat (Cryptor_ f);
     DekID_Deleted := Mode_eqb (RuleMode ctx) Read |}.

(** The registration behind [storeDekToRegistry] and its entry in the
    call log. *)
Definition registryDekStore (key : DekID) (encryptedDekStr : string)
  : World -> res Dek * World :=
  if (DekID_Version key =? 0)%Z
  then RegisterDek (DekID_KekName key) (DekID_Subject key)
                   (DekID_Algorithm key) encryptedDekStr
  else RegisterDekVersion (DekID_KekName key) (DekID_Subject key)
                          (DekID_Version key) (DekID_Algorithm key)
                          encryptedDekStr.

Definition registryDekStoreEvent (key : DekID) (encryptedDekStr : string)
  : Event :=
  if (DekID_Version key =? 0)%Z
  then EvRegisterDek (DekID_KekName key) (DekID_Subject key)
                     (DekID_Algorithm key) encryptedDekStr
  else EvRegisterDekVersion (DekID_KekName key) (DekID_Subject key)
                            (DekID_Version key) (DekID_Algorithm key)
                            encryptedDekStr.

(** The identifier of another version of the same DEK. *)
Definition withVersion (key : DekID) (version : Z) : DekID :=
  {| DekID_KekName := DekID_KekName key;
     DekID_Subject := DekID_Subject key;
     DekID_Version := version;
     DekID_Algorithm := DekID_Algorithm key;
     DekID_Deleted := DekID_Deleted key |}.

(** The URL a KEK's master key goes by. *)
Definition kekURLOf (kek : Kek) : string :=
  (Kek_KmsType kek ++ "://" ++ Kek_KmsKeyID kek)%string.

(** The boolean [isExpired] computes for a DEK at time [now] when the
    mode is not read. *)
Definition expiredAt (f : ExecutorTransform) (now : Z) (dek : Dek) : bool :=
  ((0 <? DekExpiryDays f)%Z
   && (GoInt.int64 (DekExpiryDays f)
       <=? GoInt.div64 (GoInt.sub64 now (Dek_Ts dek)) MillisInDay)%Z)%bool.

(** The log that admits every call. *)
Definition anyEvent (e : Event) : bool := true.

(** A pointer and an error of which exactly one is nil. *)
Definition oneOf {A} (r : option A * option error) : Prop :=
  (exists a, r = (Some a, None)) \/ (exists err, r = (None, Some err)).

End RunVocabulary.

(** ** An in-memory registry, KMS and cipher

    A concrete [Collaborators]: a registry kept in lists, a clock that is
    a field of the world, a KMS that serves every [fake://] key, a toy
    additive cipher and a hexadecimal codec in the place of base64.  The
    properties below are instantiated on it. *)

Module Fake.

Import GoInt.

Record StoredDek : Type := {
  stored_kekName : string;
  stored_subject : string;
  stored_algorithm : string;
  stored_dek : Dek
}.

(** How the next KEK registration fails: before or after the record is
    stored (a response lost on the way back). *)
Inductive fault : Type :=
| FailBeforeStore (code : Z)
| FailAfterStore (code : Z).

Record fakeWorld : Type := {
  clock : Z;
  keks : list Kek;
  deks : list StoredDek;
  registerKekFault : option fault;
  kmsClients : list string;
  entropy : Z
}.

Definition setKeks (w : fakeWorld) (ks : list Kek) (ft : option fault) : fakeWorld :=
  {| clock := clock w; keks := ks; deks := deks w;
     registerKekFault := ft; kmsClients := kmsClients w;
     entropy := entropy w |}.

Definition setDeks (w : fakeWorld) (ds : list StoredDek) : fakeWorld :=
  {| clock := clock w; keks := keks w; deks := ds;
     registerKekFault := registerKekFault w; kmsClients := kmsClients w;
     entropy := entropy w |}.

Definition setKmsClients (w : fakeWorld) (cs : list string) : fakeWorld :=
  {| clock := clock w; keks := keks w; deks := deks w;
     registerKekFault := registerKekFault w; kmsClients := cs;
     entropy := entropy w |}.

Definition draw (w : fakeWorld) : fakeWorld :=
  {| clock := clock w; keks := keks w; deks := deks w;
     registerKekFault := registerKekFault w; kmsClients := kmsClients w;
     entropy := entropy w + 1 |}.

(** *** Cipher *)

Inductive primitive : Type :=
| GcmPrimitive (key : bytes)
| SivPrimitive (key : bytes).

Definition mask (key : bytes) (salt : Z) : Z :=
  fold_right (fun b acc => Z_of_byte b + acc) salt key.

Definition shift (k : Z) (b : byte) : byte := byte_of_Z (Z_of_byte b + k).
Definition unshift (k : Z) (b : byte) : byte := byte_of_Z (Z_of_byte b - k).

Definition seal (key p ad : bytes) (w : fakeWorld) : res bytes * fakeWorld :=
  let n := byte_of_Z (entropy w) in
  (OK (n :: map (shift (mask key (Z_of_byte n))) p), draw w).

Definition unseal (key c ad : bytes) (w : fakeWorld) : res bytes * fakeWorld :=
  match c with
  | [] => (Error (ForeignError "ciphertext too short"), w)
  | n :: body => (OK (map (unshift (mask key (Z_of_byte n))) body), w)
  end.

Definition sealDeterministically (key p ad : bytes) (w : fakeWorld)
  : res bytes * fakeWorld :=
  (OK (map (shift (mask key 0)) p), w).

Definition unsealDeterministically (key c ad : bytes) (w : fakeWorld)
  : res bytes * fakeWorld :=
  (OK (map (unshift (mask key 0)) c), w).

Definition gcmURL := "type.googleapis.com/google.crypto.tink.AesGcmKey".
Definition sivURL := "type.googleapis.com/google.crypto.tink.AesSivKey".

Definition lookupPrimitive (typeURL : string) (key : bytes) : res primitive :=
  if String.eqb typeURL gcmURL then OK (GcmPrimitive key)
  else if String.eqb typeURL sivURL then OK (SivPrimitive key)
  else Error (ForeignError "no key manager").

Definition newKeyData (t : option KeyTemplate) (w : fakeWorld)
  : res bytes * fakeWorld :=
  match t with
  | None => (Error (ForeignError "invalid key template"), w)
  | Some t => (OK (byte_of_Z (entropy w) :: Value t), draw w)
  end.

(** *** Codec *)

Definition hexDigit (n : Z) : ascii :=
  if (n <? 10)%Z then ascii_of_N (Z.to_N (48 + n))
  else ascii_of_N (Z.to_N (87 + n)).

Definition hexValue (c : ascii) : option Z :=
  let n := Z.of_N (N_of_ascii c) in
  if ((48 <=? n)%Z && (n <=? 57)%Z)%bool then Some (n - 48)
  else if ((97 <=? n)%Z && (n <=? 102)%Z)%bool then Some (n - 87)
  else None.

Fixpoint encode (b : bytes) : string :=
  match b with
  | [] => EmptyString
  | x :: rest =>
      String (hexDigit (Z_of_byte x / 16))
             (String (hexDigit (Z_of_byte x mod 16)) (encode rest))
  end.

Fixpoint decode (s : string) : res bytes :=
  match s with
  | EmptyString => OK []
  | String _ EmptyString => Error (ForeignError "odd length hex string")
  | String h (String l rest) =>
      match hexValue h, hexValue l, decode rest with
      | Some a, Some b, OK r => OK (byte_of_Z (16 * a + b) :: r)
      | _, _, _ => Error (ForeignError "invalid byte")
      end
  end.

(** *** Registry *)

Definition notFound {A} : res A := Error (RestError 40470 "Key not found").
Definition conflict {A} : res A := Error (RestError 40971 "Key already exists").

Definition findKek (name : string) (w : fakeWorld) : option Kek :=
  find (fun k => String.eqb (Kek_Name k) name) (keks w).

Definition getKek (name : string) (deleted : bool) (w : fakeWorld)
  : res Kek * fakeWorld :=
  match findKek name w with
  | Some k => (OK k, w)
  | None => (notFound, w)
  end.

Definition registerKek (name kmsType kmsKeyID : string)
           (props : list (string * string)) (doc : string) (shared : bool)
           (w : fakeWorld) : res Kek * fakeWorld :=
  let kek := {| Kek_Name := name; Kek_KmsType := kmsType;
                Kek_KmsKeyID := kmsKeyID; Kek_KmsProps := props;
                Kek_Shared := shared |} in
  match registerKekFault w with
  | Some (FailBeforeStore code) =>
      (Error (RestError code "injected"), setKeks w (keks w) None)
  | Some (FailAfterStore code) =>
      (Error (RestError code "injected"), setKeks w (kek :: keks w) None)
  | None =>
      match findKek name w with
      | Some _ => (conflict, w)
      | None => (OK kek, setKeks w (kek :: keks w) None)
      end
  end.

Definition candidates (kekName subject algorithm : string) (w : fakeWorld)
  : list Dek :=
  map stored_dek
      (filter (fun d => String.eqb (stored_kekName d) kekName
                        && String.eqb (stored_subject d) subject
                        && String.eqb (stored_algorithm d) algorithm)%bool
              (deks w)).

Definition latest (ds : list Dek) : option Dek :=
  fold_right (fun d best =>
                match best with
                | Some b => if (Dek_Version b <? Dek_Version d)%Z
                            then Some d else Some b
                | None => Some d
                end) None ds.

(** Version -1 asks for the latest version. *)
Definition getDekVersion (kekName subject : string) (version : Z)
           (algorithm : string) (deleted : bool) (w : fakeWorld)
  : res Dek * fakeWorld :=
  let ds := candidates kekName subject algorithm w in
  match (if (version =? -1)%Z then latest ds
         else find (fun d => (Dek_Version d =? version)%Z) ds) with
  | Some d => (OK d, w)
  | None => (notFound, w)
  end.

Definition registerDekVersion (kekName subject : string) (version : Z)
           (algorithm encryptedKeyMaterial : string) (w : fakeWorld)
  : res Dek * fakeWorld :=
  let ds := candidates kekName subject algorithm w in
  match find (fun d => (Dek_Version d =? version)%Z) ds with
  | Some _ => (conflict, w)
  | None =>
      let d := {| Dek_Version := version; Dek_Ts := clock w;
                  Dek_EncryptedKeyMaterial := encryptedKeyMaterial;
                  Dek_KeyMaterial := None |} in
      (OK d,
       setDeks w ({| stored_kekName := kekName; stored_subject := subject;
                     stored_algorithm := algorithm; stored_dek := d |}
                    :: deks w))
  end.

Definition setKeyMaterial (d : Dek) (raw : bytes) : Dek :=
  {| Dek_Version := Dek_Version d; Dek_Ts := Dek_Ts d;
     Dek_EncryptedKeyMaterial := Dek_EncryptedKeyMaterial d;
     Dek_KeyMaterial := Some raw |}.

(** *** KMS *)

Definition getKMSDriver (url : string) (w : fakeWorld) : res unit * fakeWorld :=
  if String.prefix "fake://" url then (OK tt, w)
  else (Error (ForeignError "no KMS driver for the key URL"), w).

Definition getKMSClient (url : string) (w : fakeWorld) : res string * fakeWorld :=
  if existsb (String.eqb url) (kmsClients w) then (OK url, w)
  else (Error (ForeignError "KMS client not found"), w).

#[export] Instance collaborators : Collaborators := {
  World := fakeWorld;
  MagicByteV0 := x00;
  EncodeToString := encode;
  DecodeString := decode;
  AEAD := bytes;
  DeterministicAEAD := bytes;
  Primitive := primitive;
  AES128GCMKeyTemplate := {| TypeUrl := gcmURL; Value := [x10] |};
  AES256GCMKeyTemplate := {| TypeUrl := gcmURL; Value := [x20] |};
  AESSIVKeyTemplate := {| TypeUrl := sivURL; Value := [x40] |};
  registry_Primitive := lookupPrimitive;
  asAEAD := fun p => match p with GcmPrimitive k => Some k | _ => None end;
  asDeterministicAEAD :=
    fun p => match p with SivPrimitive k => Some k | _ => None end;
  registry_NewKeyData := newKeyData;
  Encrypt := seal;
  Decrypt := unseal;
  EncryptDeterministically := sealDeterministically;
  DecryptDeterministically := unsealDeterministically;
  KMSDriver := unit;
  KMSClient := string;
  GetKMSDriver := getKMSDriver;
  registry_GetKMSClient := getKMSClient;
  NewKMSClient := fun _ _ url w => (OK url, w);
  registry_RegisterKMSClient :=
    fun c w => (tt, setKmsClients w (c :: kmsClients w));
  GetAEAD := fun _ url w => (OK (list_byte_of_string url), w);
  NowUnixMilli := fun w => (clock w, w);
  GetKek := getKek;
  RegisterKek := registerKek;
  GetDek := fun kekName subject algorithm deleted =>
              getDekVersion kekName subject 1 algorithm deleted;
  GetDekVersion := getDekVersion;
  RegisterDek := fun kekName subject algorithm encrypted =>
                   registerDekVersion kekName subject 1 algorithm encrypted;
  RegisterDekVersion := registerDekVersion;
  GetDekKeyMaterialBytes := fun d w => (OK (Dek_KeyMaterial d), w);
  GetDekEncryptedKeyMaterialBytes :=
    fun d w => (decode (Dek_EncryptedKeyMaterial d), w);
  SetDekKeyMaterial := fun d raw w => (setKeyMaterial d raw, w)
}.

(** *** A scenario: KEK [kek1] of KMS type [fake] and key id [id1] *)

Definition kek1 : Kek :=
  {| Kek_Name := "kek1"; Kek_KmsType := "fake"; Kek_KmsKeyID := "id1";
     Kek_KmsProps := []; Kek_Shared := false |}.

Definition emptyWorld : fakeWorld :=
  {| clock := 1700000000000; keks := []; deks := [];
     registerKekFault := None; kmsClients := []; entropy := 41 |}.

Definition start (w : fakeWorld) : state := {| world := w; calls := [] |}.

(** Rule parameters: the KEK, the KMS type and key id, an algorithm. *)
Definition params (kmsType algorithm : string) (name : string)
  : option string :=
  if String.eqb name EncryptKekName then Some "kek1"
  else if String.eqb name EncryptKmsType then Some kmsType
  else if String.eqb name EncryptKmsKeyID then Some "id1"
  else if String.eqb name EncryptDekAlgorithm then Some algorithm
  else None.

Definition context (mode : Mode) (kmsType algorithm : string) : RuleContext :=
  {| RuleMode := mode; Subject := "topic-value";
     GetParameter := params kmsType algorithm |}.

Definition transform (algorithm : string) (days : Z) : ExecutorTransform :=
  {| Config := [];
     Cryptor_ := getCryptor (context Write "fake" algorithm);
     KekName := "kek1";
     Kek_ := kek1;
     DekExpiryDays := days |}.

(** The outcome of a run, when it returned. *)
Definition returned {A} (r : outcome A * state) (default : A) : A :=
  match fst r with
  | Returns a => a
  | Panics _ => default
  end.

(** The registry once [kek1] is registered. *)
Definition registeredWorld : fakeWorld := setKeks emptyWorld [kek1] None.

(** The registry when the next KEK registration stores the record and
    answers with status 500. *)
Definition faultyWorld : fakeWorld :=
  setKeks emptyWorld [] (Some (FailAfterStore 500)).

(** A DEK created two days before [emptyWorld]'s clock. *)
Definition twoDaysOld : Dek :=
  {| Dek_Version := 1; Dek_Ts := 1700000000000 - 2 * 86400000;
     Dek_EncryptedKeyMaterial := "2a8077"; Dek_KeyMaterial := None |}.

(** Writing the string [hello] with rotation enabled. *)
Definition helloRun : outcome (value * option error) * state :=
  Transform (transform Aes256Gcm 1) (context Write "fake" Aes256Gcm)
            TypeString (StringValue "hello") (start registeredWorld).

Definition helloCiphertext : value := fst (returned helloRun (NilValue, None)).

Definition helloWritten : state := snd helloRun.

(** A registry that holds a DEK under an algorithm name the executor does
    not support. *)
Definition strayWorld : fakeWorld :=
  setDeks registeredWorld
          [{| stored_kekName := "kek1"; stored_subject := "topic-value";
              stored_algorithm := "AES512_GCM";
              stored_dek :=
                {| Dek_Version := 1; Dek_Ts := 1700000000000;
                   Dek_EncryptedKeyMaterial := "2a8077";
                   Dek_KeyMaterial := Some [x01] |} |}].

End Fake.

(** ** A runtime for the executor *)

Module FakeRuntime.

Fixpoint digits (s : string) (acc : Z) : option Z :=
  match s with
  | EmptyString => Some acc
  | String c rest =>
      let n := Z.of_N (N_of_ascii c) in
      if ((48 <=? n)%Z && (n <=? 57)%Z)%bool
      then digits rest (10 * acc + (n - 48))
      else None
  end.

(** Decimal digits with an optional minus sign. *)
Definition atoi (s : string) : res Z :=
  match s with
  | EmptyString => Error (ForeignError "invalid syntax")
  | String c rest =>
      if Ascii.eqb c "-"%char then
        match rest, digits rest 0 with
        | String _ _, Some n => OK (- n)
        | _, _ => Error (ForeignError "invalid syntax")
        end
      else
        match digits s 0 with
        | Some n => OK n
        | None => Error (ForeignError "invalid syntax")
        end
  end.

(** A client is named by the URL it was built for; the empty URL is
    refused. *)
#[export] Instance runtime : Runtime := {
  Client := string;
  ClientConfig := string;
  Atoi := atoi;
  NewClient := fun url =>
                 if Nat.eqb (String.length url) 0
                 then Error (ForeignError "no schema registry URL")
                 else OK url;
  Client_Config := fun client => client;
  ConfigsEqual := String.eqb
}.

(** Rule parameters with an expiry in days. *)
Definition params (days : string) (name : string) : option string :=
  if String.eqb name EncryptDekExpiryDays then Some days
  else Fake.params "fake" Aes256Gcm name.

Definition context (mode : Mode) (days : string) : RuleContext :=
  {| RuleMode := mode; Subject := "topic-value";
     GetParameter := params days |}.

Definition configured : Executor :=
  {| Executor_Config := Some [("a", "1"); ("b", "2")];
     Executor_Client := Some "http://registry" |}.

Definition unconfigured : Executor :=
  {| Executor_Config := None; Executor_Client := None |}.

(** A rule without any parameter. *)
Definition bare (mode : Mode) : RuleContext :=
  {| RuleMode := mode; Subject := "topic-value";
     GetParameter := fun _ => None |}.

(** The configured executor after [b] and [c] were passed in again. *)
Definition reconfigured : Executor :=
  {| Executor_Config := Some [("a", "1"); ("b", "2"); ("c", "3")];
     Executor_Client := Some "http://registry" |}.

(** The state after [kek1] was looked up and registered. *)
Definition kekRegistered : state_of Fake.fakeWorld :=
  {| world := Fake.registeredWorld;
     calls := [EvGetKek "kek1" false;
               EvRegisterKek "kek1" "fake" "id1" false] |}.

End FakeRuntime.

(** ** Collaborators that answer from a script

    The registry answers its DEK calls and its KEK calls from two lists,
    in order; the KMS serves every key or none; the ciphers leave the
    bytes as they are. *)

Module Scripted.

Record scriptedWorld : Type := {
  dekAnswers : list (res Dek);
  kekAnswers : list (res Kek);
  time : Z;
  kmsUp : bool;
  kmsCached : bool
}.

Definition exhausted {A} : res A := Error (ForeignError "script exhausted").

Definition nextDek (w : scriptedWorld) : res Dek * scriptedWorld :=
  match dekAnswers w with
  | [] => (exhausted, w)
  | a :: rest =>
      (a, {| dekAnswers := rest; kekAnswers := kekAnswers w; time := time w;
             kmsUp := kmsUp w; kmsCached := kmsCached w |})
  end.

Definition nextKek (w : scriptedWorld) : res Kek * scriptedWorld :=
  match kekAnswers w with
  | [] => (exhausted, w)
  | a :: rest =>
      (a, {| dekAnswers := dekAnswers w; kekAnswers := rest; time := time w;
             kmsUp := kmsUp w; kmsCached := kmsCached w |})
  end.

Definition cache (w : scriptedWorld) : scriptedWorld :=
  {| dekAnswers := dekAnswers w; kekAnswers := kekAnswers w; time := time w;
     kmsUp := kmsUp w; kmsCached := true |}.

#[export] Instance collaborators : Collaborators := {
  World := scriptedWorld;
  MagicByteV0 := x00;
  EncodeToString := Fake.encode;
  DecodeString := Fake.decode;
  AEAD := unit;
  DeterministicAEAD := unit;
  Primitive := Fake.primitive;
  AES128GCMKeyTemplate := {| TypeUrl := Fake.gcmURL; Value := [x10] |};
  AES256GCMKeyTemplate := {| TypeUrl := Fake.gcmURL; Value := [x20] |};
  AESSIVKeyTemplate := {| TypeUrl := Fake.sivURL; Value := [x40] |};
  registry_Primitive := Fake.lookupPrimitive;
  asAEAD := fun p => match p with
                     | Fake.GcmPrimitive _ => Some tt
                     | _ => None
                     end;
  asDeterministicAEAD := fun p => match p with
                                  | Fake.SivPrimitive _ => Some tt
                                  | _ => None
                                  end;
  registry_NewKeyData := fun t w => (OK [x2a], w);
  Encrypt := fun _ p _ w => (OK p, w);
  Decrypt := fun _ c _ w => (OK c, w);
  EncryptDeterministically := fun _ p _ w => (OK p, w);
  DecryptDeterministically := fun _ c _ w => (OK c, w);
  KMSDriver := unit;
  KMSClient := string;
  GetKMSDriver := fun url w =>
                    (if kmsUp w then OK tt
                     else Error (ForeignError "no KMS driver"), w);
  registry_GetKMSClient := fun url w =>
                             (if kmsCached w then OK url
                              else Error (ForeignError "KMS client not found"),
                              w);
  NewKMSClient := fun _ _ url w => (OK url, w);
  registry_RegisterKMSClient := fun _ w => (tt, cache w);
  GetAEAD := fun _ _ w => (OK tt, w);
  NowUnixMilli := fun w => (time w, w);
  GetKek := fun _ _ => nextKek;
  RegisterKek := fun _ _ _ _ _ _ => nextKek;
  GetDek := fun _ _ _ _ => nextDek;
  GetDekVersion := fun _ _ _ _ _ => nextDek;
  RegisterDek := fun _ _ _ _ => nextDek;
  RegisterDekVersion := fun _ _ _ _ _ => nextDek;
  GetDekKeyMaterialBytes := fun d w => (OK (Dek_KeyMaterial d), w);
  GetDekEncryptedKeyMaterialBytes :=
    fun d w => (Fake.decode (Dek_EncryptedKeyMaterial d), w);
  SetDekKeyMaterial := fun d raw w => (Fake.setKeyMaterial d raw, w)
}.

Definition script (deks : list (res Dek)) (keks : list (res Kek))
  : scriptedWorld :=
  {| dekAnswers := deks; kekAnswers := keks; time := 1700000000000;
     kmsUp := true; kmsCached := false |}.

Definition start (w : scriptedWorld) : state :=
  {| world := w; calls := [] |}.

Definition finish (w : scriptedWorld) (log : list Event) : state :=
  {| world := w; calls := log |}.

Definition outage {A} : res A := Error (RestError 500 "Internal Server Error").

(** A DEK with its key material, created at the scripted time or two
    days before. *)
Definition dek (version : Z) (age : Z) : Dek :=
  {| Dek_Version := version; Dek_Ts := 1700000000000 - age;
     Dek_EncryptedKeyMaterial := "2a"; Dek_KeyMaterial := Some [x2a] |}.

(** A transform under a shared KEK. *)
Definition sharedKek : Kek :=
  {| Kek_Name := "kek1"; Kek_KmsType := "fake"; Kek_KmsKeyID := "id1";
     Kek_KmsProps := []; Kek_Shared := true |}.

Definition transform (days : Z) : ExecutorTransform :=
  {| Config := [];
     Cryptor_ := getCryptor (Fake.context Write "fake" Aes256Gcm);
     KekName := "kek1";
     Kek_ := sharedKek;
     DekExpiryDays := days |}.

End Scripted.

(** * Properties *)

(** ** Go integers and bytes *)

Module GoIntFacts.
Import GoInt.

Lemma int64_id z : in_int64 z -> int64 z = z.
Proof.
  unfold in_int64, int64, wrap_signed. intros H.
  change (2 ^ (64 - 1)) with 9223372036854775808 in *.
  change (2 ^ 63) with 9223372036854775808 in *.
  change (2 ^ 64) with 18446744073709551616.
  rewrite Z.mod_small by lia. lia.
Qed.

Lemma Z_of_byte_range b : 0 <= Z_of_byte b < 256.
Proof.
  unfold Z_of_byte. pose proof (Byte.to_N_bounded b). lia.
Qed.

Lemma Z_of_byte_of_Z z : Z_of_byte (byte_of_Z z) = z mod 256.
Proof.
  unfold Z_of_byte, byte_of_Z.
  assert (Hr : 0 <= z mod 256 < 256) by (apply Z.mod_pos_bound; lia).
  destruct (Byte.of_N (Z.to_N (z mod 256))) as [b|] eqn:E.
  - apply Byte.to_of_N in E. rewrite E. lia.
  - apply Byte.of_N_None_iff in E. lia.
Qed.

Lemma byte_of_Z_of_byte b : byte_of_Z (Z_of_byte b) = b.
Proof.
  unfold byte_of_Z. pose proof (Z_of_byte_range b) as Hr.
  rewrite Z.mod_small by lia. unfold Z_of_byte.
  rewrite N2Z.id, Byte.of_to_N. reflexivity.
Qed.

End GoIntFacts.

(** ** Arithmetic of the frame's version field *)

Module BigEndianFacts.
Import GoInt GoIntFacts BigEndian.

Lemma lor_shiftl_add a b n :
  0 <= n -> 0 <= a < 2 ^ n -> 0 <= b ->
  Z.lor a (Z.shiftl b n) = a + b * 2 ^ n.
Proof.
  intros Hn Ha Hb.
  pose proof (Z.add_lor_land a (Z.shiftl b n)) as Hadd.
  assert (Hz : Z.land a (Z.shiftl b n) = 0).
  { apply Z.bits_inj'. intros i Hi.
    rewrite Z.land_spec, Z.bits_0.
    destruct (Z.ltb_spec i n) as [Hlt|Hge].
    - rewrite Z.shiftl_spec_low by lia. apply andb_false_r.
    - rewrite <- (Z.mod_small a (2 ^ n)) by lia.
      rewrite Z.mod_pow2_bits_high by lia. reflexivity. }
  rewrite Hz, Z.shiftl_mul_pow2 in Hadd by lia.
  rewrite Z.shiftl_mul_pow2 by lia. lia.
Qed.

Lemma Uint32_value b0 b1 b2 b3 : Uint32 b0 b1 b2 b3 = value_of b0 b1 b2 b3.
Proof.
  unfold Uint32, value_of.
  pose proof (Z_of_byte_range b0). pose proof (Z_of_byte_range b1).
  pose proof (Z_of_byte_range b2). pose proof (Z_of_byte_range b3).
  rewrite (@lor_shiftl_add (Z_of_byte b3) (Z_of_byte b2) 8) by lia.
  rewrite (@lor_shiftl_add _ (Z_of_byte b1) 16) by lia.
  rewrite (@lor_shiftl_add _ (Z_of_byte b0) 24) by lia.
  lia.
Qed.

Lemma Uint32_range b0 b1 b2 b3 : 0 <= Uint32 b0 b1 b2 b3 < 2 ^ 32.
Proof.
  rewrite Uint32_value. unfold value_of.
  pose proof (Z_of_byte_range b0). pose proof (Z_of_byte_range b1).
  pose proof (Z_of_byte_range b2). pose proof (Z_of_byte_range b3).
  lia.
Qed.

Lemma PutUint32_value v :
  0 <= v < 2 ^ 32 ->
  value_of (byte_of_Z (Z.shiftr v 24)) (byte_of_Z (Z.shiftr v 16))
           (byte_of_Z (Z.shiftr v 8)) (byte_of_Z v) = v.
Proof.
  intros Hv. unfold value_of. rewrite !Z_of_byte_of_Z.
  rewrite !Z.shiftr_div_pow2 by lia.
  change (2 ^ 24) with 16777216. change (2 ^ 16) with 65536.
  change (2 ^ 8) with 256. change (2 ^ 32) with 4294967296 in Hv.
  Z.div_mod_to_equations. lia.
Qed.

Lemma Uint32_PutUint32 v :
  0 <= v < 2 ^ 32 ->
  match PutUint32 v with
  | [b0; b1; b2; b3] => Uint32 b0 b1 b2 b3 = v
  | _ => False
  end.
Proof.
  intros Hv. unfold PutUint32. rewrite Uint32_value.
  apply PutUint32_value; assumption.
Qed.

End BigEndianFacts.

Lemma Mode_eqb_eq a b : Mode_eqb a b = true <-> a = b.
Proof.
  destruct a, b; simpl; split; intros H; try congruence; try reflexivity.
  - apply Z.eqb_eq in H. congruence.
  - inversion H. apply Z.eqb_refl.
Qed.

Lemma Mode_eqb_neq a b : Mode_eqb a b = false <-> a <> b.
Proof.
  destruct (Mode_eqb a b) eqn:E; split; intros H; try congruence.
  - apply Mode_eqb_eq in E. contradiction.
  - intros Hab. apply Mode_eqb_eq in Hab. congruence.
Qed.

Section Properties.

Context {C : Collaborators}.

(** Unfolds the monad of the embedding. *)
Ltac run :=
  unfold bind, call, call_pure, ret, lift, emit, panic_; simpl.

(** C9: in every rule mode, the transform of a nil field value returns
    nil and no error, and leaves the world and the call log as they
    were: no registry, KMS or cryptographic operation took place. *)
Theorem Transform_nil_passthrough :
  forall (f : ExecutorTransform) (ctx : RuleContext)
         (fieldType : FieldType) (s : state),
    Transform f ctx fieldType NilValue s = (Returns (NilValue, None), s).
Proof.
  intros. reflexivity.
Qed.

(** C10: for a field type that is neither bytes nor string and a non-nil
    field value, the read-mode transform returns the value unchanged with
    no error and without any call, and the write-mode transform returns
    the error "type '%v' not supported for encryption". *)
Theorem Transform_unsupported_field_type :
  forall (f : ExecutorTransform) (subject : string)
         (params : string -> option string) (code : Z)
         (fieldValue : value) (s : state),
    fieldValue <> NilValue ->
    Transform f {| RuleMode := Read; Subject := subject;
                   GetParameter := params |}
              (TypeOther code) fieldValue s
    = (Returns (fieldValue, None), s)
    /\
    Transform f {| RuleMode := Write; Subject := subject;
                   GetParameter := params |}
              (TypeOther code) fieldValue s
    = (Returns (NilValue,
                Some (Errorf "type '%v' not supported for encryption"
                             [ArgFieldType (TypeOther code)])), s).
Proof.
  intros f subject params code fieldValue s Hnil.
  destruct fieldValue; try contradiction; split; reflexivity.
Qed.

(** C6 (as the code behaves): an algorithm identifier outside the three
    supported ones yields a Cryptor with a nil key template, and encrypt
    and decrypt with that Cryptor panic on the nil template instead of
    returning an error. *)
Theorem unsupported_algorithm_nil_template_panics :
  forall (ctx : RuleContext) (alg : string),
    GetParameter ctx EncryptDekAlgorithm = Some alg ->
    alg <> Aes128Gcm -> alg <> Aes256Gcm -> alg <> Aes256Siv ->
    Cryptor_KeyTemplate (getCryptor ctx) = None
    /\ (forall dek plaintext ad s,
           encrypt (getCryptor ctx) dek plaintext ad s
           = (Panics NilPointerDereference, s))
    /\ (forall dek ciphertext ad s,
           decrypt (getCryptor ctx) dek ciphertext ad s
           = (Panics NilPointerDereference, s)).
Proof.
  intros ctx alg Halg H1 H2 H3.
  assert (Hk : Cryptor_KeyTemplate (getCryptor ctx) = None).
  { unfold getCryptor. rewrite Halg. simpl.
    apply String.eqb_neq in H1, H2, H3. rewrite H1, H2, H3. reflexivity. }
  split; [exact Hk|].
  split; intros; unfold encrypt, decrypt, KeyTemplate_TypeUrl;
    rewrite Hk; reflexivity.
Qed.

(** C4 (as the code behaves): on the read path with rotation enabled, a
    bytes field shorter than five bytes is not always answered with an
    error: the empty sequence panics on reading the marker byte, a
    sequence that starts with the marker panics on slicing the version,
    and only a sequence whose first byte is not the marker returns the
    error "unknown magic byte". *)
Theorem short_frame_panics :
  forall (f : ExecutorTransform) (ctx : RuleContext)
         (ciphertext : bytes) (s : state),
    RuleMode ctx = Read ->
    isDekRotated f = true ->
    (List.length ciphertext < 5)%nat ->
    Transform f ctx TypeBytes (BytesValue (Some ciphertext)) s
    = match ciphertext with
      | [] => (Panics IndexOutOfRange, s)
      | b :: _ =>
          if Byte.eqb b MagicByteV0
          then (Panics SliceBoundsOutOfRange, s)
          else (Returns (NilValue, Some (Errorf "unknown magic byte" [])), s)
      end.
Proof.
  intros f ctx ciphertext s Hmode Hrot Hlen.
  unfold Transform. rewrite Hmode, Hrot. run.
  destruct ciphertext as [|b rest]; [reflexivity|].
  unfold extractVersion. simpl.
  destruct (Byte.eqb b MagicByteV0); simpl; [|reflexivity].
  unfold slice.
  replace (Nat.leb 5 (List.length (b :: rest))) with false
    by (symmetry; apply Nat.leb_gt; exact Hlen).
  reflexivity.
Qed.

(** ** Stepping through the monad *)

Lemma bind_Returns {A B} (m : M A) (k : A -> M B) s b s' :
  bind m k s = (Returns b, s') ->
  exists a s1, m s = (Returns a, s1) /\ k a s1 = (Returns b, s').
Proof.
  unfold bind. destruct (m s) as [[a|p] s1]; intros H.
  - exists a, s1. split; [reflexivity|exact H].
  - discriminate H.
Qed.

Lemma bind_step {A B} (m : M A) (k : A -> M B) s a s1 :
  m s = (Returns a, s1) -> bind m k s = k a s1.
Proof.
  intros H. unfold bind. rewrite H. reflexivity.
Qed.

Lemma lift_Returns {A} (o : outcome A) s a s' :
  lift o s = (Returns a, s') -> o = Returns a /\ s' = s.
Proof.
  unfold lift. intros H. inversion H. split; reflexivity.
Qed.

Lemma ret_Returns {A} (a b : A) s s' :
  ret a s = (Returns b, s') -> a = b /\ s' = s.
Proof.
  unfold ret. intros H. inversion H. split; reflexivity.
Qed.

(** A successful write-mode transform went through these steps. *)
Lemma Transform_write_inv f ctx fieldType fieldValue s out s' :
  RuleMode ctx = Write ->
  fieldValue <> NilValue ->
  Transform f ctx fieldType fieldValue s = (Returns (out, None), s') ->
  exists plaintext dek s1 keyMaterialBytes s2 ciphertext,
    toBytes fieldType fieldValue = Returns (Some plaintext)
    /\ getOrCreateDek f ctx (if isDekRotated f then Some (-1) else None) s
       = (Returns (Some dek, None), s1)
    /\ call EvGetDekKeyMaterialBytes (GetDekKeyMaterialBytes dek) s1
       = (Returns (OK keyMaterialBytes), s2)
    /\ encrypt (Cryptor_ f) (contents keyMaterialBytes) plaintext [] s2
       = (Returns (OK ciphertext), s')
    /\ out = written f fieldType dek ciphertext.
Proof.
  intros Hmode Hnil H.
  assert (H' :
    (plaintext <- lift (toBytes fieldType fieldValue) ;;
     match plaintext with
     | None =>
         ret (NilValue,
              Some (Errorf "type '%v' not supported for encryption"
                           [ArgFieldType fieldType]))
     | Some plaintext =>
         let version := if isDekRotated f then Some (-1) else None in
         '(dek, err) <- getOrCreateDek f ctx version ;;
         match dek, err with
         | _, Some err => ret (NilValue, Some err)
         | None, None => panic_ NilPointerDereference
         | Some dek, None =>
             k <- call EvGetDekKeyMaterialBytes (GetDekKeyMaterialBytes dek) ;;
             match k with
             | Error err => ret (NilValue, Some err)
             | OK keyMaterialBytes =>
                 c <- encrypt (Cryptor_ f) (contents keyMaterialBytes)
                              plaintext [] ;;
                 match c with
                 | Error err => ret (NilValue, Some err)
                 | OK ciphertext =>
                     match (if isDekRotated f
                            then prefixVersion (Dek_Version dek) ciphertext
                            else OK ciphertext) with
                     | Error err => ret (NilValue, Some err)
                     | OK ciphertext =>
                         match fieldType with
                         | TypeString =>
                             ret (StringValue (EncodeToString ciphertext), None)
                         | _ => ret (BytesValue (Some ciphertext), None)
                         end
                     end
                 end
             end
         end
     end) s = (Returns (out, None), s')).
  { unfold Transform in H. rewrite Hmode in H.
    destruct fieldValue; [contradiction| exact H | exact H | exact H]. }
  clear H.
  apply bind_Returns in H'. destruct H' as (plaintext & s0 & Hb & H).
  apply lift_Returns in Hb. destruct Hb as [Hb ->].
  destruct plaintext as [plaintext|];
    [|apply ret_Returns in H; destruct H as [H _]; discriminate H].
  cbv zeta in H.
  apply bind_Returns in H. destruct H as ([dek err] & s1 & Hd & H).
  destruct err as [err|];
    [destruct dek; apply ret_Returns in H; destruct H as [H _];
     discriminate H|].
  destruct dek as [dek|]; [|discriminate H].
  apply bind_Returns in H. destruct H as (k & s2 & Hk & H).
  destruct k as [keyMaterialBytes|err];
    [|apply ret_Returns in H; destruct H as [H _]; discriminate H].
  apply bind_Returns in H. destruct H as (c & s3 & Hc & H).
  destruct c as [ciphertext|err];
    [|apply ret_Returns in H; destruct H as [H _]; discriminate H].
  exists plaintext, dek, s1, keyMaterialBytes, s2, ciphertext.
  repeat split; try assumption.
  - unfold written, prefixVersion in *.
    destruct (isDekRotated f), fieldType;
      apply ret_Returns in H; destruct H as [H ->]; inversion H;
      subst; assumption.
  - unfold written, prefixVersion in *.
    destruct (isDekRotated f), fieldType;
      apply ret_Returns in H; destruct H as [H _]; inversion H;
      reflexivity.
Qed.

(** C5: with rotation enabled the frame of version [v] (an unsigned
    32-bit value) and ciphertext [c] is the marker byte, the four bytes
    of [v] most significant first, then [c]; extracting the version of
    the frame gives [v] and dropping five bytes gives [c]; the write path
    returns exactly this frame around the Cryptor's output, and with
    rotation disabled it returns the Cryptor's output with no header. *)
Theorem version_frame_layout :
  forall (version : Z) (ciphertext : bytes),
    0 <= version < 2 ^ 32 ->
    (exists b0 b1 b2 b3,
        prefixVersion version ciphertext
        = OK (MagicByteV0 :: b0 :: b1 :: b2 :: b3 :: ciphertext)
        /\ BigEndian.value_of b0 b1 b2 b3 = version
        /\ extractVersion (MagicByteV0 :: b0 :: b1 :: b2 :: b3 :: ciphertext)
           = Returns (version, None)
        /\ slice_from (MagicByteV0 :: b0 :: b1 :: b2 :: b3 :: ciphertext) 5
           = Returns ciphertext)
    /\
    (forall f ctx plaintext s out s',
        RuleMode ctx = Write ->
        Transform f ctx TypeBytes (BytesValue (Some plaintext)) s
        = (Returns (out, None), s') ->
        exists dek key s2 c,
          encrypt (Cryptor_ f) key plaintext [] s2 = (Returns (OK c), s')
          /\ out = BytesValue
                     (Some (if (0 <? DekExpiryDays f)%Z
                            then MagicByteV0
                                   :: BigEndian.PutUint32
                                        (GoInt.uint32 (Dek_Version dek))
                                   ++ c
                            else c))).
Proof.
  intros version ciphertext Hv. split.
  - exists (GoInt.byte_of_Z (Z.shiftr version 24)),
           (GoInt.byte_of_Z (Z.shiftr version 16)),
           (GoInt.byte_of_Z (Z.shiftr version 8)),
           (GoInt.byte_of_Z version).
    assert (Hu : GoInt.uint32 version = version)
      by (unfold GoInt.uint32; apply Z.mod_small; exact Hv).
    split; [|split; [|split]].
    + unfold prefixVersion. rewrite Hu. reflexivity.
    + apply BigEndianFacts.PutUint32_value. exact Hv.
    + unfold extractVersion. simpl.
      replace (Byte.eqb MagicByteV0 MagicByteV0) with true
        by (symmetry; apply Byte.byte_dec_lb; reflexivity).
      simpl. rewrite BigEndianFacts.Uint32_value.
      rewrite BigEndianFacts.PutUint32_value by exact Hv. reflexivity.
    + reflexivity.
  - intros f ctx plaintext s out s' Hmode H.
    apply Transform_write_inv in H; [|exact Hmode|discriminate].
    destruct H as (p & dek & s1 & km & s2 & c & Hb & _ & _ & He & Ho).
    simpl in Hb. inversion Hb; subst p.
    exists dek, (contents km), s2, c. split; [exact He|].
    rewrite Ho. unfold written, isDekRotated.
    destruct (0 <? DekExpiryDays f)%Z; reflexivity.
Qed.

(** C2: the expiry test.  For timestamps in the range of int64 whose
    difference does not overflow, a DEK is reported expired exactly when
    the mode is write, the expiry days are positive and the whole days
    elapsed since the DEK's timestamp reach the expiry days; read mode
    never reports expiry; with two expiry days the last unexpired
    millisecond is [Ts + 2*86400000 - 1]. *)
Theorem isExpired_spec :
  forall (f : ExecutorTransform) (subject : string)
         (params : string -> option string) (dek : Dek)
         (s : state) (now : Z) (w' : World),
    NowUnixMilli (world s) = (now, w') ->
    GoInt.in_int64 now -> GoInt.in_int64 (Dek_Ts dek) ->
    GoInt.in_int64 (now - Dek_Ts dek) ->
    GoInt.in_int64 (DekExpiryDays f) ->
    let s' := {| world := w'; calls := calls s ++ [EvNowUnixMilli] |} in
    let ctxW := {| RuleMode := Write; Subject := subject;
                   GetParameter := params |} in
    let ctxR := {| RuleMode := Read; Subject := subject;
                   GetParameter := params |} in
    (exists b,
        isExpired f ctxW (Some dek) s = (Returns b, s')
        /\ (b = true <->
            0 < DekExpiryDays f
            /\ DekExpiryDays f <= (now - Dek_Ts dek) / 86400000)
        /\ (b = true <->
            0 < DekExpiryDays f
            /\ DekExpiryDays f <= Z.quot (now - Dek_Ts dek) 86400000)
        /\ (DekExpiryDays f = 2 ->
            now = Dek_Ts dek + 2 * 86400000 - 1 -> b = false)
        /\ (DekExpiryDays f = 2 ->
            now = Dek_Ts dek + 2 * 86400000 -> b = true))
    /\ isExpired f ctxR (Some dek) s = (Returns false, s').
Proof.
  intros f subject params dek s now w' Hnow Hn Ht Hd He s' ctxW ctxR.
  assert (Hq : GoInt.div64 (GoInt.sub64 now (Dek_Ts dek)) MillisInDay
               = Z.quot (now - Dek_Ts dek) 86400000).
  { unfold GoInt.div64, GoInt.sub64. rewrite (GoIntFacts.int64_id Hd).
    change MillisInDay with 86400000. apply GoIntFacts.int64_id.
    unfold GoInt.in_int64 in *.
    change (2 ^ 63) with 9223372036854775808 in *.
    Z.quot_rem_to_equations. lia. }
  assert (Hquot : forall d, 0 < d ->
             (d <= Z.quot (now - Dek_Ts dek) 86400000
              <-> d <= (now - Dek_Ts dek) / 86400000)).
  { intros d Hdpos. Z.quot_rem_to_equations. Z.div_mod_to_equations. lia. }
  split.
  - exists (andb (0 <? DekExpiryDays f)%Z
                 (DekExpiryDays f <=? Z.quot (now - Dek_Ts dek) 86400000)%Z).
    split.
    { unfold isExpired. run. rewrite Hnow. simpl.
      rewrite Hq, (GoIntFacts.int64_id He). reflexivity. }
    rewrite andb_true_iff, Z.ltb_lt, Z.leb_le.
    split; [|split; [|split]].
    + split; intros [H1 H2]; (split; [exact H1|]);
        apply (Hquot _ H1); exact H2.
    + tauto.
    + intros H2 ->. rewrite H2.
      replace (Dek_Ts dek + 2 * 86400000 - 1 - Dek_Ts dek)
        with 172799999 by lia.
      reflexivity.
    + intros H2 ->. rewrite H2.
      replace (Dek_Ts dek + 2 * 86400000 - Dek_Ts dek)
        with 172800000 by lia.
      split; [lia | apply Z.leb_le; reflexivity].
  - unfold isExpired. run. rewrite Hnow. reflexivity.
Qed.

(** ** KEK resolution *)

Lemma nonEmpty_Some t : nonEmpty (Some t) = true <-> t <> EmptyString.
Proof.
  unfold nonEmpty. destruct t; simpl; split; intros H; congruence.
Qed.

Lemma differs_spec p actual :
  differs p actual = true <->
  exists t, p = Some t /\ t <> EmptyString /\ t <> actual.
Proof.
  unfold differs. rewrite andb_true_iff, negb_true_iff. split.
  - intros [Hn Hd]. destruct p as [t|]; [|discriminate Hn].
    exists t. split; [reflexivity|]. split.
    + apply nonEmpty_Some. exact Hn.
    + apply String.eqb_neq. exact Hd.
  - intros (t & -> & Hn & Hd). split.
    + apply nonEmpty_Some. exact Hn.
    + apply String.eqb_neq. exact Hd.
Qed.

Lemma checkKek_success f kmsType kmsKeyID kek kek' :
  checkKek f kmsType kmsKeyID kek = (Some kek', None) ->
  kek' = kek
  /\ differs kmsType (Kek_KmsType kek) = false
  /\ differs kmsKeyID (Kek_KmsKeyID kek) = false.
Proof.
  unfold checkKek.
  destruct (differs kmsType (Kek_KmsType kek)); [discriminate|].
  destruct (differs kmsKeyID (Kek_KmsKeyID kek)); [discriminate|].
  intros H. inversion H. auto.
Qed.

Lemma checkKek_mismatch f kmsType kmsKeyID kek :
  differs kmsType (Kek_KmsType kek) = true
  \/ differs kmsKeyID (Kek_KmsKeyID kek) = true ->
  exists err, checkKek f kmsType kmsKeyID kek = (None, Some err).
Proof.
  unfold checkKek. intros [H|H].
  - rewrite H. eexists. reflexivity.
  - destruct (differs kmsType (Kek_KmsType kek));
      [|rewrite H]; eexists; reflexivity.
Qed.

(** Whatever the registry answers, [getOrCreateKek] only looks up and
    registers KEK records, and a KEK it returns agrees with the rule's
    KMS type and key id. *)
Lemma getOrCreateKek_calls f ctx s r s' :
  getOrCreateKek f ctx s = (r, s') ->
  exists added,
    calls s' = calls s ++ added
    /\ forallb isKekRegistryCall added = true
    /\ forall kek, r = Returns (Some kek, None) ->
         differs (GetParameter ctx EncryptKmsType) (Kek_KmsType kek) = false
         /\ differs (GetParameter ctx EncryptKmsKeyID) (Kek_KmsKeyID kek)
            = false.
Proof.
  unfold getOrCreateKek, retrieveKekFromRegistry, storeKekToRegistry.
  run.
  repeat match goal with
         | |- context [fst (GetKek ?a ?b ?w)] =>
             destruct (GetKek a b w) as [[?|?] ?] eqn:?; simpl
         | |- context [fst (RegisterKek ?a ?b ?c ?d ?e ?g ?w)] =>
             destruct (RegisterKek a b c d e g w) as [[?|?] ?] eqn:?; simpl
         | |- context [if ?b then _ else _] => destruct b eqn:?; simpl
         end;
    intros H; inversion H; subst; clear H;
    eexists; (split; [rewrite <- ?app_assoc; reflexivity|]);
    (split; [reflexivity|]);
    intros kek' Hk; inversion Hk as [Hc]; clear Hk;
    try (apply checkKek_success in Hc; destruct Hc as (-> & H1 & H2);
         split; assumption).
Qed.

Lemma kek_calls_not_kms added :
  forallb isKekRegistryCall added = true -> existsb isKms added = false.
Proof.
  induction added as [|e added IH]; simpl; [reflexivity|].
  rewrite andb_true_iff. intros [He Hr].
  rewrite (IH Hr). destruct e; try discriminate He; reflexivity.
Qed.

(** C8: when the lookup finds a registered KEK and the rule supplies a
    non-empty KMS type or KMS key id that differs from the KEK's,
    [getOrCreateKek] returns an error after that single lookup; and on
    every run it contacts no KMS, and a KEK it returns agrees with the
    non-empty KMS type and key id of the rule. *)
Theorem kek_mismatch_fails_without_kms :
  forall (f : ExecutorTransform) (ctx : RuleContext) (s : state)
         (kek : Kek) (w' : World),
    GetKek (KekName f) (Mode_eqb (RuleMode ctx) Read) (world s)
    = (OK kek, w') ->
    (exists t, GetParameter ctx EncryptKmsType = Some t
               /\ t <> EmptyString /\ t <> Kek_KmsType kek)
    \/ (exists i, GetParameter ctx EncryptKmsKeyID = Some i
                  /\ i <> EmptyString /\ i <> Kek_KmsKeyID kek) ->
    (exists err,
        getOrCreateKek f ctx s
        = (Returns (None, Some err),
           {| world := w';
              calls := calls s
                       ++ [EvGetKek (KekName f)
                                    (Mode_eqb (RuleMode ctx) Read)] |}))
    /\
    (forall s0 r s1,
        getOrCreateKek f ctx s0 = (r, s1) ->
        exists added,
          calls s1 = calls s0 ++ added
          /\ existsb isKms added = false
          /\ forall k, r = Returns (Some k, None) ->
               (forall t, GetParameter ctx EncryptKmsType = Some t ->
                          t <> EmptyString -> t = Kek_KmsType k)
               /\ (forall i, GetParameter ctx EncryptKmsKeyID = Some i ->
                             i <> EmptyString -> i = Kek_KmsKeyID k)).
Proof.
  intros f ctx s kek w' Hget Hmis. split.
  - assert (Hd : differs (GetParameter ctx EncryptKmsType) (Kek_KmsType kek)
                 = true
                 \/ differs (GetParameter ctx EncryptKmsKeyID)
                            (Kek_KmsKeyID kek) = true)
      by (destruct Hmis as [H|H]; [left|right]; apply differs_spec; exact H).
    destruct (checkKek_mismatch f _ _ _ Hd) as [err Herr].
    exists err. unfold getOrCreateKek, retrieveKekFromRegistry. run.
    rewrite Hget. simpl. rewrite Herr. reflexivity.
  - intros s0 r s1 Hrun.
    destruct (getOrCreateKek_calls _ _ _ Hrun) as (added & Hc & Hk & Hm).
    exists added. split; [exact Hc|]. split.
    + apply kek_calls_not_kms. exact Hk.
    + intros k Hr. destruct (Hm k Hr) as [H1 H2]. split.
      * intros t Ht Hne.
        destruct (String.eqb_spec t (Kek_KmsType k)) as [E|E]; [exact E|].
        assert (differs (GetParameter ctx EncryptKmsType) (Kek_KmsType k)
                = true) by (apply differs_spec; eauto).
        congruence.
      * intros i Hi Hne.
        destruct (String.eqb_spec i (Kek_KmsKeyID k)) as [E|E]; [exact E|].
        assert (differs (GetParameter ctx EncryptKmsKeyID) (Kek_KmsKeyID k)
                = true) by (apply differs_spec; eauto).
        congruence.
Qed.

Lemma retrieveDekFromRegistry_run f key s :
  retrieveDekFromRegistry f key s
  = let r := registryDekLookup key (world s) in
    (Returns match fst r with
             | OK dek => (Some dek, None)
             | Error err =>
                 if hasStatus "404" err then (None, None)
                 else (None, Some err)
             end,
     {| world := snd r;
        calls := calls s ++ [registryDekLookupEvent key] |}).
Proof.
  unfold retrieveDekFromRegistry, registryDekLookup, registryDekLookupEvent.
  run. destruct (DekID_Version key =? 0)%Z; simpl;
    match goal with
    | |- context [fst ?x] => destruct x as [[dek|err] w]; simpl
    end; try reflexivity; destruct (hasStatus "404" err); reflexivity.
Qed.

(** C7: in read mode, when the KEK lookup is answered with a 404-class
    error [getOrCreateKek] returns an error, and when the DEK lookup is
    answered with a 404-class error [getOrCreateDek] returns an error;
    the call logs hold the lookup (and the clock read) only, no
    registration. *)
Theorem read_mode_absent_fails_without_registration :
  forall (f : ExecutorTransform) (subject : string)
         (params : string -> option string) (version : option Z)
         (s : state) (eK eD : error) (wK wD : World),
    let ctx := {| RuleMode := Read; Subject := subject;
                  GetParameter := params |} in
    let dekID :=
      {| DekID_KekName := KekName f;
         DekID_Subject := subject;
         DekID_Version := match version with Some v => v | None => 1 end;
         DekID_Algorithm := DekFormat (Cryptor_ f);
         DekID_Deleted := true |} in
    GetKek (KekName f) true (world s) = (Error eK, wK) ->
    hasStatus "404" eK = true ->
    registryDekLookup dekID (world s) = (Error eD, wD) ->
    hasStatus "404" eD = true ->
    (getOrCreateKek f ctx s
     = (Returns (None,
                 Some (Errorf "no kek found for %s during consume"
                              [ArgS (KekName f)])),
        {| world := wK; calls := calls s ++ [EvGetKek (KekName f) true] |})
     /\ existsb isRegistration [EvGetKek (KekName f) true] = false)
    /\
    (getOrCreateDek f ctx version s
     = (Returns (None,
                 Some (Errorf "no dek found for %s during consumer"
                              [ArgS (KekName f)])),
        {| world := snd (NowUnixMilli wD);
           calls := calls s
                    ++ [registryDekLookupEvent dekID; EvNowUnixMilli] |})
     /\ existsb isRegistration [registryDekLookupEvent dekID; EvNowUnixMilli]
        = false).
Proof.
  intros f subject params version s eK eD wK wD ctx dekID HK HeK HD HeD.
  split; split.
  - unfold getOrCreateKek, retrieveKekFromRegistry. run.
    rewrite HK. simpl. rewrite HeK. reflexivity.
  - reflexivity.
  - unfold getOrCreateDek. simpl. fold dekID.
    unfold bind at 1. rewrite retrieveDekFromRegistry_run.
    rewrite HD. simpl. rewrite HeD.
    unfold isExpired. run. rewrite <- app_assoc. reflexivity.
  - unfold registryDekLookupEvent.
    destruct (DekID_Version dekID =? 0)%Z; reflexivity.
Qed.

(** C3 (as the code behaves): in write mode with the KEK absent, a
    failed registration is followed by a second lookup whatever the
    failure was, a conflict or not, and the error of the registration
    never reaches the caller: the result is decided by the second
    lookup alone. *)
Theorem registration_failure_is_refetched :
  forall (f : ExecutorTransform) (ctx : RuleContext) (s : state)
         (e0 e : error) (w1 w2 w3 : World) (r : res Kek),
    RuleMode ctx <> Read ->
    nonEmpty (GetParameter ctx EncryptKmsType) = true ->
    nonEmpty (GetParameter ctx EncryptKmsKeyID) = true ->
    GetKek (KekName f) false (world s) = (Error e0, w1) ->
    RegisterKek (KekName f) (deref (GetParameter ctx EncryptKmsType))
                (deref (GetParameter ctx EncryptKmsKeyID)) [] EmptyString false w1
    = (Error e, w2) ->
    GetKek (KekName f) false w2 = (r, w3) ->
    getOrCreateKek f ctx s
    = (Returns
         match r with
         | OK kek =>
             checkKek f (GetParameter ctx EncryptKmsType)
                      (GetParameter ctx EncryptKmsKeyID) kek
         | Error e' =>
             if hasStatus "404" e'
             then (None, Some (Errorf "no kek found for %s during produce"
                                      [ArgS (KekName f)]))
             else (None, Some e')
         end,
       {| world := w3;
          calls := calls s
                   ++ [EvGetKek (KekName f) false;
                       EvRegisterKek (KekName f)
                         (deref (GetParameter ctx EncryptKmsType))
                         (deref (GetParameter ctx EncryptKmsKeyID)) false;
                       EvGetKek (KekName f) false] |}).
Proof.
  intros f ctx s e0 e w1 w2 w3 r Hmode Ht Hi H0 Hreg Hre.
  apply Mode_eqb_neq in Hmode.
  unfold getOrCreateKek, retrieveKekFromRegistry, storeKekToRegistry. run.
  rewrite Hmode, H0. simpl.
  destruct (hasStatus "404" e0); simpl; rewrite Ht, Hi; simpl;
    rewrite Hreg; simpl;
    destruct (hasStatus "409" e); simpl; rewrite Hre; simpl;
    rewrite <- !app_assoc; simpl;
    destruct r as [kek|e']; simpl; try reflexivity;
    destruct (hasStatus "404" e'); reflexivity.
Qed.

(** ** Round trip *)

Lemma extractVersion_prefixVersion version ciphertext :
  extractVersion (MagicByteV0
                    :: BigEndian.PutUint32 (GoInt.uint32 version)
                    ++ ciphertext)
  = Returns (GoInt.uint32 version, None).
Proof.
  assert (Hr : 0 <= GoInt.uint32 version < 2 ^ 32)
    by (unfold GoInt.uint32; apply Z.mod_pos_bound; lia).
  unfold extractVersion. simpl.
  replace (Byte.eqb MagicByteV0 MagicByteV0) with true
    by (symmetry; apply Byte.byte_dec_lb; reflexivity).
  simpl. rewrite BigEndianFacts.Uint32_value.
  rewrite BigEndianFacts.PutUint32_value by exact Hr. reflexivity.
Qed.

Lemma decrypt_encrypt (c : Cryptor) key plaintext ad s ciphertext s' :
  CipherLaws ->
  encrypt c key plaintext ad s = (Returns (OK ciphertext), s') ->
  forall s2, exists s3,
    decrypt c key ciphertext ad s2 = (Returns (OK plaintext), s3).
Proof.
  intros L H s2. unfold encrypt in H. unfold decrypt.
  apply bind_Returns in H. destruct H as (typeURL & s0 & Hu & H).
  apply lift_Returns in Hu. destruct Hu as [Hu ->].
  rewrite Hu. unfold bind at 1. unfold lift at 1.
  apply bind_Returns in H. destruct H as (r & s1 & Hp & H).
  unfold call_pure in Hp. inversion Hp; subst r s1; clear Hp.
  unfold bind, call_pure.
  destruct (registry_Primitive typeURL key) as [primitive|err] eqn:Hprim;
    [|apply ret_Returns in H; destruct H as [H _]; discriminate H].
  destruct (String.eqb (DekFormat c) Aes256Siv).
  - destruct (asDeterministicAEAD primitive) as [d|] eqn:Hd;
      [|discriminate H].
    unfold call in *. simpl in *. inversion H as [[Hc Hs]].
    destruct (EncryptDeterministically d plaintext ad (world s))
      as [rc w'] eqn:He.
    simpl in Hc. subst rc.
    assert (Hdec : fst (DecryptDeterministically d ciphertext ad (world s2))
                   = OK plaintext)
      by (eapply daead_roundtrip; eassumption).
    eexists. rewrite Hdec. reflexivity.
  - destruct (asAEAD primitive) as [a|] eqn:Ha; [|discriminate H].
    unfold call in *. simpl in *. inversion H as [[Hc Hs]].
    destruct (Encrypt a plaintext ad (world s)) as [rc w'] eqn:He.
    simpl in Hc. subst rc.
    assert (Hdec : fst (Decrypt a ciphertext ad (world s2)) = OK plaintext)
      by (eapply aead_roundtrip; eassumption).
    eexists. rewrite Hdec. reflexivity.
Qed.

(** C1: round trip.  Two transforms built from the same rule parameters
    (the same Cryptor, whatever the algorithm, and the same expiry days,
    zero or positive), a bytes or string field with a non-nil value: if
    the write-mode transform returns [out], and the read side resolves
    the DEK version written into the frame (the DEK looked up without a
    version when rotation is off) to the raw key the write side used,
    then the read-mode transform of [out] returns the original value. *)
Theorem Transform_roundtrip :
  forall (fW fR : ExecutorTransform) (subject : string)
         (params : string -> option string)
         (fieldType : FieldType) (fieldValue : value)
         (sW sW' sR : state) (out : value),
    let ctxW := {| RuleMode := Write; Subject := subject;
                   GetParameter := params |} in
    let ctxR := {| RuleMode := Read; Subject := subject;
                   GetParameter := params |} in
    CipherLaws ->
    Cryptor_ fW = getCryptor ctxW ->
    Cryptor_ fR = getCryptor ctxR ->
    DekExpiryDays fR = DekExpiryDays fW ->
    (fieldType = TypeBytes /\ exists p, fieldValue = BytesValue (Some p))
    \/ (fieldType = TypeString /\ exists t, fieldValue = StringValue t) ->
    Transform fW ctxW fieldType fieldValue sW = (Returns (out, None), sW') ->
    (forall dek key s2,
        resolvesKey fW ctxW
                    (if isDekRotated fW then Some (-1) else None)
                    sW dek key s2 ->
        exists dek' s4,
          resolvesKey fR ctxR
                      (if isDekRotated fW
                       then Some (GoInt.uint32 (Dek_Version dek))
                       else None)
                      sR dek' key s4) ->
    exists sR',
      Transform fR ctxR fieldType out sR = (Returns (fieldValue, None), sR').
Proof.
  intros fW fR subject params fieldType fieldValue sW sW' sR out ctxW ctxR
         L HcW HcR Hdays Hval Hwrite Hkey.
  assert (Hcr : Cryptor_ fR = Cryptor_ fW) by (rewrite HcW, HcR; reflexivity).
  assert (Hrot : isDekRotated fR = isDekRotated fW)
    by (unfold isDekRotated; rewrite Hdays; reflexivity).
  apply Transform_write_inv in Hwrite;
    [|reflexivity
     |destruct Hval as [[_ [p ->]]|[_ [t ->]]]; discriminate].
  destruct Hwrite
    as (plaintext & dek & s1 & km & s2 & c & Hb & Hd & Hk & He & Hout).
  destruct (Hkey dek (contents km) s2) as (dek' & s4 & s3 & km' & Hd' & Hk' & Hkk).
  { exists s1, km. repeat split; assumption. }
  destruct (decrypt_encrypt _ _ _ _ _ L He s4) as [s5 Hdec].
  exists s5.
  pose (tail := fun ciphertext : bytes =>
    (framed <-
       (if isDekRotated fR then
          '(v, err) <- lift (extractVersion ciphertext) ;;
          match err with
          | Some err => ret (Error err)
          | None =>
              ciphertext <- lift (slice_from ciphertext 5) ;;
              ret (OK (Some v, ciphertext))
          end
        else ret (OK (None, ciphertext))) ;;
     match framed with
     | Error err => ret (NilValue, Some err)
     | OK (version, ciphertext) =>
         '(dek, err) <- getOrCreateDek fR ctxR version ;;
         match dek, err with
         | _, Some err => ret (NilValue, Some err)
         | None, None => panic_ NilPointerDereference
         | Some dek, None =>
             k <- call EvGetDekKeyMaterialBytes
                       (GetDekKeyMaterialBytes dek) ;;
             match k with
             | Error err => ret (NilValue, Some err)
             | OK keyMaterialBytes =>
                 p <- decrypt (Cryptor_ fR) (contents keyMaterialBytes)
                              ciphertext [] ;;
                 match p with
                 | Error err => ret (NilValue, Some err)
                 | OK plaintext => ret (toObject fieldType plaintext, None)
                 end
             end
         end
     end)).
  assert (Hframe :
    tail (if isDekRotated fW
          then MagicByteV0
                 :: BigEndian.PutUint32 (GoInt.uint32 (Dek_Version dek))
                 ++ c
          else c) sR
    = (Returns (toObject fieldType plaintext, None), s5)).
  { unfold tail. rewrite Hrot.
    destruct (isDekRotated fW).
    - cbv beta iota delta [bind lift ret].
      rewrite extractVersion_prefixVersion.
      change (slice_from
                (MagicByteV0
                   :: BigEndian.PutUint32 (GoInt.uint32 (Dek_Version dek))
                   ++ c) 5) with (Returns (A:=bytes) c).
      cbv beta iota.
      rewrite Hd', Hk', Hcr, Hkk, Hdec. reflexivity.
    - cbv beta iota delta [bind lift ret].
      rewrite Hd', Hk', Hcr, Hkk, Hdec. reflexivity. }
  destruct Hval as [[-> [p ->]]|[-> [t ->]]].
  - simpl in Hb. inversion Hb; subst plaintext.
    rewrite Hout. exact Hframe.
  - simpl in Hb. inversion Hb; subst plaintext.
    rewrite Hout. unfold written.
    match goal with
    | |- Transform _ _ _ (StringValue (EncodeToString ?x)) _ = _ =>
        change (match DecodeString
                        (string_of_list_byte
                           (list_byte_of_string (EncodeToString x))) with
                | Error err => ret (NilValue, Some err)
                | OK ciphertext => tail ciphertext
                end sR
                = (Returns (StringValue t, None), s5))
    end.
    rewrite string_of_list_byte_of_string, (base64_roundtrip L).
    cbv iota. refine (eq_trans Hframe _). simpl.
    rewrite string_of_list_byte_of_string. reflexivity.
Qed.

End Properties.

(** * Further properties of the executor *)

Section FramerProperties.

Context {C : Collaborators}.

(** X1: the frame keeps the low 32 bits of the version.  For every
    version, in range or not, the frame is five bytes longer than the
    ciphertext, its version reads back as the version modulo 2^32, and
    slicing from five gives the ciphertext; the version reads back
    unchanged exactly when it lies in the unsigned 32-bit range. *)
Theorem frame_keeps_low_32_bits :
  forall (version : Z) (ciphertext : bytes),
    exists framed,
      prefixVersion version ciphertext = OK framed
      /\ List.length framed = (5 + List.length ciphertext)%nat
      /\ extractVersion framed = Returns (version mod 2 ^ 32, None)
      /\ slice_from framed 5 = Returns ciphertext
      /\ (version mod 2 ^ 32 = version <-> 0 <= version < 2 ^ 32).
Proof.
  intros version ciphertext.
  exists (MagicByteV0
            :: BigEndian.PutUint32 (GoInt.uint32 version) ++ ciphertext).
  assert (Hr : 0 <= version mod 2 ^ 32 < 2 ^ 32)
    by (apply Z.mod_pos_bound; lia).
  split; [reflexivity|]. split; [reflexivity|]. split.
  - unfold extractVersion, GoInt.uint32. simpl.
    replace (Byte.eqb MagicByteV0 MagicByteV0) with true
      by (symmetry; apply Byte.byte_dec_lb; reflexivity).
    simpl. rewrite BigEndianFacts.Uint32_value.
    rewrite BigEndianFacts.PutUint32_value by exact Hr. reflexivity.
  - split; [reflexivity|]. split; intros H.
    + rewrite <- H. exact Hr.
    + apply Z.mod_small. exact H.
Qed.

(** X2: what [extractVersion] reads.  On five bytes or more it returns
    the error "unknown magic byte" with version -1 when the first byte is
    not the marker, and otherwise the big-endian value of the next four
    bytes, a number below 2^32, whatever follows them. *)
Theorem extractVersion_reads_four_bytes :
  forall (b b0 b1 b2 b3 : byte) (rest : bytes),
    extractVersion (b :: b0 :: b1 :: b2 :: b3 :: rest)
    = (if Byte.eqb b MagicByteV0
       then Returns (BigEndian.value_of b0 b1 b2 b3, None)
       else Returns (-1, Some (Errorf "unknown magic byte" [])))
    /\ 0 <= BigEndian.value_of b0 b1 b2 b3 < 2 ^ 32.
Proof.
  intros b b0 b1 b2 b3 rest. split.
  - unfold extractVersion. simpl.
    destruct (Byte.eqb b MagicByteV0); simpl; [|reflexivity].
    rewrite BigEndianFacts.Uint32_value. reflexivity.
  - rewrite <- BigEndianFacts.Uint32_value.
    apply BigEndianFacts.Uint32_range.
Qed.

(** X3: a value whose dynamic type is not the one the field type stands
    for makes the transform panic on the type assertion, in write and in
    read mode, before any call: a string or another value in a bytes
    field, bytes or another value in a string field. *)
Theorem Transform_type_assertion_panics :
  forall (f : ExecutorTransform) (subject : string)
         (params : string -> option string) (s : state)
         (b : option bytes) (t : string) (tag : Z) (mode : Mode),
    mode = Write \/ mode = Read ->
    let ctx := {| RuleMode := mode; Subject := subject;
                  GetParameter := params |} in
    Transform f ctx TypeBytes (StringValue t) s
    = (Panics InterfaceConversion, s)
    /\ Transform f ctx TypeBytes (OtherValue tag) s
       = (Panics InterfaceConversion, s)
    /\ Transform f ctx TypeString (BytesValue b) s
       = (Panics InterfaceConversion, s)
    /\ Transform f ctx TypeString (OtherValue tag) s
       = (Panics InterfaceConversion, s).
Proof.
  intros f subject params s b t tag mode [-> | ->]; repeat split; reflexivity.
Qed.

(** X4: a rule mode other than write and read is refused: for a non-nil
    value the transform returns the error "unsupported rule mode %v" and
    makes no call, whatever the field type and the value. *)
Theorem Transform_unsupported_rule_mode :
  forall (f : ExecutorTransform) (subject : string)
         (params : string -> option string) (code : Z)
         (fieldType : FieldType) (fieldValue : value) (s : state),
    fieldValue <> NilValue ->
    Transform f {| RuleMode := UnrecognizedMode code; Subject := subject;
                   GetParameter := params |} fieldType fieldValue s
    = (Returns (NilValue,
                Some (Errorf "unsupported rule mode %v"
                             [ArgMode (UnrecognizedMode code)])), s).
Proof.
  intros f subject params code fieldType fieldValue s Hnil.
  destruct fieldValue; [contradiction | reflexivity..].
Qed.

(** X5: a nil byte slice in a bytes field.  The value is not the nil
    interface, yet the write-mode transform refuses it with "type '%v'
    not supported for encryption" and the read-mode transform returns it
    as it is; neither makes a call. *)
Theorem Transform_nil_slice :
  forall (f : ExecutorTransform) (subject : string)
         (params : string -> option string) (s : state),
    Transform f {| RuleMode := Write; Subject := subject;
                   GetParameter := params |}
              TypeBytes (BytesValue None) s
    = (Returns (NilValue,
                Some (Errorf "type '%v' not supported for encryption"
                             [ArgFieldType TypeBytes])), s)
    /\ Transform f {| RuleMode := Read; Subject := subject;
                      GetParameter := params |}
                 TypeBytes (BytesValue None) s
       = (Returns (BytesValue None, None), s).
Proof.
  intros. split; reflexivity.
Qed.

(** X6: a string field that is not valid base64 is refused on read with
    the decoder's error, before the frame is parsed and before any
    call. *)
Theorem Transform_read_bad_base64 :
  forall (f : ExecutorTransform) (subject : string)
         (params : string -> option string) (t : string) (err : error)
         (s : state),
    DecodeString t = Error err ->
    Transform f {| RuleMode := Read; Subject := subject;
                   GetParameter := params |}
              TypeString (StringValue t) s
    = (Returns (NilValue, Some err), s).
Proof.
  intros f subject params t err s Hdec.
  unfold Transform. simpl. unfold bind, lift. simpl.
  rewrite string_of_list_byte_of_string, Hdec. reflexivity.
Qed.

(** X7: with rotation enabled, a bytes field of any length whose first
    byte is not the marker is refused on read with "unknown magic byte"
    before any call: no DEK is looked up for it. *)
Theorem Transform_read_unknown_marker :
  forall (f : ExecutorTransform) (subject : string)
         (params : string -> option string) (b : byte) (rest : bytes)
         (s : state),
    isDekRotated f = true ->
    b <> MagicByteV0 ->
    Transform f {| RuleMode := Read; Subject := subject;
                   GetParameter := params |}
              TypeBytes (BytesValue (Some (b :: rest))) s
    = (Returns (NilValue, Some (Errorf "unknown magic byte" [])), s).
Proof.
  intros f subject params b rest s Hrot Hb.
  unfold Transform. simpl. rewrite Hrot.
  unfold bind, lift, ret, extractVersion. simpl.
  replace (Byte.eqb b MagicByteV0) with false; [reflexivity|].
  symmetry. destruct (Byte.eqb b MagicByteV0) eqn:E; [|reflexivity].
  apply Byte.byte_dec_bl in E. contradiction.
Qed.

End FramerProperties.

Section RunLemmas.

Context {C : Collaborators}.

Variable E : Event -> bool.

Lemma logs_ret {A} (P : A -> Prop) (a : A) : P a -> logs E P (ret a).
Proof.
  intros H s. exists a, s, []. rewrite app_nil_r. repeat split. exact H.
Qed.

Lemma logs_bind {A B} (P : A -> Prop) (Q : B -> Prop) (m : M A)
      (k : A -> M B) :
  logs E P m -> (forall a, P a -> logs E Q (k a)) -> logs E Q (bind m k).
Proof.
  intros Hm Hk s.
  destruct (Hm s) as (a & s1 & l1 & Hr & Hc & He & Ha).
  destruct (Hk a Ha s1) as (b & s2 & l2 & Hr2 & Hc2 & He2 & Hb).
  exists b, s2, (l1 ++ l2). unfold bind. rewrite Hr, Hr2.
  repeat split.
  - rewrite Hc2, Hc, app_assoc. reflexivity.
  - rewrite forallb_app, He, He2. reflexivity.
  - exact Hb.
Qed.

Lemma logs_call {A} (e : Event) (op : World -> A * World) :
  E e = true -> logs E (fun _ => True) (call e op).
Proof.
  intros He s. eexists. eexists. exists [e].
  unfold call. repeat split. simpl. rewrite He. reflexivity.
Qed.

Lemma logs_call_pure {A} (e : Event) (a : A) :
  E e = true -> logs E (fun _ => True) (call_pure e a).
Proof.
  intros He s. eexists. eexists. exists [e].
  unfold call_pure. repeat split. simpl. rewrite He. reflexivity.
Qed.

Lemma logs_emit (e : Event) : E e = true -> logs E (fun _ => True) (emit e).
Proof.
  intros He s. eexists. eexists. exists [e].
  unfold emit. repeat split. simpl. rewrite He. reflexivity.
Qed.

Lemma logs_weaken {A} (P Q : A -> Prop) (m : M A) :
  logs E P m -> (forall a, P a -> Q a) -> logs E Q m.
Proof.
  intros Hm HPQ s. destruct (Hm s) as (a & s' & l & Hr & Hc & He & Ha).
  exists a, s', l. repeat split; auto.
Qed.

Lemma logs_nilSafe {A} (P : A -> Prop) (m : M A) : logs E P m -> nilSafe P m.
Proof.
  intros Hm s. destruct (Hm s) as (a & s' & l & Hr & _ & _ & Ha).
  rewrite Hr. exact Ha.
Qed.

End RunLemmas.

Lemma nilSafe_bind {C : Collaborators} {A B} (P : A -> Prop) (Q : B -> Prop)
      (m : M A) (k : A -> M B) :
  nilSafe P m -> (forall a, P a -> nilSafe Q (k a)) -> nilSafe Q (bind m k).
Proof.
  intros Hm Hk s. specialize (Hm s). unfold bind.
  destruct (m s) as [[a|p] s1]; simpl in *.
  - apply Hk. exact Hm.
  - exact Hm.
Qed.

Lemma nilSafe_ret {C : Collaborators} {A} (P : A -> Prop) (a : A) :
  P a -> nilSafe P (ret a).
Proof.
  intros H s. exact H.
Qed.

Lemma nilSafe_lift {C : Collaborators} {A} (P : A -> Prop) (o : outcome A) :
  match o with Returns a => P a | Panics p => p <> NilPointerDereference end ->
  nilSafe P (lift o).
Proof.
  intros H s. exact H.
Qed.

Section LifecycleProperties.

Context {C : Collaborators}.

(** One step of a proof about [logs]. *)
Ltac logs_step :=
  match goal with
  | |- logs _ _ (ret _) => apply logs_ret
  | |- logs _ _ (bind _ _) =>
      eapply logs_bind with (P := fun _ => True); [|intros ? _]
  | |- logs _ _ (call _ _) => apply logs_call
  | |- logs _ _ (call_pure _ _) => apply logs_call_pure
  | |- logs _ _ (emit _) => apply logs_emit
  | |- logs _ _ (match ?x with _ => _ end) => destruct x eqn:?
  | |- logs _ _ (let (_, _) := ?x in _) => destruct x eqn:?
  | |- oneOf _ => first [left; eexists; reflexivity
                        | right; eexists; reflexivity]
  | |- True => exact I
  end.

Lemma logs_retrieveKek E f key :
  (forall n d, E (EvGetKek n d) = true) ->
  logs E (fun _ => True) (retrieveKekFromRegistry f key).
Proof.
  intros HE. unfold retrieveKekFromRegistry.
  repeat (logs_step; simpl; auto).
Qed.

Lemma checkKek_oneOf f kmsType kmsKeyID kek :
  oneOf (checkKek f kmsType kmsKeyID kek).
Proof.
  unfold checkKek.
  destruct (differs kmsType (Kek_KmsType kek));
    [right; eexists; reflexivity|].
  destruct (differs kmsKeyID (Kek_KmsKeyID kek));
    [right|left]; eexists; reflexivity.
Qed.

(** X8: [getOrCreateKek] never panics and never returns a nil KEK with a
    nil error: whatever the registry answers it returns either a KEK or
    an error, and what it adds to the call log are lookups and
    registrations of KEKs only. *)
Theorem getOrCreateKek_returns_kek_or_error :
  forall (f : ExecutorTransform) (ctx : RuleContext) (s : state),
    exists r s' added,
      getOrCreateKek f ctx s = (Returns r, s')
      /\ calls s' = calls s ++ added
      /\ forallb isKekRegistryCall added = true
      /\ oneOf r.
Proof.
  intros f ctx.
  change (logs isKekRegistryCall oneOf (getOrCreateKek f ctx)).
  unfold getOrCreateKek, storeKekToRegistry.
  eapply logs_bind; [apply logs_retrieveKek; reflexivity|].
  intros [kek err] _.
  destruct kek as [kek|]; [apply logs_ret, checkKek_oneOf|].
  repeat (logs_step; simpl; auto using checkKek_oneOf);
    try (apply logs_retrieveKek; reflexivity);
    try reflexivity.
Qed.

Section AnyLog.

Variable E : Event -> bool.
Hypothesis HE : forall e, createsKeyMaterial e = false -> E e = true.

Ltac quiet := repeat (logs_step; simpl; try (apply HE; reflexivity)).

Lemma logs_retrieveDek f key :
  logs E (fun _ => True) (retrieveDekFromRegistry f key).
Proof.
  unfold retrieveDekFromRegistry. quiet.
Qed.

Lemma logs_isExpired f ctx dek :
  logs E (fun b => b = true -> dek <> None) (isExpired f ctx dek).
Proof.
  unfold isExpired.
  eapply logs_bind with (P := fun _ => True);
    [apply logs_call, HE; reflexivity|].
  intros now _. apply logs_ret. intros Hb Hd. subst dek.
  rewrite andb_false_r in Hb. discriminate Hb.
Qed.

Lemma logs_getAead config kek : logs E (fun _ => True) (getAead config kek).
Proof.
  unfold getAead, getKMSClient, registerKMSClient. quiet.
Qed.

Lemma logs_resolveKeyMaterial f primitive dek :
  logs E oneOf (resolveKeyMaterial f primitive dek).
Proof.
  unfold resolveKeyMaterial.
  eapply logs_bind with (P := fun _ => True);
    [apply logs_call, HE; reflexivity|].
  intros kb _. destruct kb as [[k|]|err]; [quiet | | quiet].
  eapply logs_bind with (P := fun _ => True).
  - destruct primitive; [quiet | apply logs_getAead].
  - intros p _. quiet.
Qed.

End AnyLog.

Lemma logs_createDek f dekID newVersion encryptedDek :
  logs anyEvent oneOf (createDek f dekID newVersion encryptedDek).
Proof.
  unfold createDek, storeDekToRegistry.
  repeat (logs_step; simpl; try reflexivity);
    apply logs_retrieveDek; reflexivity.
Qed.

Lemma logs_wrapNewDek f : logs anyEvent (fun _ => True) (wrapNewDek f).
Proof.
  unfold wrapNewDek.
  destruct (negb (Kek_Shared (Kek_ f))); [|apply logs_ret; exact I].
  eapply logs_bind with (P := fun _ => True);
    [apply logs_getAead; reflexivity|].
  intros p _. repeat (logs_step; simpl; try reflexivity).
Qed.

Lemma getOrCreateDek_total_logs f ctx version :
  logs anyEvent oneOf (getOrCreateDek f ctx version).
Proof.
  unfold getOrCreateDek.
  eapply logs_bind with (P := fun _ => True);
    [apply logs_retrieveDek; reflexivity|].
  intros [dek err] _.
  destruct err as [err|]; [apply logs_ret; right; eexists; reflexivity|].
  eapply logs_bind; [apply logs_isExpired; reflexivity|].
  intros expired Hexp.
  assert (Hcreate :
    logs anyEvent oneOf
      (if Mode_eqb (RuleMode ctx) Read
       then ret (None, Some (Errorf "no dek found for %s during consumer"
                                    [ArgS (KekName f)]))
       else
         w <- wrapNewDek f ;;
         match w with
         | Error err => ret (None, Some err)
         | OK (primitive, encryptedDek) =>
             newVersion <-
               (if expired then
                  match dek with
                  | Some dek => ret (GoInt.add64 (Dek_Version dek) 1)
                  | None => panic_ NilPointerDereference
                  end
                else ret 1) ;;
             '(result, err) <-
               createDek f
                 {| DekID_KekName := KekName f;
                    DekID_Subject := Subject ctx;
                    DekID_Version :=
                      match version with Some v => v | None => 1 end;
                    DekID_Algorithm := DekFormat (Cryptor_ f);
                    DekID_Deleted := Mode_eqb (RuleMode ctx) Read |}
                 newVersion encryptedDek ;;
             match err with
             | Some err =>
                 match dek with
                 | None => ret (None, Some err)
                 | Some dek =>
                     emit (EvLog "WARN: failed to create dek for %s, subject %s, version %d, using existing dek\n"
                                 [ArgS (KekName f); ArgS (Subject ctx);
                                  ArgI newVersion]) ;;;
                     resolveKeyMaterial f primitive dek
                 end
             | None =>
                 match result with
                 | Some dek => resolveKeyMaterial f primitive dek
                 | None => panic_ NilPointerDereference
                 end
             end
         end)).
  { destruct (Mode_eqb (RuleMode ctx) Read);
      [apply logs_ret; right; eexists; reflexivity|].
    eapply logs_bind with (P := fun _ => True); [apply logs_wrapNewDek|].
    intros w _. destruct w as [[primitive encryptedDek]|err];
      [|apply logs_ret; right; eexists; reflexivity].
    eapply logs_bind with (P := fun _ => True).
    { destruct expired; [|apply logs_ret; exact I].
      destruct dek; [apply logs_ret; exact I|].
      exfalso. apply (Hexp eq_refl). reflexivity. }
    intros newVersion _.
    eapply logs_bind; [apply logs_createDek|].
    intros [result err] Hone.
    destruct err as [err|].
    - destruct dek as [dek|];
        [|apply logs_ret; right; eexists; reflexivity].
      eapply logs_bind with (P := fun _ => True);
        [apply logs_emit; reflexivity|].
      intros _ _. apply logs_resolveKeyMaterial. reflexivity.
    - destruct result as [r|];
        [apply logs_resolveKeyMaterial; reflexivity|].
      exfalso. destruct Hone as [[a Ha]|[e He]]; discriminate. }
  destruct dek as [dek|]; [destruct expired|]; try exact Hcreate.
  apply logs_resolveKeyMaterial. reflexivity.
Qed.

(** X9: [getOrCreateDek] never panics and never returns a nil DEK with a
    nil error: whatever the registry, the clock and the KMS answer, it
    returns either a DEK or an error. *)
Theorem getOrCreateDek_returns_dek_or_error :
  forall (f : ExecutorTransform) (ctx : RuleContext) (version : option Z)
         (s : state),
    exists r s',
      getOrCreateDek f ctx version s = (Returns r, s') /\ oneOf r.
Proof.
  intros f ctx version s.
  destruct (getOrCreateDek_total_logs f ctx version s)
    as (r & s' & added & Hr & _ & _ & Ho).
  exists r, s'. split; assumption.
Qed.

Lemma forallb_negb_existsb {A} (p : A -> bool) (l : list A) :
  forallb (fun a => negb (p a)) l = true -> existsb p l = false.
Proof.
  induction l as [|a l IH]; simpl; [reflexivity|].
  rewrite andb_true_iff, negb_true_iff. intros [-> Hl].
  rewrite (IH Hl). reflexivity.
Qed.

(** X10: a consumer never creates key material.  In read mode, whatever
    the registry, the clock and the KMS answer, [getOrCreateDek] returns a
    DEK or an error and its calls include no registration, no fresh key
    and no wrapping of a key by the KEK. *)
Theorem getOrCreateDek_read_never_creates :
  forall (f : ExecutorTransform) (subject : string)
         (params : string -> option string) (version : option Z)
         (s : state),
    exists r s' added,
      getOrCreateDek f {| RuleMode := Read; Subject := subject;
                          GetParameter := params |} version s
      = (Returns r, s')
      /\ calls s' = calls s ++ added
      /\ existsb createsKeyMaterial added = false
      /\ oneOf r.
Proof.
  intros f subject params version s.
  assert (HE : forall e, createsKeyMaterial e = false ->
                         negb (createsKeyMaterial e) = true)
    by (intros e ->; reflexivity).
  assert (H : logs (fun e => negb (createsKeyMaterial e)) oneOf
                   (getOrCreateDek f {| RuleMode := Read; Subject := subject;
                                        GetParameter := params |} version)).
  { unfold getOrCreateDek. simpl.
    eapply logs_bind with (P := fun _ => True);
      [apply logs_retrieveDek; exact HE|].
    intros [dek err] _.
    destruct err as [err|]; [apply logs_ret; right; eexists; reflexivity|].
    eapply logs_bind with (P := fun _ => True).
    { eapply logs_weaken; [apply logs_isExpired; exact HE|]. intros; exact I. }
    intros expired _.
    destruct dek as [dek|]; [destruct expired|];
      try (apply logs_ret; right; eexists; reflexivity).
    apply logs_resolveKeyMaterial. exact HE. }
  destruct (H s) as (r & s' & added & Hr & Hc & Hf & Ho).
  exists r, s', added. repeat split; try assumption.
  apply forallb_negb_existsb. exact Hf.
Qed.

Lemma nilSafe_call {A} (P : A -> Prop) (e : Event) (op : World -> A * World) :
  (forall a, P a) -> nilSafe P (call e op).
Proof.
  intros H s. apply H.
Qed.

Lemma nilSafe_encrypt c key plaintext ad :
  Cryptor_KeyTemplate c <> None ->
  nilSafe (fun _ => True) (encrypt c key plaintext ad).
Proof.
  intros Ht s. unfold encrypt, KeyTemplate_TypeUrl, bind, lift, call_pure.
  destruct (Cryptor_KeyTemplate c) as [kt|]; [|contradiction]. simpl.
  destruct (registry_Primitive (TypeUrl kt) key) as [prim|err]; [|exact I].
  destruct (String.eqb (DekFormat c) Aes256Siv).
  - destruct (asDeterministicAEAD prim); simpl; [exact I|discriminate].
  - destruct (asAEAD prim); simpl; [exact I|discriminate].
Qed.

Lemma nilSafe_decrypt c key ciphertext ad :
  Cryptor_KeyTemplate c <> None ->
  nilSafe (fun _ => True) (decrypt c key ciphertext ad).
Proof.
  intros Ht s. unfold decrypt, KeyTemplate_TypeUrl, bind, lift, call_pure.
  destruct (Cryptor_KeyTemplate c) as [kt|]; [|contradiction]. simpl.
  destruct (registry_Primitive (TypeUrl kt) key) as [prim|err]; [|exact I].
  destruct (String.eqb (DekFormat c) Aes256Siv).
  - destruct (asDeterministicAEAD prim); simpl; [exact I|discriminate].
  - destruct (asAEAD prim); simpl; [exact I|discriminate].
Qed.

Lemma nilSafe_getOrCreateDek f ctx version :
  nilSafe oneOf (getOrCreateDek f ctx version).
Proof.
  intros s.
  destruct (getOrCreateDek_total_logs f ctx version s)
    as (r & s' & added & Hr & _ & _ & Ho).
  rewrite Hr. exact Ho.
Qed.

Lemma toBytes_panic fieldType obj p :
  toBytes fieldType obj = Panics p -> p <> NilPointerDereference.
Proof.
  destruct fieldType, obj; simpl; intros H; inversion H; discriminate.
Qed.

Lemma extractVersion_panic ciphertext p :
  extractVersion ciphertext = Panics p -> p <> NilPointerDereference.
Proof.
  unfold extractVersion, index, slice.
  destruct ciphertext as [|b rest]; simpl.
  - intros H; inversion H; discriminate.
  - destruct (negb (Byte.eqb b MagicByteV0)); [discriminate|].
    destruct rest as [|b0 [|b1 [|b2 [|b3 rest]]]]; simpl;
      intros H; inversion H; discriminate.
Qed.

Lemma nilSafe_outcome {A} (o : outcome A) :
  (forall p, o = Panics p -> p <> NilPointerDereference) ->
  nilSafe (fun _ => True) (lift o).
Proof.
  intros H. apply nilSafe_lift. destruct o; [exact I|]. apply H. reflexivity.
Qed.

(** One step of a proof about [nilSafe]. *)
Ltac safe_step :=
  match goal with
  | |- nilSafe _ (ret _) => apply nilSafe_ret; exact I
  | |- nilSafe _ (bind _ _) =>
      eapply nilSafe_bind with (P := fun _ => True); [|intros ? _]
  | |- nilSafe _ (call _ _) => apply nilSafe_call; intros; exact I
  | |- nilSafe _ (match ?x with _ => _ end) => destruct x eqn:?
  | |- nilSafe _ (let (_, _) := ?x in _) => destruct x eqn:?
  end.

(** X11: with a Cryptor that has a key template (a supported algorithm),
    the transform never dereferences a nil pointer, whatever the mode, the
    field, the value and the answers of the registry, the clock and the
    KMS: a DEK it uses is never nil. *)
Theorem Transform_never_dereferences_nil :
  forall (f : ExecutorTransform) (ctx : RuleContext) (fieldType : FieldType)
         (fieldValue : value) (s : state),
    Cryptor_KeyTemplate (Cryptor_ f) <> None ->
    fst (Transform f ctx fieldType fieldValue s)
    <> Panics NilPointerDereference.
Proof.
  intros f ctx fieldType fieldValue s Ht.
  assert (Hdek : forall version (k : Dek -> M (value * option error)),
             (forall dek, nilSafe (fun _ => True) (k dek)) ->
             nilSafe (fun _ => True)
               ('(dek, err) <- getOrCreateDek f ctx version ;;
                match dek, err with
                | _, Some err => ret (NilValue, Some err)
                | None, None => panic_ NilPointerDereference
                | Some dek, None => k dek
                end)).
  { intros version k Hk.
    eapply nilSafe_bind; [apply nilSafe_getOrCreateDek|].
    intros [dek err] Hone.
    destruct err as [err|]; [destruct dek; safe_step|].
    destruct dek as [dek|]; [apply Hk|].
    exfalso. destruct Hone as [[a Ha]|[e He]]; discriminate. }
  assert (H : nilSafe (fun _ => True) (Transform f ctx fieldType fieldValue)).
  { unfold Transform.
    assert (Hbody :
      fieldValue <> NilValue ->
      nilSafe (fun _ => True)
        match RuleMode ctx with
        | Write =>
            plaintext <- lift (toBytes fieldType fieldValue) ;;
            match plaintext with
            | None =>
                ret (NilValue,
                     Some (Errorf "type '%v' not supported for encryption"
                                  [ArgFieldType fieldType]))
            | Some plaintext =>
                let version := if isDekRotated f then Some (-1) else None in
                '(dek, err) <- getOrCreateDek f ctx version ;;
                match dek, err with
                | _, Some err => ret (NilValue, Some err)
                | None, None => panic_ NilPointerDereference
                | Some dek, None =>
                    k <- call EvGetDekKeyMaterialBytes
                              (GetDekKeyMaterialBytes dek) ;;
                    match k with
                    | Error err => ret (NilValue, Some err)
                    | OK keyMaterialBytes =>
                        c <- encrypt (Cryptor_ f) (contents keyMaterialBytes)
                                     plaintext [] ;;
                        match c with
                        | Error err => ret (NilValue, Some err)
                        | OK ciphertext =>
                            match (if isDekRotated f
                                   then prefixVersion (Dek_Version dek)
                                                      ciphertext
                                   else OK ciphertext) with
                            | Error err => ret (NilValue, Some err)
                            | OK ciphertext =>
                                match fieldType with
                                | TypeString =>
                                    ret (StringValue
                                           (EncodeToString ciphertext), None)
                                | _ => ret (BytesValue (Some ciphertext), None)
                                end
                            end
                        end
                    end
                end
            end
        | Read =>
            ciphertext <- lift (toBytes fieldType fieldValue) ;;
            match ciphertext with
            | None => ret (fieldValue, None)
            | Some ciphertext =>
                match (match fieldType with
                       | TypeString =>
                           DecodeString (string_of_list_byte ciphertext)
                       | _ => OK ciphertext
                       end) with
                | Error err => ret (NilValue, Some err)
                | OK ciphertext =>
                    framed <-
                      (if isDekRotated f then
                         '(v, err) <- lift (extractVersion ciphertext) ;;
                         match err with
                         | Some err => ret (Error err)
                         | None =>
                             ciphertext <- lift (slice_from ciphertext 5) ;;
                             ret (OK (Some v, ciphertext))
                         end
                       else ret (OK (None, ciphertext))) ;;
                    match framed with
                    | Error err => ret (NilValue, Some err)
                    | OK (version, ciphertext) =>
                        '(dek, err) <- getOrCreateDek f ctx version ;;
                        match dek, err with
                        | _, Some err => ret (NilValue, Some err)
                        | None, None => panic_ NilPointerDereference
                        | Some dek, None =>
                            k <- call EvGetDekKeyMaterialBytes
                                      (GetDekKeyMaterialBytes dek) ;;
                            match k with
                            | Error err => ret (NilValue, Some err)
                            | OK keyMaterialBytes =>
                                p <- decrypt (Cryptor_ f)
                                             (contents keyMaterialBytes)
                                             ciphertext [] ;;
                                match p with
                                | Error err => ret (NilValue, Some err)
                                | OK plaintext =>
                                    ret (toObject fieldType plaintext, None)
                                end
                            end
                        end
                    end
                end
            end
        | UnrecognizedMode _ =>
            ret (NilValue,
                 Some (Errorf "unsupported rule mode %v"
                              [ArgMode (RuleMode ctx)]))
        end).
    { intros _. destruct (RuleMode ctx); [| |safe_step].
      - eapply nilSafe_bind with (P := fun _ => True);
          [apply nilSafe_outcome, toBytes_panic|].
        intros plaintext _. destruct plaintext as [plaintext|]; [|safe_step].
        cbv zeta. apply Hdek. intros dek.
        eapply nilSafe_bind with (P := fun _ => True); [safe_step|].
        intros k _. destruct k as [km|err]; [|safe_step].
        eapply nilSafe_bind with (P := fun _ => True);
          [apply nilSafe_encrypt; exact Ht|].
        intros c _. destruct c as [ciphertext|err]; [|safe_step].
        unfold prefixVersion.
        destruct (isDekRotated f); destruct fieldType; safe_step.
      - eapply nilSafe_bind with (P := fun _ => True);
          [apply nilSafe_outcome, toBytes_panic|].
        intros ciphertext _.
        destruct ciphertext as [ciphertext|]; [|safe_step].
        match goal with
        | |- nilSafe _ (match ?d with _ => _ end) => destruct d as [ct|err]
        end; [|safe_step].
        eapply nilSafe_bind with (P := fun _ => True).
        { destruct (isDekRotated f); [|safe_step].
          eapply nilSafe_bind with (P := fun _ => True);
            [apply nilSafe_outcome, extractVersion_panic|].
          intros [v err] _. destruct err; [safe_step|].
          eapply nilSafe_bind with (P := fun _ => True); [|intros; safe_step].
          apply nilSafe_outcome. unfold slice_from.
          intros p. destruct (Nat.leb 5 (List.length ct));
            intros H; inversion H; discriminate. }
        intros framed _. destruct framed as [[version ct']|err]; [|safe_step].
        apply Hdek. intros dek.
        eapply nilSafe_bind with (P := fun _ => True); [safe_step|].
        intros k _. destruct k as [km|err]; [|safe_step].
        eapply nilSafe_bind with (P := fun _ => True);
          [apply nilSafe_decrypt; exact Ht|].
        intros p _. destruct p; safe_step. }
    destruct fieldValue; [safe_step| | |]; apply Hbody; discriminate. }
  specialize (H s). intros Hp. rewrite Hp in H. apply H. reflexivity.
Qed.

(** X12: in read mode [getOrCreateKek] makes one call, the lookup of the
    KEK with deleted records included, and nothing else whatever the
    answer: a KEK found is checked against the rule, and a lookup that
    fails for any reason, not found or not, is reported as "no kek found
    for %s during consume". *)
Theorem getOrCreateKek_read_single_lookup :
  forall (f : ExecutorTransform) (subject : string)
         (params : string -> option string) (s : state),
    getOrCreateKek f {| RuleMode := Read; Subject := subject;
                        GetParameter := params |} s
    = (Returns
         match fst (GetKek (KekName f) true (world s)) with
         | OK kek => checkKek f (params EncryptKmsType)
                              (params EncryptKmsKeyID) kek
         | Error _ => (None, Some (Errorf "no kek found for %s during consume"
                                          [ArgS (KekName f)]))
         end,
       {| world := snd (GetKek (KekName f) true (world s));
          calls := calls s ++ [EvGetKek (KekName f) true] |}).
Proof.
  intros f subject params s.
  unfold getOrCreateKek, retrieveKekFromRegistry, bind, call, ret. simpl.
  destruct (GetKek (KekName f) true (world s)) as [[kek|e] w]; simpl;
    [reflexivity|].
  destruct (hasStatus "404" e); reflexivity.
Qed.

(** X13: a producer that finds no KEK and whose rule lacks a KMS type or
    a KMS key id registers nothing: after the one lookup
    [getOrCreateKek] returns "no kms type found ..." or "no kms key id
    found ...". *)
Theorem getOrCreateKek_write_needs_kms_parameters :
  forall (f : ExecutorTransform) (ctx : RuleContext) (s : state)
         (e : error) (w' : World),
    RuleMode ctx <> Read ->
    GetKek (KekName f) false (world s) = (Error e, w') ->
    nonEmpty (GetParameter ctx EncryptKmsType) = false
    \/ nonEmpty (GetParameter ctx EncryptKmsKeyID) = false ->
    getOrCreateKek f ctx s
    = (Returns (None,
                Some (Errorf (if nonEmpty (GetParameter ctx EncryptKmsType)
                              then "no kms key id found for %s during produce"
                              else "no kms type found for %s during produce")
                             [ArgS (KekName f)])),
       {| world := w'; calls := calls s ++ [EvGetKek (KekName f) false] |}).
Proof.
  intros f ctx s e w' Hmode Hget Hpar.
  apply Mode_eqb_neq in Hmode.
  unfold getOrCreateKek, retrieveKekFromRegistry, bind, call, ret. simpl.
  rewrite Hmode, Hget. simpl.
  destruct (hasStatus "404" e); simpl;
    destruct (nonEmpty (GetParameter ctx EncryptKmsType)); simpl;
    try reflexivity;
    destruct Hpar as [H|H]; try discriminate H; rewrite H; reflexivity.
Qed.

(** X14: a producer that finds no KEK registers one under the rule's KMS
    type and key id, never shared; when the registry answers with a KEK
    of that type and key id, [getOrCreateKek] returns it after the lookup
    and the registration, without contacting a KMS. *)
Theorem getOrCreateKek_write_registers :
  forall (f : ExecutorTransform) (ctx : RuleContext) (s : state)
         (e : error) (w1 w2 : World) (t i : string) (kek : Kek),
    RuleMode ctx <> Read ->
    GetParameter ctx EncryptKmsType = Some t -> t <> EmptyString ->
    GetParameter ctx EncryptKmsKeyID = Some i -> i <> EmptyString ->
    GetKek (KekName f) false (world s) = (Error e, w1) ->
    RegisterKek (KekName f) t i [] EmptyString false w1 = (OK kek, w2) ->
    Kek_KmsType kek = t -> Kek_KmsKeyID kek = i ->
    getOrCreateKek f ctx s
    = (Returns (Some kek, None),
       {| world := w2;
          calls := calls s ++ [EvGetKek (KekName f) false;
                               EvRegisterKek (KekName f) t i false] |}).
Proof.
  intros f ctx s e w1 w2 t i kek Hmode Ht Hte Hi Hie Hget Hreg Hkt Hki.
  apply Mode_eqb_neq in Hmode.
  assert (Hc : checkKek f (Some t) (Some i) kek = (Some kek, None)).
  { unfold checkKek, differs. simpl. rewrite Hkt, Hki, !String.eqb_refl.
    rewrite !andb_false_r. reflexivity. }
  apply nonEmpty_Some in Hte, Hie.
  unfold getOrCreateKek, retrieveKekFromRegistry, storeKekToRegistry,
    bind, call, ret. cbv zeta.
  rewrite Ht, Hi, Hte, Hie, Hmode. simpl.
  rewrite Hget. simpl.
  destruct (hasStatus "404" e); simpl;
    rewrite Hreg; simpl; rewrite Hc, <- app_assoc; reflexivity.
Qed.

(** X15: a DEK lookup that fails with anything but a 404-class error is
    returned to the caller as it is, in write and in read mode, after
    that one call: no clock read, no creation. *)
Theorem getOrCreateDek_lookup_failure_surfaces :
  forall (f : ExecutorTransform) (ctx : RuleContext) (version : option Z)
         (s : state) (e : error) (w' : World),
    registryDekLookup (dekIDOf f ctx version) (world s) = (Error e, w') ->
    hasStatus "404" e = false ->
    getOrCreateDek f ctx version s
    = (Returns (None, Some e),
       {| world := w';
          calls := calls s
                   ++ [registryDekLookupEvent (dekIDOf f ctx version)] |}).
Proof.
  intros f ctx version s e w' Hlook H404.
  unfold getOrCreateDek. fold (dekIDOf f ctx version).
  unfold bind at 1. rewrite retrieveDekFromRegistry_run.
  rewrite Hlook. simpl. rewrite H404. reflexivity.
Qed.

(** X16: a DEK that is found, is not due for rotation (read mode, or no
    expiry days) and carries its key material is returned as it is after
    the lookup, the clock read and the accessor: no KMS is contacted and
    nothing is registered. *)
Theorem getOrCreateDek_hit :
  forall (f : ExecutorTransform) (ctx : RuleContext) (version : option Z)
         (s : state) (dek : Dek) (w1 w3 : World) (key : bytes),
    RuleMode ctx = Read \/ DekExpiryDays f <= 0 ->
    registryDekLookup (dekIDOf f ctx version) (world s) = (OK dek, w1) ->
    GetDekKeyMaterialBytes dek (snd (NowUnixMilli w1)) = (OK (Some key), w3) ->
    getOrCreateDek f ctx version s
    = (Returns (Some dek, None),
       {| world := w3;
          calls := calls s
                   ++ [registryDekLookupEvent (dekIDOf f ctx version);
                       EvNowUnixMilli; EvGetDekKeyMaterialBytes] |}).
Proof.
  intros f ctx version s dek w1 w3 key Hfresh Hlook Hkey.
  assert (Hexp : forall now,
             (negb (Mode_eqb (RuleMode ctx) Read)
              && (0 <? DekExpiryDays f)%Z
              && (GoInt.int64 (DekExpiryDays f)
                  <=? GoInt.div64 (GoInt.sub64 now (Dek_Ts dek))
                                  MillisInDay)%Z)%bool = false).
  { intros now. destruct Hfresh as [Hr|Hd].
    - rewrite Hr. reflexivity.
    - replace (0 <? DekExpiryDays f)%Z with false
        by (symmetry; apply Z.ltb_ge; exact Hd).
      rewrite andb_false_r. reflexivity. }
  unfold getOrCreateDek. fold (dekIDOf f ctx version).
  unfold bind at 1. rewrite retrieveDekFromRegistry_run.
  rewrite Hlook. simpl.
  unfold isExpired, resolveKeyMaterial, bind, call, ret. simpl.
  rewrite Hexp. simpl. rewrite Hkey. simpl.
  rewrite <- !app_assoc. reflexivity.
Qed.

(** X17: the first DEK under a shared KEK.  A producer that finds no DEK
    asks the registry for version 1 with an empty encrypted key and
    returns the DEK the registry answers with, its key material
    included; no key is generated and no KMS is contacted. *)
Theorem getOrCreateDek_first_version_shared :
  forall (f : ExecutorTransform) (ctx : RuleContext) (version : option Z)
         (s : state) (e : error) (w1 w3 w4 : World) (dek : Dek)
         (key : bytes),
    RuleMode ctx <> Read ->
    Kek_Shared (Kek_ f) = true ->
    registryDekLookup (dekIDOf f ctx version) (world s) = (Error e, w1) ->
    hasStatus "404" e = true ->
    RegisterDekVersion (KekName f) (Subject ctx) 1 (DekFormat (Cryptor_ f))
                       EmptyString (snd (NowUnixMilli w1))
    = (OK dek, w3) ->
    GetDekKeyMaterialBytes dek w3 = (OK (Some key), w4) ->
    getOrCreateDek f ctx version s
    = (Returns (Some dek, None),
       {| world := w4;
          calls := calls s
                   ++ [registryDekLookupEvent (dekIDOf f ctx version);
                       EvNowUnixMilli;
                       EvRegisterDekVersion (KekName f) (Subject ctx) 1
                                            (DekFormat (Cryptor_ f))
                                            EmptyString;
                       EvGetDekKeyMaterialBytes] |}).
Proof.
  intros f ctx version s e w1 w3 w4 dek key Hmode Hshared Hlook H404 Hreg Hkey.
  apply Mode_eqb_neq in Hmode.
  unfold getOrCreateDek. fold (dekIDOf f ctx version).
  unfold bind at 1. rewrite retrieveDekFromRegistry_run.
  rewrite Hlook. simpl. rewrite H404.
  unfold isExpired, wrapNewDek, createDek, storeDekToRegistry,
    resolveKeyMaterial, bind, call, ret. simpl.
  rewrite Hmode, Hshared. simpl. rewrite andb_false_r. simpl.
  rewrite Hreg. simpl. rewrite Hkey. simpl.
  rewrite <- !app_assoc. reflexivity.
Qed.

Lemma storeDekToRegistry_run f key encryptedDek s :
  storeDekToRegistry f key encryptedDek s
  = let str := match encryptedDek with
               | Some b => EncodeToString b
               | None => EmptyString
               end in
    let r := registryDekStore key str (world s) in
    (Returns match fst r with
             | OK dek => (Some dek, None)
             | Error err =>
                 if hasStatus "409" err then (None, None)
                 else (None, Some err)
             end,
     {| world := snd r;
        calls := calls s ++ [registryDekStoreEvent key str] |}).
Proof.
  unfold storeDekToRegistry, registryDekStore, registryDekStoreEvent,
    bind, call, ret.
  destruct (DekID_Version key =? 0)%Z; simpl;
    match goal with
    | |- context [fst ?x] => destruct x as [[dek|err] w]; simpl
    end; try reflexivity; destruct (hasStatus "409" err); reflexivity.
Qed.

(** X18: [createDek] and a failed registration under a shared KEK.
    When the registration of the new version fails, with a conflict or
    with any other error, [createDek] looks the DEK up again under the
    identifier it was asked for, not under the new version, and the
    result is decided by that lookup: the DEK found, "no dek found for %s
    during produce" when it is absent, or the error of the lookup. *)
Theorem createDek_refetches_requested_version :
  forall (f : ExecutorTransform) (dekID : DekID) (newVersion : Z)
         (s : state) (e : error) (w1 w2 : World) (r : res Dek),
    registryDekStore (withVersion dekID newVersion) EmptyString (world s)
    = (Error e, w1) ->
    registryDekLookup dekID w1 = (r, w2) ->
    createDek f dekID newVersion None s
    = (Returns
         match r with
         | OK dek => (Some dek, None)
         | Error e' =>
             if hasStatus "404" e'
             then (None, Some (Errorf "no dek found for %s during produce"
                                      [ArgS (DekID_KekName dekID)]))
             else (None, Some e')
         end,
       {| world := w2;
          calls := calls s
                   ++ [registryDekStoreEvent (withVersion dekID newVersion)
                                             EmptyString;
                       registryDekLookupEvent dekID] |}).
Proof.
  intros f dekID newVersion s e w1 w2 r Hstore Hlook.
  unfold createDek. fold (withVersion dekID newVersion).
  unfold bind at 1. rewrite storeDekToRegistry_run. cbv zeta.
  rewrite Hstore. simpl.
  destruct (hasStatus "409" e); unfold bind;
    rewrite retrieveDekFromRegistry_run; simpl; rewrite Hlook; simpl;
    rewrite <- app_assoc;
    destruct r as [dek|e']; simpl; try reflexivity;
    destruct (hasStatus "404" e'); reflexivity.
Qed.

(** X19: rotation under a shared KEK.  A producer that finds an expired
    DEK asks the registry for the version after it, again with an empty
    encrypted key, and returns the DEK the registry answers with. *)
Theorem getOrCreateDek_rotates_to_next_version :
  forall (f : ExecutorTransform) (ctx : RuleContext) (version : option Z)
         (s : state) (w1 w3 w4 : World) (old dek : Dek) (key : bytes),
    RuleMode ctx <> Read ->
    Kek_Shared (Kek_ f) = true ->
    registryDekLookup (dekIDOf f ctx version) (world s) = (OK old, w1) ->
    expiredAt f (fst (NowUnixMilli w1)) old = true ->
    registryDekStore (withVersion (dekIDOf f ctx version)
                                  (GoInt.add64 (Dek_Version old) 1))
                     EmptyString (snd (NowUnixMilli w1))
    = (OK dek, w3) ->
    GetDekKeyMaterialBytes dek w3 = (OK (Some key), w4) ->
    getOrCreateDek f ctx version s
    = (Returns (Some dek, None),
       {| world := w4;
          calls := calls s
                   ++ [registryDekLookupEvent (dekIDOf f ctx version);
                       EvNowUnixMilli;
                       registryDekStoreEvent
                         (withVersion (dekIDOf f ctx version)
                                      (GoInt.add64 (Dek_Version old) 1))
                         EmptyString;
                       EvGetDekKeyMaterialBytes] |}).
Proof.
  intros f ctx version s w1 w3 w4 old dek key
         Hmode Hshared Hlook Hexp Hreg Hkey.
  apply Mode_eqb_neq in Hmode. unfold expiredAt in Hexp.
  unfold getOrCreateDek. fold (dekIDOf f ctx version).
  unfold bind at 1. rewrite retrieveDekFromRegistry_run.
  rewrite Hlook. cbv zeta. cbn [fst snd].
  unfold isExpired. unfold bind at 1. unfold bind at 1. unfold call at 1.
  cbn [fst snd world calls]. unfold ret at 1.
  rewrite Hmode. cbn [negb andb]. rewrite Hexp.
  unfold wrapNewDek. rewrite Hshared. cbn [negb].
  unfold bind at 1. unfold ret at 1.
  unfold bind at 1. unfold ret at 1.
  unfold createDek.
  fold (withVersion (dekIDOf f ctx version) (GoInt.add64 (Dek_Version old) 1)).
  unfold bind at 1. unfold bind at 1.
  rewrite storeDekToRegistry_run. cbv zeta. cbn [fst snd world calls].
  rewrite Hreg. cbn [fst snd]. unfold ret at 1.
  unfold resolveKeyMaterial, bind, call, ret. cbn [fst snd world calls].
  rewrite Hkey. cbn [fst snd]. rewrite <- !app_assoc. reflexivity.
Qed.

(** X20: the fallback to the prior DEK.  A producer under a shared KEK
    that finds an expired DEK, fails to register the next version and
    fails to look the DEK up again logs a warning and returns the expired
    DEK: the failure of the rotation is not reported to the caller. *)
Theorem getOrCreateDek_falls_back_to_prior :
  forall (f : ExecutorTransform) (ctx : RuleContext) (version : option Z)
         (s : state) (w1 w3 w4 w5 : World) (old : Dek) (e1 e2 : error)
         (key : bytes),
    RuleMode ctx <> Read ->
    Kek_Shared (Kek_ f) = true ->
    registryDekLookup (dekIDOf f ctx version) (world s) = (OK old, w1) ->
    expiredAt f (fst (NowUnixMilli w1)) old = true ->
    registryDekStore (withVersion (dekIDOf f ctx version)
                                  (GoInt.add64 (Dek_Version old) 1))
                     EmptyString (snd (NowUnixMilli w1))
    = (Error e1, w3) ->
    registryDekLookup (dekIDOf f ctx version) w3 = (Error e2, w4) ->
    GetDekKeyMaterialBytes old w4 = (OK (Some key), w5) ->
    getOrCreateDek f ctx version s
    = (Returns (Some old, None),
       {| world := w5;
          calls := calls s
                   ++ [registryDekLookupEvent (dekIDOf f ctx version);
                       EvNowUnixMilli;
                       registryDekStoreEvent
                         (withVersion (dekIDOf f ctx version)
                                      (GoInt.add64 (Dek_Version old) 1))
                         EmptyString;
                       registryDekLookupEvent (dekIDOf f ctx version);
                       EvLog "WARN: failed to create dek for %s, subject %s, version %d, using existing dek\n"
                             [ArgS (KekName f); ArgS (Subject ctx);
                              ArgI (GoInt.add64 (Dek_Version old) 1)];
                       EvGetDekKeyMaterialBytes] |}).
Proof.
  intros f ctx version s w1 w3 w4 w5 old e1 e2 key
         Hmode Hshared Hlook Hexp Hreg Hre Hkey.
  apply Mode_eqb_neq in Hmode. unfold expiredAt in Hexp.
  unfold getOrCreateDek. fold (dekIDOf f ctx version).
  unfold bind at 1. rewrite retrieveDekFromRegistry_run.
  rewrite Hlook. cbv zeta. cbn [fst snd].
  unfold isExpired. unfold bind at 1. unfold bind at 1. unfold call at 1.
  cbn [fst snd world calls]. unfold ret at 1.
  rewrite Hmode. cbn [negb andb]. rewrite Hexp.
  unfold wrapNewDek. rewrite Hshared. cbn [negb].
  unfold bind at 1. unfold ret at 1.
  unfold bind at 1. unfold ret at 1.
  unfold createDek.
  fold (withVersion (dekIDOf f ctx version) (GoInt.add64 (Dek_Version old) 1)).
  unfold bind at 1. unfold bind at 1.
  rewrite storeDekToRegistry_run. cbv zeta. cbn [fst snd world calls].
  rewrite Hreg. cbn [fst snd].
  assert (Hrefetch : forall st,
             world st = w3 ->
             retrieveDekFromRegistry f (dekIDOf f ctx version) st
             = (Returns (if hasStatus "404" e2 then (None, None)
                         else (None, Some e2)),
                {| world := w4;
                   calls := calls st
                            ++ [registryDekLookupEvent
                                  (dekIDOf f ctx version)] |})).
  { intros st Hst. rewrite retrieveDekFromRegistry_run, Hst, Hre.
    reflexivity. }
  destruct (hasStatus "409" e1); unfold bind at 1;
    rewrite Hrefetch by reflexivity;
    destruct (hasStatus "404" e2);
    unfold resolveKeyMaterial, bind, call, ret, emit;
    cbn [fst snd world calls];
    rewrite Hkey; cbn [fst snd]; rewrite <- !app_assoc; reflexivity.
Qed.

(** X21: a KMS client that is already registered for the KEK's URL is
    reused: [getAead] asks for the driver, finds the client and takes the
    AEAD from it, constructing and registering nothing.  The URL is the
    KMS type, [://] and the KMS key id. *)
Theorem getAead_reuses_registered_client :
  forall (config : list (string * string)) (kek : Kek) (s : state)
         (driver : KMSDriver) (client : KMSClient) (w1 w2 w3 : World)
         (r : res AEAD),
    GetKMSDriver (kekURLOf kek) (world s) = (OK driver, w1) ->
    registry_GetKMSClient (kekURLOf kek) w1 = (OK client, w2) ->
    GetAEAD client (kekURLOf kek) w2 = (r, w3) ->
    getAead config kek s
    = (Returns r,
       {| world := w3;
          calls := calls s
                   ++ [EvGetKMSDriver (kekURLOf kek);
                       EvGetKMSClient (kekURLOf kek);
                       EvGetAEAD (kekURLOf kek)] |}).
Proof.
  intros config kek s driver client w1 w2 w3 r Hd Hc Ha.
  unfold getAead, getKMSClient, bind, call, ret. fold (kekURLOf kek).
  cbn [fst snd world calls]. rewrite Hd. cbn [fst snd world calls].
  rewrite Hc. cbn [fst snd world calls]. rewrite Ha.
  rewrite <- !app_assoc. reflexivity.
Qed.

(** X22: when no KMS client is registered for the KEK's URL, [getAead]
    has the driver construct one from the executor's configuration,
    registers it once and takes the AEAD from it; a construction that
    fails is returned as the error, with nothing registered. *)
Theorem getAead_constructs_and_registers_client :
  forall (config : list (string * string)) (kek : Kek) (s : state)
         (driver : KMSDriver) (w1 w2 w3 : World) (e : error)
         (c : res KMSClient),
    GetKMSDriver (kekURLOf kek) (world s) = (OK driver, w1) ->
    registry_GetKMSClient (kekURLOf kek) w1 = (Error e, w2) ->
    NewKMSClient driver config (kekURLOf kek) w2 = (c, w3) ->
    getAead config kek s
    = match c with
      | OK client =>
          (Returns (fst (GetAEAD client (kekURLOf kek)
                                 (snd (registry_RegisterKMSClient client w3)))),
           {| world := snd (GetAEAD client (kekURLOf kek)
                              (snd (registry_RegisterKMSClient client w3)));
              calls := calls s
                       ++ [EvGetKMSDriver (kekURLOf kek);
                           EvGetKMSClient (kekURLOf kek);
                           EvNewKMSClient (kekURLOf kek);
                           EvRegisterKMSClient;
                           EvGetAEAD (kekURLOf kek)] |})
      | Error err =>
          (Returns (Error err),
           {| world := w3;
              calls := calls s
                       ++ [EvGetKMSDriver (kekURLOf kek);
                           EvGetKMSClient (kekURLOf kek);
                           EvNewKMSClient (kekURLOf kek)] |})
      end.
Proof.
  intros config kek s driver w1 w2 w3 e c Hd Hc Hn.
  unfold getAead, getKMSClient, registerKMSClient, bind, call, ret.
  fold (kekURLOf kek).
  cbn [fst snd world calls]. rewrite Hd. cbn [fst snd world calls].
  rewrite Hc. cbn [fst snd world calls]. rewrite Hn.
  destruct c as [client|err]; cbn [fst snd world calls];
    rewrite <- !app_assoc; reflexivity.
Qed.

End LifecycleProperties.

Section ConfigurationProperties.

Context {C : Collaborators} {R : Runtime}.

Lemma mapLookup_cons k v m key :
  mapLookup ((k, v) :: m) key
  = if String.eqb k key then Some v else mapLookup m key.
Proof.
  unfold mapLookup. simpl. destruct (String.eqb k key); reflexivity.
Qed.

Lemma mapLookup_store_same m key value :
  mapLookup (mapStore m key value) key = Some value.
Proof.
  induction m as [|[k v] m IH]; simpl.
  - rewrite mapLookup_cons, String.eqb_refl. reflexivity.
  - destruct (String.eqb k key) eqn:E; rewrite mapLookup_cons, E;
      [reflexivity|exact IH].
Qed.

Lemma mapLookup_store_other m key value key' :
  key <> key' ->
  mapLookup (mapStore m key value) key' = mapLookup m key'.
Proof.
  intros Hne. induction m as [|[k v] m IH]; simpl.
  - rewrite mapLookup_cons.
    replace (String.eqb key key') with false
      by (symmetry; apply String.eqb_neq; exact Hne).
    reflexivity.
  - destruct (String.eqb k key) eqn:E.
    + apply String.eqb_eq in E. subst k. rewrite !mapLookup_cons.
      replace (String.eqb key key') with false
        by (symmetry; apply String.eqb_neq; exact Hne).
      reflexivity.
    + rewrite !mapLookup_cons, IH. reflexivity.
Qed.

Lemma mapLookup_In m key value :
  NoDup (map fst m) -> In (key, value) m -> mapLookup m key = Some value.
Proof.
  induction m as [|[k v] m IH]; simpl; intros Hnd Hin; [contradiction|].
  inversion Hnd as [|? ? Hk Hm]; subst. rewrite mapLookup_cons.
  destruct Hin as [Heq|Hin].
  - inversion Heq; subst. rewrite String.eqb_refl. reflexivity.
  - destruct (String.eqb_spec k key) as [->|Hne]; [|auto].
    exfalso. apply Hk. apply (in_map fst) in Hin. exact Hin.
Qed.

Lemma mergeConfig_keeps config :
  forall current merged err key value,
    mergeConfig current config = (merged, err) ->
    mapLookup current key = Some value ->
    mapLookup merged key = Some value.
Proof.
  induction config as [|[k v] config IH]; simpl;
    intros current merged err key value Hm Hl.
  - inversion Hm; subst. exact Hl.
  - destruct (mapLookup current k) as [v0|] eqn:Ek.
    + destruct (negb (String.eqb v0 v)).
      * inversion Hm; subst. exact Hl.
      * eapply IH; eassumption.
    + eapply IH; [eassumption|].
      rewrite mapLookup_store_other; [exact Hl|].
      intros ->. congruence.
Qed.

Lemma mergeConfig_holds config :
  forall current merged key value,
    mergeConfig current config = (merged, None) ->
    In (key, value) config ->
    mapLookup merged key = Some value.
Proof.
  induction config as [|[k v] config IH]; simpl;
    intros current merged key value Hm Hin; [contradiction|].
  destruct (mapLookup current k) as [v0|] eqn:Ek.
  - destruct (String.eqb v0 v) eqn:Ev; simpl in Hm; [|discriminate Hm].
    apply String.eqb_eq in Ev. subst v0.
    destruct Hin as [Heq|Hin]; [|eapply IH; eassumption].
    inversion Heq; subst. eapply mergeConfig_keeps; eassumption.
  - destruct Hin as [Heq|Hin]; [|eapply IH; eassumption].
    inversion Heq; subst. eapply mergeConfig_keeps; [eassumption|].
    apply mapLookup_store_same.
Qed.

Lemma mergeConfig_settled config :
  forall current,
    (forall key value, In (key, value) config ->
                       mapLookup current key = Some value) ->
    mergeConfig current config = (current, None).
Proof.
  induction config as [|[k v] config IH]; simpl; intros current H;
    [reflexivity|].
  rewrite (H k v) by (left; reflexivity).
  rewrite String.eqb_refl. simpl. apply IH.
  intros key value Hin. apply H. right. exact Hin.
Qed.

Lemma mergeConfig_conflict config :
  forall current,
    NoDup (map fst config) ->
    (snd (mergeConfig current config) <> None <->
     exists key value value',
       In (key, value) config
       /\ mapLookup current key = Some value' /\ value' <> value).
Proof.
  induction config as [|[k v] config IH]; simpl; intros current Hnd.
  - split; [intros H; contradiction|intros (? & ? & ? & [] & _)].
  - inversion Hnd as [|? ? Hk Hrest]; subst.
    destruct (mapLookup current k) as [v0|] eqn:Ek.
    + destruct (String.eqb_spec v0 v) as [->|Hne]; simpl.
      * rewrite (IH current Hrest). split.
        -- intros (key & value & value' & Hin & Hl & Hd).
           exists key, value, value'. auto.
        -- intros (key & value & value' & [Heq|Hin] & Hl & Hd).
           ++ inversion Heq; subst. congruence.
           ++ exists key, value, value'. auto.
      * split; [|intros _; discriminate].
        intros _. exists k, v, v0. auto.
    + rewrite (IH (mapStore current k v) Hrest). split.
      * intros (key & value & value' & Hin & Hl & Hd).
        exists key, value, value'. split; [auto|]. split; [|exact Hd].
        rewrite mapLookup_store_other in Hl; [exact Hl|].
        intros ->. apply Hk. apply (in_map fst) in Hin. exact Hin.
      * intros (key & value & value' & [Heq|Hin] & Hl & Hd).
        -- inversion Heq; subst. congruence.
        -- exists key, value, value'. split; [exact Hin|].
           split; [|exact Hd].
           rewrite mapLookup_store_other; [exact Hl|].
           intros ->. apply Hk. apply (in_map fst) in Hin. exact Hin.
Qed.

(** X23: a rule parameter, once set, keeps its value.  Whatever
    [Configure] is called with and whether it succeeds or fails, every
    key the executor's configuration held before the call holds the same
    value after it. *)
Theorem Configure_keeps_bindings :
  forall (f f' : Executor) (clientConfig : ClientConfig)
         (config : option (list (string * string))) (err : option error)
         (current : list (string * string)) (key value : string),
    Configure f clientConfig config = (f', err) ->
    Executor_Config f = Some current ->
    mapLookup current key = Some value ->
    exists current',
      Executor_Config f' = Some current'
      /\ mapLookup current' key = Some value.
Proof.
  intros f f' clientConfig config err current key value Hc Hf Hl.
  unfold Configure in Hc.
  destruct (Executor_Client f) as [client|].
  - destruct (negb (ConfigsEqual (Client_Config client) clientConfig)).
    + inversion Hc; subst. exists current. auto.
    + rewrite Hf in Hc.
      destruct (mergeConfig current match config with
                                    | Some c => c
                                    | None => []
                                    end) as [merged e] eqn:Em.
      inversion Hc; subst. exists merged. split; [reflexivity|].
      eapply mergeConfig_keeps; eassumption.
  - destruct (NewClient clientConfig) as [client|e].
    + simpl in Hc. rewrite Hf in Hc.
      destruct (mergeConfig current match config with
                                    | Some c => c
                                    | None => []
                                    end) as [merged e] eqn:Em.
      inversion Hc; subst. exists merged. split; [reflexivity|].
      eapply mergeConfig_keeps; eassumption.
    + inversion Hc; subst. exists current. auto.
Qed.

(** X24: after a successful [Configure] every entry of the configuration
    passed in is part of the executor's configuration (the keys of a map
    being distinct). *)
Theorem Configure_success_holds_config :
  forall (f f' : Executor) (clientConfig : ClientConfig)
         (config : list (string * string)) (key value : string),
    NoDup (map fst config) ->
    Configure f clientConfig (Some config) = (f', None) ->
    In (key, value) config ->
    exists current',
      Executor_Config f' = Some current'
      /\ mapLookup current' key = Some value.
Proof.
  intros f f' clientConfig config key value Hnd Hc Hin.
  unfold Configure in Hc.
  assert (Hmerge : forall g : Executor,
             match Executor_Config g with
             | Some current =>
                 let (merged, err) := mergeConfig current config in
                 ({| Executor_Config := Some merged;
                     Executor_Client := Executor_Client g |}, err)
             | None =>
                 ({| Executor_Config := Some config;
                     Executor_Client := Executor_Client g |}, None)
             end = (f', None) ->
             exists current',
               Executor_Config f' = Some current'
               /\ mapLookup current' key = Some value).
  { intros g Hg. destruct (Executor_Config g) as [current|].
    - destruct (mergeConfig current config) as [merged e] eqn:Em.
      inversion Hg; subst. exists merged. split; [reflexivity|].
      eapply mergeConfig_holds; eassumption.
    - inversion Hg; subst. exists config. split; [reflexivity|].
      apply mapLookup_In; assumption. }
  destruct (Executor_Client f) as [client|].
  - destruct (negb (ConfigsEqual (Client_Config client) clientConfig));
      [discriminate Hc|]. apply (Hmerge f). exact Hc.
  - destruct (NewClient clientConfig) as [client|e]; [|discriminate Hc].
    eapply Hmerge. exact Hc.
Qed.

(** X25: [Configure] is idempotent.  With a client that reports the
    configuration it was built from, a call that succeeded can be
    repeated with the same arguments: it succeeds again and leaves the
    executor as it is. *)
Theorem Configure_twice :
  forall (f f' : Executor) (clientConfig : ClientConfig)
         (config : option (list (string * string))),
    (forall client, NewClient clientConfig = OK client ->
                    ConfigsEqual (Client_Config client) clientConfig = true) ->
    NoDup (map fst (match config with Some c => c | None => [] end)) ->
    Configure f clientConfig config = (f', None) ->
    Configure f' clientConfig config = (f', None).
Proof.
  intros f f' clientConfig config Hnew Hnd Hc.
  assert (Hsecond : forall (client : Client) current,
             ConfigsEqual (Client_Config client) clientConfig = true ->
             (forall key value,
                 In (key, value) (match config with
                                  | Some c => c
                                  | None => []
                                  end) ->
                 mapLookup current key = Some value) ->
             Configure {| Executor_Config := Some current;
                          Executor_Client := Some client |}
                       clientConfig config
             = ({| Executor_Config := Some current;
                   Executor_Client := Some client |}, None)).
  { intros client current Heq Hall. unfold Configure. simpl.
    rewrite Heq. simpl. rewrite (mergeConfig_settled _ _ Hall).
    reflexivity. }
  assert (Hfirst : forall (g : Executor) (client : Client),
             Executor_Client g = Some client ->
             ConfigsEqual (Client_Config client) clientConfig = true ->
             match Executor_Config g with
             | Some current =>
                 let (merged, err) :=
                   mergeConfig current (match config with
                                        | Some c => c
                                        | None => []
                                        end) in
                 ({| Executor_Config := Some merged;
                     Executor_Client := Executor_Client g |}, err)
             | None =>
                 match config with
                 | Some c =>
                     ({| Executor_Config := Some c;
                         Executor_Client := Executor_Client g |}, None)
                 | None =>
                     ({| Executor_Config := Some [];
                         Executor_Client := Executor_Client g |}, None)
                 end
             end = (f', None) ->
             Configure f' clientConfig config = (f', None)).
  { intros g client Hg Heq Hrun. rewrite Hg in Hrun.
    destruct (Executor_Config g) as [current|].
    - destruct (mergeConfig current match config with
                                    | Some c => c
                                    | None => []
                                    end) as [merged e] eqn:Em.
      inversion Hrun; subst. apply Hsecond; [exact Heq|].
      intros key value Hin. eapply mergeConfig_holds; eassumption.
    - destruct config as [c|]; inversion Hrun; subst;
        apply Hsecond; try exact Heq.
      + intros key value Hin. apply mapLookup_In; assumption.
      + intros key value []. }
  unfold Configure in Hc.
  destruct (Executor_Client f) as [client|] eqn:Ecl.
  - destruct (ConfigsEqual (Client_Config client) clientConfig) eqn:Heq;
      simpl in Hc; [|discriminate Hc].
    apply (Hfirst f client Ecl Heq). exact Hc.
  - destruct (NewClient clientConfig) as [client|e] eqn:En;
      [|discriminate Hc].
    apply (Hfirst {| Executor_Config := Executor_Config f;
                     Executor_Client := Some client |} client eq_refl
                  (Hnew client eq_refl)).
    exact Hc.
Qed.

(** X26: when the executor has a configuration and its client check
    passes, [Configure] fails exactly when a key passed in is already set
    to a different value (the keys of a map being distinct). *)
Theorem Configure_fails_on_conflict :
  forall (f : Executor) (client : Client) (clientConfig : ClientConfig)
         (current config : list (string * string)),
    Executor_Client f = Some client ->
    ConfigsEqual (Client_Config client) clientConfig = true ->
    Executor_Config f = Some current ->
    NoDup (map fst config) ->
    (snd (Configure f clientConfig (Some config)) <> None <->
     exists key value value',
       In (key, value) config
       /\ mapLookup current key = Some value' /\ value' <> value).
Proof.
  intros f client clientConfig current config Hcl Heq Hcur Hnd.
  unfold Configure. rewrite Hcl, Heq. simpl. rewrite Hcur.
  rewrite <- (@mergeConfig_conflict config current Hnd).
  destruct (mergeConfig current config) as [merged e]. reflexivity.
Qed.

(** X27: what a transform built by [NewTransform] is.  Its KEK name is
    the non-empty rule parameter, its expiry days are not negative, its
    Cryptor is the one of the rule's algorithm, its KEK agrees with the
    KMS type and key id of the rule where these are given, and building
    it made lookups and registrations of KEKs only: no KMS call. *)
Theorem NewTransform_builds :
  forall (f : Executor) (ctx : RuleContext) (s s' : state)
         (t : ExecutorTransform),
    NewTransform f ctx s = (Returns (Some t, None), s') ->
    GetParameter ctx EncryptKekName = Some (KekName t)
    /\ KekName t <> EmptyString
    /\ 0 <= DekExpiryDays t
    /\ Cryptor_ t = getCryptor ctx
    /\ differs (GetParameter ctx EncryptKmsType) (Kek_KmsType (Kek_ t)) = false
    /\ differs (GetParameter ctx EncryptKmsKeyID) (Kek_KmsKeyID (Kek_ t))
       = false
    /\ exists added,
         calls s' = calls s ++ added
         /\ forallb isKekRegistryCall added = true
         /\ existsb isKms added = false.
Proof.
  intros f ctx s s' t H. unfold NewTransform in H.
  unfold getKekName in H.
  destruct (GetParameter ctx EncryptKekName) as [name|] eqn:En;
    [|inversion H].
  destruct (Nat.eqb (String.length name) 0) eqn:El; [inversion H|].
  unfold getDekExpiryDays in H.
  assert (Hdays : exists days,
             0 <= days
             /\ match Executor_Client f with
                | None => panic_ NilPointerDereference
                | Some _ =>
                    '(kek, err) <- getOrCreateKek
                                     (newTransform f ctx name days zeroKek)
                                     ctx ;;
                    match err with
                    | Some err => ret (None, Some err)
                    | None =>
                        match kek with
                        | None => panic_ NilPointerDereference
                        | Some kek =>
                            ret (Some (newTransform f ctx name days kek), None)
                        end
                    end
                end s = (Returns (Some t, None), s')).
  { destruct (GetParameter ctx EncryptDekExpiryDays) as [d|].
    - destruct (Atoi d) as [i|e]; [|inversion H].
      destruct (Z.ltb_spec i 0); [inversion H|].
      exists i. split; assumption.
    - exists 0. split; [lia|exact H]. }
  clear H. destruct Hdays as (days & Hpos & H).
  destruct (Executor_Client f); [|inversion H].
  apply bind_Returns in H. destruct H as ([kek err] & s1 & Hk & H).
  destruct err as [err|]; [inversion H|].
  destruct kek as [kek|]; [|inversion H].
  apply ret_Returns in H. destruct H as [Ht ->]. inversion Ht; subst t.
  destruct (getOrCreateKek_calls _ _ _ Hk) as (added & Hc & Hf & Hm).
  destruct (Hm kek eq_refl) as [H1 H2]. simpl.
  repeat split; try assumption.
  - intros ->. discriminate El.
  - exists added. repeat split; try assumption.
    apply kek_calls_not_kms. exact Hf.
Qed.

(** X28: a rule without a KEK name, or with an empty one, is refused by
    [NewTransform] before anything else: the error is "no kek name found"
    or "empty kek name", and no call is made, be the executor configured
    or not. *)
Theorem NewTransform_needs_kek_name :
  forall (f : Executor) (ctx : RuleContext) (s : state),
    GetParameter ctx EncryptKekName = None
    \/ GetParameter ctx EncryptKekName = Some EmptyString ->
    NewTransform f ctx s
    = (Returns (None,
                Some (Errorf match GetParameter ctx EncryptKekName with
                             | None => "no kek name found"
                             | Some _ => "empty kek name"
                             end [])), s).
Proof.
  intros f ctx s [H|H]; unfold NewTransform, getKekName; rewrite H;
    reflexivity.
Qed.

(** X29: an expiry in days that [strconv.Atoi] does not parse, or parses
    to a negative number, is refused by [NewTransform] with "invalid
    value for %s: %s" before any call. *)
Theorem NewTransform_refuses_bad_expiry :
  forall (f : Executor) (ctx : RuleContext) (s : state) (name days : string),
    GetParameter ctx EncryptKekName = Some name ->
    name <> EmptyString ->
    GetParameter ctx EncryptDekExpiryDays = Some days ->
    (forall i, Atoi days = OK i -> i < 0) ->
    NewTransform f ctx s
    = (Returns (None,
                Some (Errorf "invalid value for %s: %s"
                             [ArgS EncryptDekExpiryDays; ArgS days])), s).
Proof.
  intros f ctx s name days Hn Hne Hd Hbad.
  unfold NewTransform, getKekName, getDekExpiryDays. rewrite Hn, Hd.
  replace (Nat.eqb (String.length name) 0) with false
    by (destruct name; [contradiction|reflexivity]).
  destruct (Atoi days) as [i|e]; [|reflexivity].
  replace (i <? 0)%Z with true
    by (symmetry; apply Z.ltb_lt; apply Hbad; reflexivity).
  reflexivity.
Qed.


End ConfigurationProperties.

(** ** The in-memory collaborators obey the cipher laws *)

Module FakeFacts.

Import GoInt GoIntFacts Fake.

Lemma unshift_shift k b : unshift k (shift k b) = b.
Proof.
  unfold unshift, shift. rewrite Z_of_byte_of_Z.
  unfold byte_of_Z at 1.
  rewrite Zminus_mod_idemp_l.
  replace (Z_of_byte b + k - k) with (Z_of_byte b) by lia.
  apply byte_of_Z_of_byte.
Qed.

Lemma map_unshift_shift k p : map (unshift k) (map (shift k) p) = p.
Proof.
  induction p as [|b p IH]; simpl; [reflexivity|].
  rewrite unshift_shift, IH. reflexivity.
Qed.

Lemma hexValue_hexDigit n : 0 <= n < 16 -> hexValue (hexDigit n) = Some n.
Proof.
  intros H. unfold hexDigit, hexValue. cbv zeta.
  destruct (Z.ltb_spec n 10) as [Hlt|Hge];
    rewrite N_ascii_embedding by lia; rewrite Z2N.id by lia.
  - replace (48 <=? 48 + n)%Z with true by (symmetry; apply Z.leb_le; lia).
    replace (48 + n <=? 57)%Z with true by (symmetry; apply Z.leb_le; lia).
    cbv [andb]. f_equal. lia.
  - replace (87 + n <=? 57)%Z with false by (symmetry; apply Z.leb_gt; lia).
    rewrite andb_false_r.
    replace (97 <=? 87 + n)%Z with true by (symmetry; apply Z.leb_le; lia).
    replace (87 + n <=? 102)%Z with true by (symmetry; apply Z.leb_le; lia).
    cbv [andb]. f_equal. lia.
Qed.

Lemma decode_encode b : decode (encode b) = OK b.
Proof.
  induction b as [|x b IH]; [reflexivity|].
  pose proof (Z_of_byte_range x) as Hx.
  cbn [encode decode].
  rewrite !hexValue_hexDigit, IH.
  - rewrite <- Z.div_mod by lia. rewrite byte_of_Z_of_byte. reflexivity.
  - apply Z.mod_pos_bound. lia.
  - split; [apply Z.div_pos; lia | apply Z.div_lt_upper_bound; lia].
Qed.

Lemma laws : CipherLaws (C := collaborators).
Proof.
  constructor.
  - exact decode_encode.
  - intros typeURL key primitive a p ad w c w' _ _ He w2.
    cbn in He. unfold seal in He. inversion He; subst. cbn.
    rewrite map_unshift_shift. reflexivity.
  - intros typeURL key primitive d p ad w c w' _ _ He w2.
    cbn in He. unfold sealDeterministically in He. inversion He; subst. cbn.
    rewrite map_unshift_shift. reflexivity.
Qed.

End FakeFacts.

(** ** The properties on the in-memory collaborators *)

#[local] Existing Instance Fake.collaborators.

(** The end-to-end scenario of the round trip: [hello] written under
    [kek1] with rotation enabled reads back as [hello]. *)
Lemma Transform_roundtrip_witness :
  Fake.helloCiphertext = StringValue "00000000012bdcd9e0e0e3"
  /\ exists sR',
      Transform (Fake.transform Aes256Gcm 1)
                (Fake.context Read "fake" Aes256Gcm)
                TypeString Fake.helloCiphertext Fake.helloWritten
      = (Returns (StringValue "hello", None), sR').
Proof.
  split; [vm_compute; reflexivity|].
  apply (@Transform_roundtrip Fake.collaborators
           (Fake.transform Aes256Gcm 1) (Fake.transform Aes256Gcm 1)
           "topic-value" (Fake.params "fake" Aes256Gcm)
           TypeString (StringValue "hello")
           (Fake.start Fake.registeredWorld) Fake.helloWritten
           Fake.helloWritten Fake.helloCiphertext
           FakeFacts.laws eq_refl eq_refl eq_refl).
  - right. split; [reflexivity|]. exists "hello". reflexivity.
  - vm_compute. reflexivity.
  - intros dek key s2 (s1 & km & Hd & Hk & Hc).
    vm_compute in Hd. inversion Hd; subst dek s1; clear Hd.
    vm_compute in Hk. inversion Hk; subst km s2; clear Hk.
    simpl in Hc. subst key.
    eexists. eexists. eexists. eexists.
    split; [vm_compute; reflexivity|].
    split; vm_compute; reflexivity.
Defined.

(** A DEK stamped two days before the clock is expired for a writer with
    two expiry days and not for a reader. *)
Lemma isExpired_spec_witness :
  isExpired (Fake.transform Aes256Gcm 2) (Fake.context Write "fake" Aes256Gcm)
            (Some Fake.twoDaysOld) (Fake.start Fake.emptyWorld)
  = (Returns true,
     {| world := Fake.emptyWorld; calls := [EvNowUnixMilli] |})
  /\ isExpired (Fake.transform Aes256Gcm 2)
               (Fake.context Read "fake" Aes256Gcm)
               (Some Fake.twoDaysOld) (Fake.start Fake.emptyWorld)
     = (Returns false,
        {| world := Fake.emptyWorld; calls := [EvNowUnixMilli] |}).
Proof.
  destruct (@isExpired_spec Fake.collaborators
              (Fake.transform Aes256Gcm 2) "topic-value"
              (Fake.params "fake" Aes256Gcm) Fake.twoDaysOld
              (Fake.start Fake.emptyWorld) 1700000000000 Fake.emptyWorld
              eq_refl)
    as [[b (Hrun & _ & _ & _ & Hexp)] Hread];
    try (unfold GoInt.in_int64; simpl; lia).
  split; [|exact Hread].
  rewrite <- (Hexp eq_refl eq_refl). exact Hrun.
Defined.

(** A registration answered with status 500 after the record was stored:
    the second lookup finds the KEK and the call succeeds; the 500 is
    not reported. *)
Lemma registration_failure_is_refetched_witness :
  fst (getOrCreateKek (Fake.transform Aes256Gcm 0)
                      (Fake.context Write "fake" Aes256Gcm)
                      (Fake.start Fake.faultyWorld))
  = Returns (Some Fake.kek1, None).
Proof.
  rewrite (@registration_failure_is_refetched Fake.collaborators
             (Fake.transform Aes256Gcm 0)
             (Fake.context Write "fake" Aes256Gcm)
             (Fake.start Fake.faultyWorld)
             (RestError 40470 "Key not found") (RestError 500 "injected")
             Fake.faultyWorld Fake.registeredWorld Fake.registeredWorld
             (OK Fake.kek1)
             ltac:(discriminate) eq_refl eq_refl eq_refl eq_refl eq_refl).
  reflexivity.
Defined.

(** An empty bytes field read with rotation enabled panics. *)
Lemma short_frame_panics_witness :
  Transform (Fake.transform Aes256Gcm 1) (Fake.context Read "fake" Aes256Gcm)
            TypeBytes (BytesValue (Some [])) (Fake.start Fake.registeredWorld)
  = (Panics IndexOutOfRange, Fake.start Fake.registeredWorld).
Proof.
  apply (@short_frame_panics Fake.collaborators
           (Fake.transform Aes256Gcm 1) (Fake.context Read "fake" Aes256Gcm)
           [] (Fake.start Fake.registeredWorld) eq_refl eq_refl).
  simpl. lia.
Defined.

(** The frame of version 2 around two bytes. *)
Lemma version_frame_layout_witness :
  prefixVersion 2 [x0a; x0b] = OK [x00; x00; x00; x00; x02; x0a; x0b]
  /\ extractVersion [x00; x00; x00; x00; x02; x0a; x0b] = Returns (2, None)
  /\ slice_from [x00; x00; x00; x00; x02; x0a; x0b] 5 = Returns [x0a; x0b].
Proof.
  destruct (@version_frame_layout Fake.collaborators 2 [x0a; x0b]
              ltac:(lia))
    as [(b0 & b1 & b2 & b3 & Hp & _ & He & Hs) _].
  assert (Hf : MagicByteV0 :: b0 :: b1 :: b2 :: b3 :: [x0a; x0b]
               = [x00; x00; x00; x00; x02; x0a; x0b]).
  { vm_compute in Hp. inversion Hp. reflexivity. }
  rewrite Hf in Hp, He, Hs. repeat split; assumption.
Defined.

(** The algorithm name [AES512_GCM]: no key template, and encrypt and
    decrypt panic. *)
Lemma unsupported_algorithm_nil_template_panics_witness :
  Cryptor_KeyTemplate (getCryptor (Fake.context Write "fake" "AES512_GCM"))
  = None
  /\ encrypt (getCryptor (Fake.context Write "fake" "AES512_GCM"))
             [x01] [x68; x69] [] (Fake.start Fake.registeredWorld)
     = (Panics NilPointerDereference, Fake.start Fake.registeredWorld)
  /\ decrypt (getCryptor (Fake.context Write "fake" "AES512_GCM"))
             [x01] [x68; x69] [] (Fake.start Fake.registeredWorld)
     = (Panics NilPointerDereference, Fake.start Fake.registeredWorld).
Proof.
  destruct (@unsupported_algorithm_nil_template_panics Fake.collaborators
              (Fake.context Write "fake" "AES512_GCM") "AES512_GCM"
              eq_refl ltac:(discriminate) ltac:(discriminate)
              ltac:(discriminate))
    as (Hk & He & Hd).
  split; [exact Hk|]. split; [apply He | apply Hd].
Defined.

(** With a DEK on record under that algorithm name the write-mode
    transform itself panics. *)
Example unsupported_algorithm_transform_panics :
  fst (Transform (Fake.transform "AES512_GCM" 0)
                 (Fake.context Write "fake" "AES512_GCM")
                 TypeBytes (BytesValue (Some [x68; x69]))
                 (Fake.start Fake.strayWorld))
  = Panics NilPointerDereference.
Proof.
  vm_compute. reflexivity.
Qed.

(** An empty registry read by a consumer: both lookups are answered with
    "Key not found", both calls fail, nothing is registered. *)
Lemma read_mode_absent_fails_without_registration_witness :
  getOrCreateKek (Fake.transform Aes256Gcm 0)
                 (Fake.context Read "fake" Aes256Gcm)
                 (Fake.start Fake.emptyWorld)
  = (Returns (None,
              Some (Errorf "no kek found for %s during consume"
                           [ArgS "kek1"])),
     {| world := Fake.emptyWorld; calls := [EvGetKek "kek1" true] |})
  /\ getOrCreateDek (Fake.transform Aes256Gcm 0)
                    (Fake.context Read "fake" Aes256Gcm)
                    None (Fake.start Fake.emptyWorld)
     = (Returns (None,
                 Some (Errorf "no dek found for %s during consumer"
                              [ArgS "kek1"])),
        {| world := Fake.emptyWorld;
           calls := [EvGetDekVersion "kek1" "topic-value" 1 Aes256Gcm true;
                     EvNowUnixMilli] |}).
Proof.
  destruct (@read_mode_absent_fails_without_registration Fake.collaborators
              (Fake.transform Aes256Gcm 0) "topic-value"
              (Fake.params "fake" Aes256Gcm) None
              (Fake.start Fake.emptyWorld)
              (RestError 40470 "Key not found")
              (RestError 40470 "Key not found")
              Fake.emptyWorld Fake.emptyWorld
              eq_refl eq_refl eq_refl eq_refl)
    as [[Hk _] [Hd _]].
  split; [exact Hk | exact Hd].
Defined.

(** [kek1] is registered with KMS type [fake]; a rule asking for KMS type
    [other] fails after the lookup alone. *)
Lemma kek_mismatch_fails_without_kms_witness :
  exists err,
    getOrCreateKek (Fake.transform Aes256Gcm 0)
                   (Fake.context Write "other" Aes256Gcm)
                   (Fake.start Fake.registeredWorld)
    = (Returns (None, Some err),
       {| world := Fake.registeredWorld; calls := [EvGetKek "kek1" false] |}).
Proof.
  apply (@kek_mismatch_fails_without_kms Fake.collaborators
           (Fake.transform Aes256Gcm 0)
           (Fake.context Write "other" Aes256Gcm)
           (Fake.start Fake.registeredWorld) Fake.kek1 Fake.registeredWorld
           eq_refl).
  left. exists "other". repeat split; discriminate.
Defined.

(** A field of another type holding some other value. *)
Lemma Transform_unsupported_field_type_witness :
  Transform (Fake.transform Aes256Gcm 0) (Fake.context Read "fake" Aes256Gcm)
            (TypeOther 9) (OtherValue 7) (Fake.start Fake.registeredWorld)
  = (Returns (OtherValue 7, None), Fake.start Fake.registeredWorld)
  /\ Transform (Fake.transform Aes256Gcm 0)
               (Fake.context Write "fake" Aes256Gcm)
               (TypeOther 9) (OtherValue 7) (Fake.start Fake.registeredWorld)
     = (Returns (NilValue,
                 Some (Errorf "type '%v' not supported for encryption"
                              [ArgFieldType (TypeOther 9)])),
        Fake.start Fake.registeredWorld).
Proof.
  apply (@Transform_unsupported_field_type Fake.collaborators
           (Fake.transform Aes256Gcm 0) "topic-value"
           (Fake.params "fake" Aes256Gcm) 9 (OtherValue 7)
           (Fake.start Fake.registeredWorld)).
  discriminate.
Defined.

(** ** The further properties on the concrete collaborators *)

#[local] Existing Instance FakeRuntime.runtime.

(** The string [hello] in a bytes field. *)
Lemma Transform_type_assertion_panics_witness :
  Transform (Fake.transform Aes256Gcm 0) (Fake.context Write "fake" Aes256Gcm)
            TypeBytes (StringValue "hello") (Fake.start Fake.registeredWorld)
  = (Panics InterfaceConversion, Fake.start Fake.registeredWorld).
Proof.
  apply (@Transform_type_assertion_panics Fake.collaborators
           (Fake.transform Aes256Gcm 0) "topic-value"
           (Fake.params "fake" Aes256Gcm) (Fake.start Fake.registeredWorld)
           None "hello" 0 Write (or_introl eq_refl)).
Defined.

(** A migration mode. *)
Lemma Transform_unsupported_rule_mode_witness :
  Transform (Fake.transform Aes256Gcm 0)
            (Fake.context (UnrecognizedMode 1) "fake" Aes256Gcm)
            TypeBytes (BytesValue (Some [x01]))
            (Fake.start Fake.registeredWorld)
  = (Returns (NilValue,
              Some (Errorf "unsupported rule mode %v"
                           [ArgMode (UnrecognizedMode 1)])),
     Fake.start Fake.registeredWorld).
Proof.
  apply (@Transform_unsupported_rule_mode Fake.collaborators
           (Fake.transform Aes256Gcm 0) "topic-value"
           (Fake.params "fake" Aes256Gcm) 1 TypeBytes
           (BytesValue (Some [x01])) (Fake.start Fake.registeredWorld)).
  discriminate.
Defined.

(** The text [zz] is not in the codec's alphabet. *)
Lemma Transform_read_bad_base64_witness :
  Transform (Fake.transform Aes256Gcm 0) (Fake.context Read "fake" Aes256Gcm)
            TypeString (StringValue "zz") (Fake.start Fake.registeredWorld)
  = (Returns (NilValue, Some (ForeignError "invalid byte")),
     Fake.start Fake.registeredWorld).
Proof.
  apply (@Transform_read_bad_base64 Fake.collaborators
           (Fake.transform Aes256Gcm 0) "topic-value"
           (Fake.params "fake" Aes256Gcm) "zz" (ForeignError "invalid byte")
           (Fake.start Fake.registeredWorld)).
  reflexivity.
Defined.

(** Six bytes that start with 1 where the marker is 0. *)
Lemma Transform_read_unknown_marker_witness :
  Transform (Fake.transform Aes256Gcm 1) (Fake.context Read "fake" Aes256Gcm)
            TypeBytes (BytesValue (Some [x01; x00; x00; x00; x01; x2a]))
            (Fake.start Fake.registeredWorld)
  = (Returns (NilValue, Some (Errorf "unknown magic byte" [])),
     Fake.start Fake.registeredWorld).
Proof.
  apply (@Transform_read_unknown_marker Fake.collaborators
           (Fake.transform Aes256Gcm 1) "topic-value"
           (Fake.params "fake" Aes256Gcm) x01 [x00; x00; x00; x01; x2a]
           (Fake.start Fake.registeredWorld) eq_refl).
  discriminate.
Defined.

(** The empty bytes field read with rotation enabled panics, but not on
    a nil pointer. *)
Lemma Transform_never_dereferences_nil_witness :
  fst (Transform (Fake.transform Aes256Gcm 1)
                 (Fake.context Read "fake" Aes256Gcm)
                 TypeBytes (BytesValue (Some []))
                 (Fake.start Fake.registeredWorld))
  <> Panics NilPointerDereference.
Proof.
  apply (@Transform_never_dereferences_nil Fake.collaborators
           (Fake.transform Aes256Gcm 1) (Fake.context Read "fake" Aes256Gcm)
           TypeBytes (BytesValue (Some [])) (Fake.start Fake.registeredWorld)).
  discriminate.
Defined.

(** An empty registry and a rule with an empty KMS type. *)
Lemma getOrCreateKek_write_needs_kms_parameters_witness :
  getOrCreateKek (Fake.transform Aes256Gcm 0)
                 (Fake.context Write EmptyString Aes256Gcm)
                 (Fake.start Fake.emptyWorld)
  = (Returns (None,
              Some (Errorf "no kms type found for %s during produce"
                           [ArgS "kek1"])),
     {| world := Fake.emptyWorld; calls := [EvGetKek "kek1" false] |}).
Proof.
  apply (@getOrCreateKek_write_needs_kms_parameters Fake.collaborators
           (Fake.transform Aes256Gcm 0)
           (Fake.context Write EmptyString Aes256Gcm)
           (Fake.start Fake.emptyWorld)
           (RestError 40470 "Key not found") Fake.emptyWorld).
  - discriminate.
  - reflexivity.
  - left. reflexivity.
Defined.

(** An empty registry and a complete rule: [kek1] is registered. *)
Lemma getOrCreateKek_write_registers_witness :
  getOrCreateKek (Fake.transform Aes256Gcm 0)
                 (Fake.context Write "fake" Aes256Gcm)
                 (Fake.start Fake.emptyWorld)
  = (Returns (Some Fake.kek1, None),
     {| world := Fake.registeredWorld;
        calls := [EvGetKek "kek1" false;
                  EvRegisterKek "kek1" "fake" "id1" false] |}).
Proof.
  apply (@getOrCreateKek_write_registers Fake.collaborators
           (Fake.transform Aes256Gcm 0) (Fake.context Write "fake" Aes256Gcm)
           (Fake.start Fake.emptyWorld)
           (RestError 40470 "Key not found") Fake.emptyWorld
           Fake.registeredWorld "fake" "id1" Fake.kek1);
    try reflexivity; discriminate.
Defined.

(** The registry answers the DEK lookup with status 500. *)
Lemma getOrCreateDek_lookup_failure_surfaces_witness :
  getOrCreateDek (C := Scripted.collaborators) (Scripted.transform 0)
                 (Fake.context Write "fake" Aes256Gcm) None
                 (Scripted.start (Scripted.script [Scripted.outage] []))
  = (Returns (None, Some (RestError 500 "Internal Server Error")),
     Scripted.finish (Scripted.script [] [])
                     [EvGetDekVersion "kek1" "topic-value" 1 Aes256Gcm false]).
Proof.
  apply (@getOrCreateDek_lookup_failure_surfaces Scripted.collaborators
           (Scripted.transform 0) (Fake.context Write "fake" Aes256Gcm) None
           (Scripted.start (Scripted.script [Scripted.outage] []))
           (RestError 500 "Internal Server Error") (Scripted.script [] []));
    reflexivity.
Defined.

(** A consumer finds version 1 with its key material. *)
Lemma getOrCreateDek_hit_witness :
  getOrCreateDek (C := Scripted.collaborators) (Scripted.transform 0)
                 (Fake.context Read "fake" Aes256Gcm) None
                 (Scripted.start
                    (Scripted.script [OK (Scripted.dek 1 0)] []))
  = (Returns (Some (Scripted.dek 1 0), None),
     Scripted.finish (Scripted.script [] [])
                     [EvGetDekVersion "kek1" "topic-value" 1 Aes256Gcm true;
                      EvNowUnixMilli; EvGetDekKeyMaterialBytes]).
Proof.
  apply (@getOrCreateDek_hit Scripted.collaborators
           (Scripted.transform 0) (Fake.context Read "fake" Aes256Gcm) None
           (Scripted.start (Scripted.script [OK (Scripted.dek 1 0)] []))
           (Scripted.dek 1 0) (Scripted.script [] []) (Scripted.script [] [])
           [x2a]);
    [left|..]; reflexivity.
Defined.

(** A producer finds no DEK and the registry creates version 1. *)
Lemma getOrCreateDek_first_version_shared_witness :
  getOrCreateDek (C := Scripted.collaborators) (Scripted.transform 0)
                 (Fake.context Write "fake" Aes256Gcm) None
                 (Scripted.start
                    (Scripted.script [Fake.notFound; OK (Scripted.dek 1 0)]
                                     []))
  = (Returns (Some (Scripted.dek 1 0), None),
     Scripted.finish (Scripted.script [] [])
                     [EvGetDekVersion "kek1" "topic-value" 1 Aes256Gcm false;
                      EvNowUnixMilli;
                      EvRegisterDekVersion "kek1" "topic-value" 1 Aes256Gcm
                                           EmptyString;
                      EvGetDekKeyMaterialBytes]).
Proof.
  apply (@getOrCreateDek_first_version_shared Scripted.collaborators
           (Scripted.transform 0) (Fake.context Write "fake" Aes256Gcm) None
           (Scripted.start
              (Scripted.script [Fake.notFound; OK (Scripted.dek 1 0)] []))
           (RestError 40470 "Key not found")
           (Scripted.script [OK (Scripted.dek 1 0)] [])
           (Scripted.script [] []) (Scripted.script [] [])
           (Scripted.dek 1 0) [x2a]);
    try reflexivity; discriminate.
Defined.

(** The registration of version 4 fails with status 500 and the lookup
    of the latest version finds version 3. *)
Lemma createDek_refetches_requested_version_witness :
  createDek (C := Scripted.collaborators) (Scripted.transform 1)
            (dekIDOf (Scripted.transform 1)
                     (Fake.context Write "fake" Aes256Gcm) (Some (-1)))
            4 None
            (Scripted.start
               (Scripted.script [Scripted.outage; OK (Scripted.dek 3 0)] []))
  = (Returns (Some (Scripted.dek 3 0), None),
     Scripted.finish (Scripted.script [] [])
                     [EvRegisterDekVersion "kek1" "topic-value" 4 Aes256Gcm
                                           EmptyString;
                      EvGetDekVersion "kek1" "topic-value" (-1) Aes256Gcm
                                      false]).
Proof.
  apply (@createDek_refetches_requested_version Scripted.collaborators
           (Scripted.transform 1)
           (dekIDOf (Scripted.transform 1)
                    (Fake.context Write "fake" Aes256Gcm) (Some (-1)))
           4
           (Scripted.start
              (Scripted.script [Scripted.outage; OK (Scripted.dek 3 0)] []))
           (RestError 500 "Internal Server Error")
           (Scripted.script [OK (Scripted.dek 3 0)] [])
           (Scripted.script [] []) (OK (Scripted.dek 3 0)));
    reflexivity.
Defined.

(** Version 1 is two days old, the expiry is one day: version 2 is
    registered. *)
Lemma getOrCreateDek_rotates_to_next_version_witness :
  getOrCreateDek (C := Scripted.collaborators) (Scripted.transform 1)
                 (Fake.context Write "fake" Aes256Gcm) (Some (-1))
                 (Scripted.start
                    (Scripted.script [OK (Scripted.dek 1 172800000);
                                      OK (Scripted.dek 2 0)] []))
  = (Returns (Some (Scripted.dek 2 0), None),
     Scripted.finish (Scripted.script [] [])
                     [EvGetDekVersion "kek1" "topic-value" (-1) Aes256Gcm
                                      false;
                      EvNowUnixMilli;
                      EvRegisterDekVersion "kek1" "topic-value" 2 Aes256Gcm
                                           EmptyString;
                      EvGetDekKeyMaterialBytes]).
Proof.
  apply (@getOrCreateDek_rotates_to_next_version Scripted.collaborators
           (Scripted.transform 1) (Fake.context Write "fake" Aes256Gcm)
           (Some (-1))
           (Scripted.start
              (Scripted.script [OK (Scripted.dek 1 172800000);
                                OK (Scripted.dek 2 0)] []))
           (Scripted.script [OK (Scripted.dek 2 0)] [])
           (Scripted.script [] []) (Scripted.script [] [])
           (Scripted.dek 1 172800000) (Scripted.dek 2 0) [x2a]);
    try reflexivity; discriminate.
Defined.

(** Version 1 is two days old and the registry is down after the first
    lookup: the expired version 1 is used. *)
Lemma getOrCreateDek_falls_back_to_prior_witness :
  getOrCreateDek (C := Scripted.collaborators) (Scripted.transform 1)
                 (Fake.context Write "fake" Aes256Gcm) (Some (-1))
                 (Scripted.start
                    (Scripted.script [OK (Scripted.dek 1 172800000);
                                      Scripted.outage; Scripted.outage] []))
  = (Returns (Some (Scripted.dek 1 172800000), None),
     Scripted.finish (Scripted.script [] [])
                     [EvGetDekVersion "kek1" "topic-value" (-1) Aes256Gcm
                                      false;
                      EvNowUnixMilli;
                      EvRegisterDekVersion "kek1" "topic-value" 2 Aes256Gcm
                                           EmptyString;
                      EvGetDekVersion "kek1" "topic-value" (-1) Aes256Gcm
                                      false;
                      EvLog "WARN: failed to create dek for %s, subject %s, version %d, using existing dek\n"
                            [ArgS "kek1"; ArgS "topic-value"; ArgI 2];
                      EvGetDekKeyMaterialBytes]).
Proof.
  apply (@getOrCreateDek_falls_back_to_prior Scripted.collaborators
           (Scripted.transform 1) (Fake.context Write "fake" Aes256Gcm)
           (Some (-1))
           (Scripted.start
              (Scripted.script [OK (Scripted.dek 1 172800000);
                                Scripted.outage; Scripted.outage] []))
           (Scripted.script [Scripted.outage; Scripted.outage] [])
           (Scripted.script [Scripted.outage] [])
           (Scripted.script [] []) (Scripted.script [] [])
           (Scripted.dek 1 172800000)
           (RestError 500 "Internal Server Error")
           (RestError 500 "Internal Server Error") [x2a]);
    try reflexivity; discriminate.
Defined.

(** A client registered for [fake://id1] is reused. *)
Lemma getAead_reuses_registered_client_witness :
  getAead (C := Scripted.collaborators) [] Scripted.sharedKek
          (Scripted.start (Scripted.cache (Scripted.script [] [])))
  = (Returns (OK tt),
     Scripted.finish (Scripted.cache (Scripted.script [] []))
                     [EvGetKMSDriver "fake://id1"; EvGetKMSClient "fake://id1";
                      EvGetAEAD "fake://id1"]).
Proof.
  apply (@getAead_reuses_registered_client Scripted.collaborators
           [] Scripted.sharedKek
           (Scripted.start (Scripted.cache (Scripted.script [] [])))
           tt "fake://id1"
           (Scripted.cache (Scripted.script [] []))
           (Scripted.cache (Scripted.script [] []))
           (Scripted.cache (Scripted.script [] []))
           (OK tt));
    reflexivity.
Defined.

(** No client is registered for [fake://id1]: one is constructed and
    registered. *)
Lemma getAead_constructs_and_registers_client_witness :
  getAead (C := Scripted.collaborators) [] Scripted.sharedKek
          (Scripted.start (Scripted.script [] []))
  = (Returns (OK tt),
     Scripted.finish (Scripted.cache (Scripted.script [] []))
                     [EvGetKMSDriver "fake://id1"; EvGetKMSClient "fake://id1";
                      EvNewKMSClient "fake://id1"; EvRegisterKMSClient;
                      EvGetAEAD "fake://id1"]).
Proof.
  apply (@getAead_constructs_and_registers_client Scripted.collaborators
           [] Scripted.sharedKek (Scripted.start (Scripted.script [] []))
           tt (Scripted.script [] []) (Scripted.script [] [])
           (Scripted.script [] []) (ForeignError "KMS client not found")
           (OK "fake://id1"));
    reflexivity.
Defined.

(** [a] keeps its value when [b] and [c] are passed in. *)
Lemma Configure_keeps_bindings_witness :
  exists current',
    Executor_Config FakeRuntime.reconfigured = Some current'
    /\ mapLookup current' "a" = Some "1".
Proof.
  apply (@Configure_keeps_bindings FakeRuntime.runtime
           FakeRuntime.configured FakeRuntime.reconfigured "http://registry"
           (Some [("b", "2"); ("c", "3")]) None
           [("a", "1"); ("b", "2")] "a" "1");
    reflexivity.
Defined.

(** [c] is part of the configuration after it was passed in. *)
Lemma Configure_success_holds_config_witness :
  exists current',
    Executor_Config FakeRuntime.reconfigured = Some current'
    /\ mapLookup current' "c" = Some "3".
Proof.
  apply (@Configure_success_holds_config FakeRuntime.runtime
           FakeRuntime.configured FakeRuntime.reconfigured "http://registry"
           [("b", "2"); ("c", "3")] "c" "3").
  - repeat constructor; simpl; intuition discriminate.
  - reflexivity.
  - right. left. reflexivity.
Defined.

(** Passing [b] and [c] in once more changes nothing. *)
Lemma Configure_twice_witness :
  Configure FakeRuntime.reconfigured "http://registry"
            (Some [("b", "2"); ("c", "3")])
  = (FakeRuntime.reconfigured, None).
Proof.
  apply (@Configure_twice FakeRuntime.runtime
           FakeRuntime.configured FakeRuntime.reconfigured "http://registry"
           (Some [("b", "2"); ("c", "3")])).
  - intros client H. inversion H. reflexivity.
  - repeat constructor; simpl; intuition discriminate.
  - reflexivity.
Defined.

(** [a] is set to 1; passing it in as 9 fails. *)
Lemma Configure_fails_on_conflict_witness :
  snd (Configure FakeRuntime.configured "http://registry"
                 (Some [("a", "9")])) <> None.
Proof.
  apply (@Configure_fails_on_conflict FakeRuntime.runtime
           FakeRuntime.configured "http://registry" "http://registry"
           [("a", "1"); ("b", "2")] [("a", "9")] eq_refl eq_refl eq_refl).
  - repeat constructor; simpl; intuition.
  - exists "a", "9", "1". split; [left; reflexivity|].
    split; [reflexivity|discriminate].
Defined.

(** A transform for [kek1] with seven expiry days, built on an empty
    registry. *)
Lemma NewTransform_builds_witness :
  KekName (newTransform FakeRuntime.configured
                        (FakeRuntime.context Write "7") "kek1" 7 Fake.kek1)
  <> EmptyString
  /\ 0 <= DekExpiryDays
            (newTransform FakeRuntime.configured
                          (FakeRuntime.context Write "7") "kek1" 7 Fake.kek1)
  /\ existsb isKms (calls FakeRuntime.kekRegistered) = false.
Proof.
  destruct (@NewTransform_builds Fake.collaborators FakeRuntime.runtime
              FakeRuntime.configured (FakeRuntime.context Write "7")
              (Fake.start Fake.emptyWorld) FakeRuntime.kekRegistered
              (newTransform FakeRuntime.configured
                            (FakeRuntime.context Write "7") "kek1" 7
                            Fake.kek1)
              eq_refl)
    as (_ & Hname & Hdays & _ & _ & _ & _).
  split; [exact Hname|]. split; [exact Hdays|reflexivity].
Defined.

(** A rule without parameters on an executor that was never
    configured. *)
Lemma NewTransform_needs_kek_name_witness :
  NewTransform FakeRuntime.unconfigured (FakeRuntime.bare Write)
               (Fake.start Fake.emptyWorld)
  = (Returns (None, Some (Errorf "no kek name found" [])),
     Fake.start Fake.emptyWorld).
Proof.
  apply (@NewTransform_needs_kek_name Fake.collaborators FakeRuntime.runtime
           FakeRuntime.unconfigured (FakeRuntime.bare Write)
           (Fake.start Fake.emptyWorld)).
  left. reflexivity.
Defined.

(** Minus three expiry days. *)
Lemma NewTransform_refuses_bad_expiry_witness :
  NewTransform FakeRuntime.configured (FakeRuntime.context Write "-3")
               (Fake.start Fake.emptyWorld)
  = (Returns (None,
              Some (Errorf "invalid value for %s: %s"
                           [ArgS EncryptDekExpiryDays; ArgS "-3"])),
     Fake.start Fake.emptyWorld).
Proof.
  apply (@NewTransform_refuses_bad_expiry Fake.collaborators
           FakeRuntime.runtime FakeRuntime.configured
           (FakeRuntime.context Write "-3") (Fake.start Fake.emptyWorld)
           "kek1" "-3" eq_refl).
  - discriminate.
  - reflexivity.
  - intros i H. inversion H. reflexivity.
Defined.

